(** * CX TimeFilter MCP server: request dispatch, validation and envelopes

    A shallow embedding of the JavaScript sources

    - [src/utils/mcp-protocol.js]  (envelope builders, request validator),
    - [src/tools/timefilter.js]    (the period catalog and the three tools),
    - [src/server.js]              (the [/mcp/tools/call] handler),

    followed by the properties proved about them.  JavaScript values are
    an inductive type, objects keep their keys in insertion order, the
    wall clock and the random generator are an explicit world threaded
    through a small state-and-exception monad, and a thrown error is a
    completion of that monad.  Strings are held as their UTF-8 bytes; the
    catalog and the protocol constants are all ASCII.  Case mapping is
    computed on ASCII strings and is the engine's, read from the world,
    on the others.  Console logging is not modelled. *)

From Stdlib Require Import ZArith Lia Ascii String List Bool.
From stdpp Require Import gmap strings list pretty.

Local Open Scope string_scope.
Local Open Scope Z_scope.

(* ===================================================================== *)
(** * JavaScript values and the built-ins the program uses               *)
(* ===================================================================== *)

Module Js.

(** Values.  [Num] holds the integer-valued numbers the program handles
    (error codes, scales, time values, counts), and [NaN] the number that
    is none; a fractional number in a request would fare as a non-zero
    integer does where the program asks whether a number is falsy, its
    one other use of a request's number being to print it in the message
    for an unknown name or method.
    [Fn] is a built-in function reached through [Object.prototype], given
    by its name; [ObjectPrototype] is that prototype object itself. *)
#[local] Unset Elimination Schemes.
Inductive Value : Type :=
| Undefined
| Null
| Bool (b : bool)
| Num (n : Z)
| NaN
| Str (s : string)
| Arr (items : list Value)
| Obj (props : list (string * Value))
| Fn (name : string)
| ObjectPrototype.
#[local] Set Elimination Schemes.

(** ToBoolean. *)
Definition truthy (v : Value) : bool :=
  match v with
  | Undefined | Null | NaN => false
  | Bool b => b
  | Num n => negb (n =? 0)%Z
  | Str s => negb (String.eqb s EmptyString)
  | Arr _ | Obj _ | Fn _ | ObjectPrototype => true
  end.

(** [a || b] *)
Definition or_else (a b : Value) : Value := if truthy a then a else b.

(** Own property of an object literal. *)
Fixpoint own (props : list (string * Value)) (k : string) : option Value :=
  match props with
  | [] => None
  | (k', v) :: rest => if String.eqb k' k then Some v else own rest k
  end.

Definition has_own (v : Value) (k : string) : bool :=
  match v with
  | Obj props => match own props k with Some _ => true | None => false end
  | _ => false
  end.

(** The properties every ordinary object inherits from
    [Object.prototype]. *)
Definition Object_prototype_methods : list string :=
  [ "__defineGetter__"; "__defineSetter__"; "hasOwnProperty";
    "__lookupGetter__"; "__lookupSetter__"; "isPrototypeOf";
    "propertyIsEnumerable"; "toString"; "valueOf"; "toLocaleString" ].

Definition Object_prototype_get (k : string) : Value :=
  if String.eqb k "constructor" then Fn "Object"
  else if existsb (String.eqb k) Object_prototype_methods then Fn k
  else if String.eqb k "__proto__" then ObjectPrototype
  else Undefined.

(** [v.k] / [v[k]]: [None] is the TypeError of reading a property of
    [undefined] or [null].  An object answers with its own property, else
    with the inherited one.  Strings, numbers, booleans and arrays have
    further properties of their own ([length], ...) and of their
    prototypes; the program reads request data only, and none of the
    names it reads there ([name], [arguments], [method], [params],
    [jsonrpc], [result], [error], the schema keys) is among them. *)
Definition get (v : Value) (k : string) : option Value :=
  match v with
  | Undefined | Null => None
  | Obj props =>
      Some (match own props k with
            | Some x => x
            | None => Object_prototype_get k
            end)
  | _ => Some (Object_prototype_get k)
  end.

(** A property read from a value already known to be neither
    [undefined] nor [null]. *)
Definition field (v : Value) (k : string) : Value :=
  match get v k with
  | Some x => x
  | None => Undefined
  end.

(** [v === "s"] *)
Definition strict_eq_string (v : Value) (s : string) : bool :=
  match v with
  | Str s' => String.eqb s' s
  | _ => false
  end.

(** ** Strings *)

Definition dquote : string := String (ascii_of_nat 34) EmptyString.
Definition newline : string := String (ascii_of_nat 10) EmptyString.

Definition lower_char (c : ascii) : ascii :=
  let n := nat_of_ascii c in
  if (Nat.leb 65 n && Nat.leb n 90)%bool then ascii_of_nat (n + 32) else c.

(** Strings are held as their UTF-8 bytes.  A string is ASCII when every
    byte is below 128. *)
Definition is_ascii (s : string) : bool :=
  forallb (fun c => Nat.ltb (nat_of_ascii c) 128) (list_ascii_of_string s).

(** [s.toLowerCase()] of an ASCII string: the letters A to Z are lowered
    and nothing else changes.  On a string that holds other characters
    the method follows the Unicode case tables of the engine, which the
    world supplies (see [lowered] below). *)
Fixpoint toLowerCase (s : string) : string :=
  match s with
  | EmptyString => EmptyString
  | String c rest => String (lower_char c) (toLowerCase rest)
  end.

(** [s.includes(sub)] *)
Fixpoint includes (s sub : string) : bool :=
  String.prefix sub s ||
  match s with
  | EmptyString => false
  | String _ rest => includes rest sub
  end.

Fixpoint drop_chars (n : nat) (s : string) : string :=
  match n, s with
  | O, _ => s
  | S n', String _ rest => drop_chars n' rest
  | S _, EmptyString => EmptyString
  end.

(** [s.replace(pat, by)] with a string pattern: the first occurrence
    only. *)
Fixpoint replace (s pat by_ : string) : string :=
  if String.prefix pat s then by_ +:+ drop_chars (String.length pat) s
  else match s with
       | EmptyString => EmptyString
       | String c rest => String c (replace rest pat by_)
       end.

(** [xs.join(sep)] on an array of strings *)
Fixpoint join (sep : string) (xs : list string) : string :=
  match xs with
  | [] => EmptyString
  | [x] => x
  | x :: rest => x +:+ sep +:+ join sep rest
  end.

(** [s.substr(from, len)] *)
Definition substr (from len : nat) (s : string) : string :=
  String.substring from len s.

(** The integers that print digit for digit: up to
    [Number.MAX_SAFE_INTEGER]. *)
Definition is_safe_integer (n : Z) : bool := Z.abs n <=? 9007199254740991.

(** The message of the TypeError of converting an object that has no
    primitive form (V8's wording). *)
Definition cannot_convert : string :=
  "Cannot convert object to primitive value".

(** ToString, as a template literal applies it; [None] is that
    TypeError.  A number beyond the safe integers prints in the engine's
    shortest form ([1e+21], [1152921504606847000]), given by [big].  An
    array joins the forms of its items.  An object goes through
    ToPrimitive: an object with no [toString] of its own inherits
    [Object.prototype.toString]; an own [toString] that is not callable
    is passed over, and [valueOf], inherited or own and not callable,
    gives no primitive, so the conversion throws.  This is the
    conversion of the values of a JSON document, whose objects hold no
    function. *)
Fixpoint ToString (big : Z -> string) (v : Value) : option string :=
  match v with
  | Undefined => Some "undefined"
  | Null => Some "null"
  | Bool b => Some (if b then "true" else "false")
  | Num n => Some (if is_safe_integer n then pretty n else big n)
  | NaN => Some "NaN"
  | Str s => Some s
  | Arr items =>
      option_map (join ",")
        ((fix each (xs : list Value) : option (list string) :=
            match xs with
            | [] => Some []
            | x :: rest =>
                match match x with
                      | Undefined | Null => Some EmptyString
                      | _ => ToString big x
                      end, each rest with
                | Some text, Some texts => Some (text :: texts)
                | _, _ => None
                end
            end) items)
  | Obj props =>
      match own props "toString" with
      | None => Some "[object Object]"
      | Some _ => None
      end
  | ObjectPrototype => Some "[object Object]"
  | Fn name => Some ("function " +:+ name +:+ "() { [native code] }")
  end.

(** The values of a JSON document: what [JSON.parse] yields. *)
Fixpoint is_json (v : Value) : bool :=
  match v with
  | Null | Bool _ | Num _ | Str _ => true
  | Arr items =>
      (fix all (xs : list Value) : bool :=
         match xs with
         | [] => true
         | x :: rest => is_json x && all rest
         end) items
  | Obj props =>
      (fix all (ps : list (string * Value)) : bool :=
         match ps with
         | [] => true
         | (_, x) :: rest => is_json x && all rest
         end) props
  | Undefined | NaN | Fn _ | ObjectPrototype => false
  end.

(** The name of [undefined] or [null] in an error message. *)
Definition nullish_name (v : Value) : string :=
  match v with
  | Null => "null"
  | _ => "undefined"
  end.

(** ** JSON.stringify(value, null, 2) *)

Definition hex_digit (n : nat) : ascii :=
  ascii_of_nat (if Nat.ltb n 10 then 48 + n else 87 + n).

Definition escape_char (c : ascii) : string :=
  let n := nat_of_ascii c in
  let bs := String (ascii_of_nat 92) EmptyString in
  if Nat.eqb n 34 then bs +:+ dquote
  else if Nat.eqb n 92 then bs +:+ bs
  else if Nat.eqb n 8 then bs +:+ "b"
  else if Nat.eqb n 12 then bs +:+ "f"
  else if Nat.eqb n 10 then bs +:+ "n"
  else if Nat.eqb n 13 then bs +:+ "r"
  else if Nat.eqb n 9 then bs +:+ "t"
  else if Nat.ltb n 32 then
    bs +:+ "u00" +:+
    String (hex_digit (Nat.div n 16))
      (String (hex_digit (Nat.modulo n 16)) EmptyString)
  else String c EmptyString.

Fixpoint escape (s : string) : string :=
  match s with
  | EmptyString => EmptyString
  | String c rest => escape_char c +:+ escape rest
  end.

Definition quote (s : string) : string := dquote +:+ escape s +:+ dquote.

(** [None] is the [undefined] that [JSON.stringify] yields for a value
    with no JSON form; such a property is left out of an object and
    printed as [null] in an array. *)
Fixpoint stringify_at (indent : string) (v : Value) : option string :=
  let inner := indent +:+ "  " in
  let sep := "," +:+ newline +:+ inner in
  match v with
  | Undefined | Fn _ => None
  | Null | NaN => Some "null"
  | Bool b => Some (if b then "true" else "false")
  | Num n => Some (pretty n)
  | Str s => Some (quote s)
  | Arr items =>
      let parts :=
        (fix each (xs : list Value) : list string :=
           match xs with
           | [] => []
           | x :: rest =>
               match stringify_at inner x with
               | Some s => s
               | None => "null"
               end :: each rest
           end) items in
      Some (match parts with
            | [] => "[]"
            | _ => "[" +:+ newline +:+ inner +:+ join sep parts
                   +:+ newline +:+ indent +:+ "]"
            end)
  | Obj props =>
      let parts :=
        (fix each (ps : list (string * Value)) : list string :=
           match ps with
           | [] => []
           | (k, x) :: rest =>
               match stringify_at inner x with
               | Some s => (quote k +:+ ": " +:+ s) :: each rest
               | None => each rest
               end
           end) props in
      Some (match parts with
            | [] => "{}"
            | _ => "{" +:+ newline +:+ inner +:+ join sep parts
                   +:+ newline +:+ indent +:+ "}"
            end)
  | ObjectPrototype => Some "{}"
  end.

Definition JSON_stringify (v : Value) : Value :=
  match stringify_at EmptyString v with
  | Some s => Str s
  | None => Undefined
  end.

(** ** Dates

    A [Date] is its time value: milliseconds since the epoch, or [None]
    for an invalid date (time value NaN). *)

Definition msPerDay : Z := 86400000.

(** Day number of a civil date in the proleptic Gregorian calendar
    (MakeDay); a day of month past the month's end runs into the next
    month. *)
Definition days_from_civil (y m d : Z) : Z :=
  let y' := if m <=? 2 then y - 1 else y in
  let era := y' / 400 in
  let yoe := y' - era * 400 in
  let mp := if 2 <? m then m - 3 else m + 9 in
  let doy := (153 * mp + 2) / 5 + d - 1 in
  let doe := yoe * 365 + yoe / 4 - yoe / 100 + doy in
  era * 146097 + doe - 719468.

Definition civil_from_days (days : Z) : Z * Z * Z :=
  let z := days + 719468 in
  let era := z / 146097 in
  let doe := z - era * 146097 in
  let yoe := (doe - doe / 1460 + doe / 36524 - doe / 146096) / 365 in
  let doy := doe - (365 * yoe + yoe / 4 - yoe / 100) in
  let mp := (5 * doy + 2) / 153 in
  let d := doy - (153 * mp + 2) / 5 + 1 in
  let m := if mp <? 10 then mp + 3 else mp - 9 in
  let y := yoe + era * 400 + (if m <=? 2 then 1 else 0) in
  (y, m, d).

Fixpoint zeros (n : nat) : string :=
  match n with
  | O => EmptyString
  | S n' => String "0" (zeros n')
  end.

Definition pad (width : nat) (n : Z) : string :=
  let s := pretty n in
  zeros (width - String.length s) +:+ s.

(** [date.toISOString()] of a valid date. *)
Definition toISOString (t : Z) : string :=
  let '(y, m, d) := civil_from_days (t / msPerDay) in
  let ms := t mod msPerDay in
  let year :=
    if (0 <=? y) && (y <=? 9999) then pad 4 y
    else (if y <? 0 then "-" else "+") +:+ pad 6 (Z.abs y) in
  year +:+ "-" +:+ pad 2 m +:+ "-" +:+ pad 2 d +:+ "T"
  +:+ pad 2 (ms / 3600000) +:+ ":" +:+ pad 2 (ms / 60000 mod 60)
  +:+ ":" +:+ pad 2 (ms / 1000 mod 60) +:+ "." +:+ pad 3 (ms mod 1000)
  +:+ "Z".

Definition is_digit (c : ascii) : bool :=
  let n := nat_of_ascii c in (Nat.leb 48 n && Nat.leb n 57)%bool.

Definition digit (c : ascii) : Z := Z.of_nat (nat_of_ascii c) - 48.

(** [/^\d{4}-\d{2}-\d{2}$/.test(s)] *)
Definition date_regex_test (s : string) : bool :=
  match list_ascii_of_string s with
  | [y1; y2; y3; y4; h1; m1; m2; h2; d1; d2] =>
      is_digit y1 && is_digit y2 && is_digit y3 && is_digit y4
      && Ascii.eqb h1 "-" && is_digit m1 && is_digit m2
      && Ascii.eqb h2 "-" && is_digit d1 && is_digit d2
  | _ => false
  end.

Definition is_leap_year (y : Z) : bool :=
  ((y mod 4 =? 0) && negb (y mod 100 =? 0)) || (y mod 400 =? 0).

Definition days_in_month (y m : Z) : Z :=
  if m =? 2 then (if is_leap_year y then 29 else 28)
  else if (m =? 4) || (m =? 6) || (m =? 9) || (m =? 11) then 30
  else 31.

(** The time value of a date-only string [YYYY-MM-DD] that names a day of
    the calendar: midnight UTC of that day, in every engine.  [None] is
    for every other string: other formats, and element values out of
    range, on which engines differ (V8 reads 2024-02-30 as the first of
    March). *)
Definition parse_iso_date (s : string) : option Z :=
  match list_ascii_of_string s with
  | [y1; y2; y3; y4; h1; m1; m2; h2; d1; d2] =>
      if date_regex_test s then
        let y := digit y1 * 1000 + digit y2 * 100 + digit y3 * 10 + digit y4 in
        let m := digit m1 * 10 + digit m2 in
        let d := digit d1 * 10 + digit d2 in
        if (1 <=? m) && (m <=? 12) && (1 <=? d) && (d <=? days_in_month y m)
        then Some (days_from_civil y m d * msPerDay)
        else None
      else None
  | _ => None
  end.

End Js.

(* ===================================================================== *)
(** * Effects: the clock, the random generator, thrown errors            *)
(* ===================================================================== *)

(** The world holds what the program reads but does not control: the
    successive readings of the wall clock ([Date.now()], [new Date()]);
    the successive draws of [Math.random()], each draw given by the
    base-36 digits after the point of [Math.random().toString(36)]; and
    the engine's reading of a date string ([new Date(s)]), [None] for an
    invalid date.  It also holds two more tables of the engine:
    [String.prototype.toLowerCase] on the strings that are not ASCII,
    which follows the Unicode data the engine was built with; and the
    printing of the integers beyond the safe ones. *)
Record World : Type := mkWorld {
  clock : nat -> Z;
  clock_reads : nat;
  random_digits : nat -> string;
  random_draws : nat;
  date_parse : string -> option Z;
  unicode_lower : string -> string;
  number_text : Z -> string
}.

(** [s.toLowerCase()] in a world. *)
Definition lowered (w : World) (s : string) : string :=
  if Js.is_ascii s then Js.toLowerCase s else unicode_lower w s.

(** How a computation ends: with a value, or with a thrown [Error], of
    which the program only ever reads the [message]. *)
Inductive Completion (A : Type) : Type :=
| Normal (a : A)
| Throw (message : string).
Arguments Normal {A} a.
Arguments Throw {A} message.

Definition Eff (A : Type) : Type := World -> Completion A * World.

Module Eff.

Definition ret {A} (a : A) : Eff A := fun w => (Normal a, w).

Definition bind {A B} (m : Eff A) (k : A -> Eff B) : Eff B :=
  fun w =>
    match m w with
    | (Normal a, w') => k a w'
    | (Throw e, w') => (Throw e, w')
    end.

Definition throw {A} (message : string) : Eff A :=
  fun w => (Throw message, w).

(** [try { body } catch (error) { handler(error.message) }] *)
Definition try_catch {A} (body : Eff A) (handler : string -> Eff A) : Eff A :=
  fun w =>
    match body w with
    | (Normal a, w') => (Normal a, w')
    | (Throw e, w') => handler e w'
    end.

(** [Date.now()], and the time value of [new Date()] *)
Definition now : Eff Z :=
  fun w =>
    (Normal (clock w (clock_reads w)),
     mkWorld (clock w) (S (clock_reads w)) (random_digits w) (random_draws w)
       (date_parse w) (unicode_lower w) (number_text w)).

(** The digits of [Math.random().toString(36)] after ["0."] *)
Definition random : Eff string :=
  fun w =>
    (Normal (random_digits w (random_draws w)),
     mkWorld (clock w) (clock_reads w) (random_digits w) (S (random_draws w))
       (date_parse w) (unicode_lower w) (number_text w)).

(** The time value of [new Date(s)] *)
Definition parse_date (s : string) : Eff (option Z) :=
  fun w => (Normal (date_parse w s), w).

(** The engine's [toLowerCase], to apply to strings. *)
Definition toLowerCase : Eff (string -> string) :=
  fun w => (Normal (lowered w), w).

(** [`${v}`]: the string form of a value inside a template literal, or
    the TypeError of a value that has none. *)
Definition template (v : Js.Value) : Eff string :=
  fun w =>
    match Js.ToString (number_text w) v with
    | Some text => (Normal text, w)
    | None => (Throw Js.cannot_convert, w)
    end.

End Eff.

Notation "'let*' x ':=' m 'in' k" :=
  (Eff.bind m (fun x => k))
  (at level 10, x name, m at level 100, k at level 200, only parsing).

(* ===================================================================== *)
(** * src/utils/mcp-protocol.js                                          *)
(* ===================================================================== *)

Module Protocol.
Import Js.

(** [generateId]: [mcp_${Date.now()}_${Math.random().toString(36).substr(2, 9)}] *)
Definition generateId : Eff string :=
  let* t := Eff.now in
  let* r := Eff.random in
  Eff.ret ("mcp_" +:+ pretty t +:+ "_" +:+ substr 0 9 r).

(** The table of [getErrorCode], an object literal used as a map. *)
Definition errorCodes : gmap string Z :=
  list_to_map
    [ ("PARSE_ERROR", -32700);
      ("INVALID_REQUEST", -32600);
      ("METHOD_NOT_FOUND", -32601);
      ("INVALID_PARAMS", -32602);
      ("INTERNAL_ERROR", -32603);
      ("NOT_FOUND", -32000);
      ("UNAUTHORIZED", -32001);
      ("FORBIDDEN", -32002);
      ("TIMEOUT", -32003) ].

(** [errorCodes[code]]: the literal's own entry, else what the literal
    inherits from [Object.prototype]. *)
Definition errorCodes_at (code : string) : Value :=
  match errorCodes !! code with
  | Some n => Num n
  | None => Object_prototype_get code
  end.

(** [getErrorCode]: [errorCodes[code] || -32000] *)
Definition getErrorCode (code : string) : Value :=
  or_else (errorCodes_at code) (Num (-32000)).

(** [createMCPResponse(method, result)] *)
Definition createMCPResponse (method : string) (result : Value) : Eff Value :=
  let* id := generateId in
  Eff.ret (Obj [ ("jsonrpc", Str "2.0"); ("id", Str id); ("result", result) ]).

(** [createMCPError(code, message, data = null)]; pass [Undefined] for an
    omitted [data]. *)
Definition createMCPError (code message : string) (data : Value) : Eff Value :=
  let data := match data with Undefined => Null | _ => data end in
  let* id := generateId in
  let error := [ ("code", getErrorCode code); ("message", Str message) ] in
  let error := if truthy data then (error ++ [ ("data", data) ])%list else error in
  Eff.ret (Obj [ ("jsonrpc", Str "2.0"); ("id", Str id); ("error", Obj error) ]).

Record RequestValidation : Type := mkRequestValidation {
  valid : bool;
  error : option string
}.

(** [validateMCPRequest(request)] *)
Definition validateMCPRequest (request : Value) : RequestValidation :=
  if negb (truthy request) then
    mkRequestValidation false (Some "Request is required")
  else if truthy (field request "jsonrpc")
          && negb (strict_eq_string (field request "jsonrpc") "2.0") then
    mkRequestValidation false (Some "Invalid JSON-RPC version. Must be '2.0'")
  else if negb (truthy (field request "method"))
          && negb (truthy (field request "result"))
          && negb (truthy (field request "error")) then
    mkRequestValidation false (Some "Request must have method, result, or error")
  else
    mkRequestValidation true None.

End Protocol.

(* ===================================================================== *)
(** * The schema library (zod 3) as the tools use it                     *)
(* ===================================================================== *)

Module Zod.
Import Js.

Inductive Result (A : Type) : Type :=
| Ok (data : A)
| Invalid (issues : list Value).
Arguments Ok {A} data.
Arguments Invalid {A} issues.

(** The library's name for the type of a value. *)
Definition parsedType (v : Value) : string :=
  match v with
  | Undefined => "undefined"
  | Null => "null"
  | Bool _ => "boolean"
  | Num _ => "number"
  | NaN => "nan"
  | Str _ => "string"
  | Arr _ => "array"
  | Obj _ | ObjectPrototype => "object"
  | Fn _ => "function"
  end.

Definition path_value (path : list string) : Value := Arr (List.map Str path).

Definition invalid_type (expected : string) (path : list string) (v : Value)
  : Value :=
  Obj [ ("code", Str "invalid_type");
        ("expected", Str expected);
        ("received", Str (parsedType v));
        ("path", path_value path);
        ("message",
         Str (match v with
              | Undefined => "Required"
              | _ => "Expected " +:+ expected +:+ ", received " +:+ parsedType v
              end)) ].

(** The checks chained on [z.string()]. *)
Inductive Check : Type :=
| min (n : nat) (message : string)
| regex (test : string -> bool) (message : string).

Definition check_issue (path : list string) (s : string) (c : Check)
  : option Value :=
  match c with
  | min n message =>
      if Nat.ltb (String.length s) n then
        Some (Obj [ ("code", Str "too_small");
                    ("minimum", Num (Z.of_nat n));
                    ("type", Str "string");
                    ("inclusive", Bool true);
                    ("exact", Bool false);
                    ("message", Str message);
                    ("path", path_value path) ])
      else None
  | regex test message =>
      if test s then None
      else Some (Obj [ ("validation", Str "regex");
                       ("code", Str "invalid_string");
                       ("message", Str message);
                       ("path", path_value path) ])
  end.

Fixpoint check_issues (path : list string) (s : string) (checks : list Check)
  : list Value :=
  match checks with
  | [] => []
  | c :: rest =>
      match check_issue path s c with
      | Some issue => issue :: check_issues path s rest
      | None => check_issues path s rest
      end
  end.

(** [z.string().check1().check2()...]: a non-string is a type issue and
    the checks are not run; a string collects the issue of every failed
    check. *)
Definition string_ (checks : list Check) (path : list string) (v : Value)
  : Result string :=
  match v with
  | Str s =>
      match check_issues path s checks with
      | [] => Ok s
      | issues => Invalid issues
      end
  | _ => Invalid [ invalid_type "string" path v ]
  end.

(** Combining the fields of an object: every field is parsed and the
    issues of all of them are kept, in shape order. *)
Definition ap {A B} (f : Result (A -> B)) (x : Result A) : Result B :=
  match f, x with
  | Ok g, Ok a => Ok (g a)
  | Ok _, Invalid j => Invalid j
  | Invalid i, Ok _ => Invalid i
  | Invalid i, Invalid j => Invalid (i ++ j)%list
  end.

Definition prop {A} (data : Value) (key : string)
    (schema : list string -> Value -> Result A) : Result A :=
  schema [ key ] (field data key).

(** [z.object({...})]: anything but an object is a type issue; unknown
    keys are dropped, the result holds the declared keys only. *)
Definition object {A} (shape : Value -> Result A) (v : Value) : Result A :=
  match v with
  | Obj _ | ObjectPrototype => shape v
  | _ => Invalid [ invalid_type "object" [] v ]
  end.

(** [error.message] of the error thrown by [schema.parse]: the issues,
    printed as JSON. *)
Definition message (issues : list Value) : string :=
  match JSON_stringify (Arr issues) with
  | Str text => text
  | _ => EmptyString
  end.

End Zod.

(* ===================================================================== *)
(** * Tool definitions                                                    *)
(* ===================================================================== *)

Module Tool.

(** What [validateArgs] returns: [{ success: true, data }] or
    [{ success: false, error }]. *)
Inductive ValidationResult (A : Type) : Type :=
| Success (data : A)
| Failure (error : string).
Arguments Success {A} data.
Arguments Failure {A} error.

(** A tool as the registry holds it.  [Args] is the type of the validated
    arguments that [validateArgs] hands to [execute]. *)
Record t : Type := mk {
  name : string;
  description : string;
  inputSchema : Js.Value;
  Args : Type;
  validateArgs : Js.Value -> ValidationResult Args;
  execute : Args -> Eff Js.Value
}.

End Tool.

(* ===================================================================== *)
(** * src/tools/timefilter.js                                            *)
(* ===================================================================== *)

Module TimeFilter.
Import Js.

Record Period : Type := mkPeriod {
  name : string;
  scale : Z;
  isCustom : bool
}.

Definition PREDEFINED_PERIODS : list Period :=
  [ mkPeriod "All Time" 0 false;
    mkPeriod "Today" 5 false;
    mkPeriod "Yesterday" 80 false;
    mkPeriod "Last 24 hours" 10 false;
    mkPeriod "This Week" 15 false;
    mkPeriod "Last Week" 25 false;
    mkPeriod "Last 7 days" 20 false;
    mkPeriod "Last 14 days" 85 false;
    mkPeriod "This Month" 30 false;
    mkPeriod "Last Month" 35 false;
    mkPeriod "Last 30 days" 50 false;
    mkPeriod "This Quarter" 40 false;
    mkPeriod "Last Quarter" 45 false;
    mkPeriod "Last 90 days" 55 false;
    mkPeriod "Last 180 days" 60 false;
    mkPeriod "This Year" 65 false;
    mkPeriod "Last Year" 75 false;
    mkPeriod "Last 12 Months" 70 false;
    mkPeriod "Custom" 100 true ].

(** ** Validation schemas *)

(** The validated arguments of each tool: what its schema's [parse]
    returns, the declared keys and their strings, and what its [execute]
    destructures. *)
Module SetTimePeriodArgs.
Record t : Type := mk { timePeriodName : string; tabName : string }.
End SetTimePeriodArgs.

Module SetCustomDateRangeArgs.
Record t : Type := mk { startDate : string; endDate : string; tabName : string }.
End SetCustomDateRangeArgs.

Definition setTimePeriodSchema : Value -> Zod.Result SetTimePeriodArgs.t :=
  Zod.object (fun data =>
    Zod.ap
      (Zod.ap (Zod.Ok SetTimePeriodArgs.mk)
         (Zod.prop data "timePeriodName"
            (Zod.string_ [ Zod.min 1 "Time period name is required" ])))
      (Zod.prop data "tabName"
         (Zod.string_ [ Zod.min 1 "Tab name is required" ]))).

Definition setCustomDateRangeSchema
  : Value -> Zod.Result SetCustomDateRangeArgs.t :=
  Zod.object (fun data =>
    Zod.ap
      (Zod.ap
         (Zod.ap (Zod.Ok SetCustomDateRangeArgs.mk)
            (Zod.prop data "startDate"
               (Zod.string_
                  [ Zod.regex date_regex_test
                      "Start date must be in YYYY-MM-DD format" ])))
         (Zod.prop data "endDate"
            (Zod.string_
               [ Zod.regex date_regex_test
                   "End date must be in YYYY-MM-DD format" ])))
      (Zod.prop data "tabName"
         (Zod.string_ [ Zod.min 1 "Tab name is required" ]))).

(** ** set_time_period *)

Definition tabName_property : Value :=
  Obj [ ("type", Str "string");
        ("description", Str "Dashboard tab to apply the filter to");
        ("enum", Arr [ Str "Overview"; Str "Comparison"; Str "Prediction";
                       Str "Text Analysis"; Str "Customer Journey" ]) ].

Definition setTimePeriodTool_inputSchema : Value :=
  Obj [ ("type", Str "object");
        ("properties",
         Obj [ ("timePeriodName",
                Obj [ ("type", Str "string");
                      ("description", Str "EXACT name of the time period");
                      ("enum",
                       Arr (List.map (fun p => Str (name p)) PREDEFINED_PERIODS)) ]);
               ("tabName", tabName_property) ]);
        ("required", Arr [ Str "timePeriodName"; Str "tabName" ]) ].

Definition setTimePeriodTool_validateArgs (args : Value)
  : Tool.ValidationResult SetTimePeriodArgs.t :=
  match setTimePeriodSchema args with
  | Zod.Ok validated => Tool.Success validated
  | Zod.Invalid issues => Tool.Failure (Zod.message issues)
  end.

(** The [for ... of] loop of [execute]: the first period, in catalog
    order, whose lowered name contains the search key or is contained in
    it; the loop breaks there.  [toLowerCase] is the engine's. *)
Fixpoint selectPeriod (toLowerCase : string -> string) (searchKey : string)
    (periods : list Period) : option Period :=
  match periods with
  | [] => None
  | period :: rest =>
      if includes (toLowerCase (name period)) searchKey
         || includes searchKey (toLowerCase (name period))
      then Some period
      else selectPeriod toLowerCase searchKey rest
  end.

Definition ok_mark : string := "âœ…".

(** What the [catch] branch of an executor returns. *)
Definition caught (what message : string) : Value :=
  Obj [ ("success", Bool false);
        ("message", Str ("Error " +:+ what +:+ ": " +:+ message));
        ("error", Str message) ].

(** [execute] of set_time_period, on the validated arguments. *)
Definition setTimePeriodTool_execute (args : SetTimePeriodArgs.t) : Eff Value :=
  let timePeriodName := SetTimePeriodArgs.timePeriodName args in
  let tabName := SetTimePeriodArgs.tabName args in
  Eff.try_catch
    (let* toLowerCase := Eff.toLowerCase in
    let searchKey := toLowerCase timePeriodName in
    match selectPeriod toLowerCase searchKey PREDEFINED_PERIODS with
    | None =>
        let availablePeriods := join ", " (List.map name PREDEFINED_PERIODS) in
        Eff.ret
          (Obj [ ("success", Bool false);
                 ("message",
                  Str ("Time period " +:+ dquote +:+ timePeriodName +:+ dquote
                       +:+ " not found. Available periods: " +:+ availablePeriods));
                 ("availablePeriods",
                  Arr (List.map (fun p => Str (name p)) PREDEFINED_PERIODS)) ])
    | Some selectedPeriod =>
        let* dates :=
          if scale selectedPeriod =? 0 then Eff.ret (Null, Null)
          else (let* now := Eff.now in
                Eff.ret (Str (toISOString now), Str (toISOString now))) in
        let* timestamp := Eff.now in
        let filterConfig :=
          [ ("periodScale", Num (scale selectedPeriod));
            ("tabName", Str tabName);
            ("periodName", Str (name selectedPeriod));
            ("isCustom", Bool (isCustom selectedPeriod));
            ("timestamp", Str (toISOString timestamp)) ] in
        let filterConfig :=
          if scale selectedPeriod =? 100
          then (filterConfig
                  ++ [ ("startDate", fst dates); ("endDate", snd dates) ])%list
          else filterConfig in
        Eff.ret
          (Obj [ ("success", Bool true);
                 ("message",
                  Str (ok_mark +:+ " Successfully set time filter to " +:+ dquote
                       +:+ name selectedPeriod +:+ dquote +:+ " for " +:+ tabName
                       +:+ " tab."));
                 ("filterConfig", Obj filterConfig);
                 ("action",
                  Obj [ ("type", Str "time_period_changed");
                        ("target",
                         Str ("filter-" +:+ replace (toLowerCase tabName) " " "-"));
                        ("data", Obj filterConfig) ]) ])
    end)
    (fun message => Eff.ret (caught "setting time period" message)).

Definition setTimePeriodTool : Tool.t :=
  Tool.mk "set_time_period"
    "Set a predefined time period for dashboard tabs. Supports calendar periods (This Month, Last Week) and rolling periods (Last 30 days, Last 7 days)."
    setTimePeriodTool_inputSchema
    SetTimePeriodArgs.t
    setTimePeriodTool_validateArgs
    setTimePeriodTool_execute.

(** ** set_custom_date_range *)

Definition date_property (description : string) : Value :=
  Obj [ ("type", Str "string");
        ("pattern", Str "^\d{4}-\d{2}-\d{2}$");
        ("description", Str description) ].

Definition setCustomDateRangeTool_inputSchema : Value :=
  Obj [ ("type", Str "object");
        ("properties",
         Obj [ ("startDate", date_property "Start date in YYYY-MM-DD format");
               ("endDate", date_property "End date in YYYY-MM-DD format");
               ("tabName", tabName_property) ]);
        ("required", Arr [ Str "startDate"; Str "endDate"; Str "tabName" ]) ].

Definition setCustomDateRangeTool_validateArgs (args : Value)
  : Tool.ValidationResult SetCustomDateRangeArgs.t :=
  match setCustomDateRangeSchema args with
  | Zod.Ok validated => Tool.Success validated
  | Zod.Invalid issues => Tool.Failure (Zod.message issues)
  end.

Definition failure (message : string) : Value :=
  Obj [ ("success", Bool false); ("message", Str message) ].

(** [execute] of set_custom_date_range, on the validated arguments. *)
Definition setCustomDateRangeTool_execute (args : SetCustomDateRangeArgs.t)
  : Eff Value :=
  let startDate := SetCustomDateRangeArgs.startDate args in
  let endDate := SetCustomDateRangeArgs.endDate args in
  let tabName := SetCustomDateRangeArgs.tabName args in
  Eff.try_catch
    (let* start := Eff.parse_date startDate in
    let* end_ := Eff.parse_date endDate in
    match start, end_ with
    | None, _ =>
        Eff.ret (failure ("Invalid start date: " +:+ startDate
                          +:+ ". Please use format YYYY-MM-DD"))
    | Some _, None =>
        Eff.ret (failure ("Invalid end date: " +:+ endDate
                          +:+ ". Please use format YYYY-MM-DD"))
    | Some start, Some end_ =>
        if end_ <? start then
          Eff.ret (failure "Start date cannot be after end date")
        else
          let* now := Eff.now in
          if now <? end_ then
            Eff.ret (failure "End date cannot be in the future")
          else
            let dateRangeText := startDate +:+ " to " +:+ endDate in
            let* timestamp := Eff.now in
            let* toLowerCase := Eff.toLowerCase in
            let filterConfig :=
              Obj [ ("periodScale", Num 100);
                    ("startDate", Str (toISOString start));
                    ("endDate", Str (toISOString end_));
                    ("tabName", Str tabName);
                    ("periodName", Str ("Custom (" +:+ dateRangeText +:+ ")"));
                    ("isCustom", Bool true);
                    ("timestamp", Str (toISOString timestamp)) ] in
            Eff.ret
              (Obj [ ("success", Bool true);
                     ("message",
                      Str (ok_mark +:+ " Successfully set custom date range "
                           +:+ dquote +:+ dateRangeText +:+ dquote +:+ " for "
                           +:+ tabName +:+ " tab."));
                     ("filterConfig", filterConfig);
                     ("action",
                      Obj [ ("type", Str "time_period_changed");
                            ("target",
                             Str ("filter-"
                                  +:+ replace (toLowerCase tabName) " " "-"));
                            ("data", filterConfig) ]) ])
    end)
    (fun message => Eff.ret (caught "setting custom date range" message)).

Definition setCustomDateRangeTool : Tool.t :=
  Tool.mk "set_custom_date_range"
    "Set a custom date range with specific start and end dates for dashboard tabs."
    setCustomDateRangeTool_inputSchema
    SetCustomDateRangeArgs.t
    setCustomDateRangeTool_validateArgs
    setCustomDateRangeTool_execute.

(** ** list_time_periods *)

Definition listTimePeriodsTools_inputSchema : Value :=
  Obj [ ("type", Str "object"); ("properties", Obj []); ("required", Arr []) ].

Definition listTimePeriodsTools_validateArgs (args : Value)
  : Tool.ValidationResult Value :=
  Tool.Success args.

Definition category_of (period : Period) : string :=
  if isCustom period then "Custom"
  else if includes (name period) "This"
          || (includes (name period) "Last"
              && negb (includes (name period) "days")
              && negb (includes (name period) "hours"))
       then "Calendar"
       else "Rolling".

Definition periodsInfo : list Value :=
  List.map
    (fun period =>
       Obj [ ("name", Str (name period));
             ("scale", Num (scale period));
             ("isCustom", Bool (isCustom period));
             ("category", Str (category_of period)) ])
    PREDEFINED_PERIODS.

Definition in_category (category : string) (p : Value) : bool :=
  strict_eq_string (field p "category") category.

(** [periods.map((p) => `• ${p.name}`)] *)
Fixpoint bullet_lines (periods : list Value) : Eff (list string) :=
  match periods with
  | [] => Eff.ret []
  | p :: rest =>
      let* name := Eff.template (field p "name") in
      let* lines := bullet_lines rest in
      Eff.ret (("â€¢ " +:+ name) :: lines)
  end.

Definition bullets (periods : list Value) : Eff string :=
  let* lines := bullet_lines periods in
  Eff.ret (join newline lines).

(** [execute] of list_time_periods; it takes no argument and reads
    neither the clock nor the random generator. *)
Definition listTimePeriodsTools_execute (_ : Value) : Eff Value :=
  Eff.try_catch
    (let calendarPeriods := List.filter (in_category "Calendar") periodsInfo in
    let rollingPeriods := List.filter (in_category "Rolling") periodsInfo in
    let customPeriods := List.filter (in_category "Custom") periodsInfo in
    let* calendarBullets := bullets calendarPeriods in
    let* rollingBullets := bullets rollingPeriods in
    let* customBullets := bullets customPeriods in
    Eff.ret
      (Obj [ ("success", Bool true);
             ("message",
              Str ("ðŸ“… **Available Time Periods:**" +:+ newline +:+ newline
                   +:+ "**ðŸ“… Calendar Periods:**" +:+ newline
                   +:+ calendarBullets +:+ newline +:+ newline
                   +:+ "**ðŸ”„ Rolling Periods:**  " +:+ newline
                   +:+ rollingBullets +:+ newline +:+ newline
                   +:+ "**âš™ï¸ Custom Periods:**" +:+ newline
                   +:+ customBullets +:+ newline +:+ newline
                   +:+ "**ðŸ’¡ Usage Examples:**" +:+ newline
                   +:+ "- " +:+ dquote +:+ "Set Last Month for Overview tab" +:+ dquote +:+ newline
                   +:+ "- " +:+ dquote +:+ "Set Last 30 days for Comparison tab" +:+ dquote +:+ newline
                   +:+ "- " +:+ dquote +:+ "Set custom date range 2024-01-01 to 2024-01-31 for Text Analysis tab" +:+ dquote));
             ("data",
              Obj [ ("calendarPeriods", Arr calendarPeriods);
                    ("rollingPeriods", Arr rollingPeriods);
                    ("customPeriods", Arr customPeriods);
                    ("totalCount", Num (Z.of_nat (List.length periodsInfo))) ]) ]))
    (fun message => Eff.ret (caught "listing time periods" message)).

Definition listTimePeriodsTools : Tool.t :=
  Tool.mk "list_time_periods"
    "List all available predefined time periods and their descriptions."
    listTimePeriodsTools_inputSchema
    Value
    listTimePeriodsTools_validateArgs
    listTimePeriodsTools_execute.

(** The registry: an array literal, in this order. *)
Definition timeFilterTools : list Tool.t :=
  [ setTimePeriodTool; setCustomDateRangeTool; listTimePeriodsTools ].

End TimeFilter.

(* ===================================================================== *)
(** * src/server.js: the tool-call endpoint                              *)
(* ===================================================================== *)

Module Server.
Import Js Protocol.

(** [res.status(status).json(body)]; [res.json(body)] alone answers 200. *)
Record Response : Type := mkResponse {
  status : Z;
  body : Value
}.

(** [registry.find((t) => t.name === name)] *)
Definition find_tool (registry : list Tool.t) (name : Value) : option Tool.t :=
  List.find (fun t => strict_eq_string name (Tool.name t)) registry.

(** The message of the TypeError that destructuring [undefined] or
    [null] throws (V8's wording). *)
Definition cannot_destructure (property source : string) (v : Value) : string :=
  "Cannot destructure property '" +:+ property +:+ "' of '" +:+ source
  +:+ "' as it is " +:+ nullish_name v +:+ ".".

(** The handler of [POST /mcp/tools/call], on the parsed request body.
    The registry it consults is a parameter here; the server passes
    [timeFilterTools]. *)
Definition tools_call (registry : list Tool.t) (req_body : Value)
  : Eff Response :=
  Eff.try_catch
    (match get req_body "name", get req_body "arguments" with
     | Some name, Some toolArgs =>
         if negb (truthy name) || negb (truthy toolArgs) then
           let* e := createMCPError "INVALID_REQUEST"
                       "Missing tool name or arguments" Undefined in
           Eff.ret (mkResponse 400 e)
         else
           match find_tool registry name with
           | None =>
               let* text := Eff.template name in
               let* e := createMCPError "METHOD_NOT_FOUND"
                           ("Tool '" +:+ text +:+ "' not found")
                           Undefined in
               Eff.ret (mkResponse 404 e)
           | Some tool =>
               match Tool.validateArgs tool toolArgs with
               | Tool.Failure error =>
                   let* e := createMCPError "INVALID_PARAMS"
                               ("Invalid arguments: " +:+ error) Undefined in
                   Eff.ret (mkResponse 400 e)
               | Tool.Success data =>
                   let* result := Tool.execute tool data in
                   let* r := createMCPResponse "tools/call"
                               (Obj [ ("content",
                                       Arr [ Obj [ ("type", Str "text");
                                                   ("text", JSON_stringify result) ] ]) ]) in
                   Eff.ret (mkResponse 200 r)
               end
           end
     | _, _ => Eff.throw (cannot_destructure "name" "req.body" req_body)
     end)
    (fun message =>
       let* e := createMCPError "INTERNAL_ERROR"
                   ("Tool execution failed: " +:+ message) Undefined in
       Eff.ret (mkResponse 500 e)).

(** The endpoint as the server mounts it. *)
Definition post_mcp_tools_call : Value -> Eff Response :=
  tools_call TimeFilter.timeFilterTools.

(** [registry.map((tool) => ({ name, description, inputSchema }))] *)
Definition tools_listing (registry : list Tool.t) : Value :=
  Arr (List.map
         (fun tool =>
            Obj [ ("name", Str (Tool.name tool));
                  ("description", Str (Tool.description tool));
                  ("inputSchema", Tool.inputSchema tool) ])
         registry).

(** The handler of [GET /mcp/tools]. *)
Definition tools_list (registry : list Tool.t) : Eff Response :=
  Eff.try_catch
    (let* r := createMCPResponse "tools/list"
                 (Obj [ ("tools", tools_listing registry) ]) in
     Eff.ret (mkResponse 200 r))
    (fun _ =>
       let* e := createMCPError "INTERNAL_ERROR" "Failed to list tools"
                   Undefined in
       Eff.ret (mkResponse 500 e)).

(** The handler of [POST /mcp], the endpoint for full protocol clients:
    a [switch] on the request's [method]. *)
Definition mcp (registry : list Tool.t) (req_body : Value) : Eff Response :=
  Eff.try_catch
    (match get req_body "method", get req_body "params" with
     | Some method, Some params =>
         if strict_eq_string method "initialize" then
           let* r := createMCPResponse "initialize"
                       (Obj [ ("protocolVersion", Str "2024-11-05");
                              ("serverInfo",
                               Obj [ ("name", Str "CX TimeFilter MCP Server");
                                     ("version", Str "1.0.0") ]);
                              ("capabilities",
                               Obj [ ("tools",
                                      Obj [ ("listChanged", Bool false) ]) ]) ]) in
           Eff.ret (mkResponse 200 r)
         else if strict_eq_string method "tools/list" then
           let* r := createMCPResponse "tools/list"
                       (Obj [ ("tools", tools_listing registry) ]) in
           Eff.ret (mkResponse 200 r)
         else if strict_eq_string method "tools/call" then
           match get params "name", get params "arguments" with
           | Some name, Some toolArgs =>
               match find_tool registry name with
               | None =>
                   let* text := Eff.template name in
                   let* e := createMCPError "METHOD_NOT_FOUND"
                               ("Tool '" +:+ text +:+ "' not found")
                               Undefined in
                   Eff.ret (mkResponse 404 e)
               | Some tool =>
                   match Tool.validateArgs tool toolArgs with
                   | Tool.Failure error =>
                       let* e := createMCPError "INVALID_PARAMS" error
                                   Undefined in
                       Eff.ret (mkResponse 400 e)
                   | Tool.Success data =>
                       let* result := Tool.execute tool data in
                       let* r := createMCPResponse "tools/call"
                                   (Obj [ ("content",
                                           Arr [ Obj [ ("type", Str "text");
                                                       ("text",
                                                        JSON_stringify result) ] ]) ]) in
                       Eff.ret (mkResponse 200 r)
                   end
               end
           | _, _ => Eff.throw (cannot_destructure "name" "params" params)
           end
         else
           let* text := Eff.template method in
           let* e := createMCPError "METHOD_NOT_FOUND"
                       ("Method '" +:+ text +:+ "' not supported")
                       Undefined in
           Eff.ret (mkResponse 404 e)
     | _, _ => Eff.throw (cannot_destructure "method" "req.body" req_body)
     end)
    (fun message =>
       let* e := createMCPError "INTERNAL_ERROR" message Undefined in
       Eff.ret (mkResponse 500 e)).

End Server.

(* ===================================================================== *)
(** * server.js at the repository root: the single-file variant          *)
(* ===================================================================== *)

Module RootServer.
Import Js.

(** The [list_time_periods] branch of its tool-call handler, up to the
    outcome object it serialises.  The catalog is a verbatim copy of
    [TimeFilter.PREDEFINED_PERIODS]. *)
Definition period_value (p : TimeFilter.Period) : Value :=
  Obj [ ("name", Str (TimeFilter.name p));
        ("scale", Num (TimeFilter.scale p));
        ("isCustom", Bool (TimeFilter.isCustom p)) ].

Definition is_calendar (p : TimeFilter.Period) : bool :=
  negb (TimeFilter.isCustom p)
  && (includes (TimeFilter.name p) "This"
      || (includes (TimeFilter.name p) "Last"
          && negb (includes (TimeFilter.name p) "days")
          && negb (includes (TimeFilter.name p) "hours"))).

Definition list_time_periods_data : Value :=
  let calendarPeriods := List.filter is_calendar TimeFilter.PREDEFINED_PERIODS in
  let rollingPeriods :=
    List.filter
      (fun p => negb (TimeFilter.isCustom p) && negb (is_calendar p))
      TimeFilter.PREDEFINED_PERIODS in
  Obj [ ("calendarPeriods", Arr (List.map period_value calendarPeriods));
        ("rollingPeriods", Arr (List.map period_value rollingPeriods));
        ("totalCount",
         Num (Z.of_nat (List.length TimeFilter.PREDEFINED_PERIODS) - 1)) ].

End RootServer.

(* ===================================================================== *)
(** * Vocabulary of the specification                                    *)
(* ===================================================================== *)

Module Spec.
Import Js Protocol.

(** ** Envelopes *)

Definition is_success_envelope (e : Value) : bool :=
  has_own e "result" && negb (has_own e "error").

Definition is_error_envelope (e : Value) : bool :=
  has_own e "error" && negb (has_own e "result").

(** The own property [k] of an object, if it has one. *)
Definition own_property (v : Value) (k : string) : option Value :=
  match v with
  | Obj props => own props k
  | _ => None
  end.

Definition error_code (e : Value) : Value := field (field e "error") "code".
Definition error_message (e : Value) : Value := field (field e "error") "message".

(** What [generateId] returns in a world, and the world it leaves. *)
Definition id_at (w : World) : string :=
  "mcp_" +:+ pretty (clock w (clock_reads w)) +:+ "_"
  +:+ substr 0 9 (random_digits w (random_draws w)).

Definition after_id (w : World) : World :=
  mkWorld (clock w) (S (clock_reads w)) (random_digits w) (S (random_draws w))
    (date_parse w) (unicode_lower w) (number_text w).

(** The error envelope for a code name and a message, without [data]. *)
Definition error_envelope (id code message : string) : Value :=
  Obj [ ("jsonrpc", Str "2.0"); ("id", Str id);
        ("error", Obj [ ("code", getErrorCode code); ("message", Str message) ]) ].

Definition success_envelope (id : string) (result : Value) : Value :=
  Obj [ ("jsonrpc", Str "2.0"); ("id", Str id); ("result", result) ].

(** ** Dispatch *)

(** What a handler reads from a JSON body: a value of the document, or
    [undefined] where the key is missing. *)
Definition read_from_json (v : Value) : Prop :=
  v = Undefined \/ is_json v = true.

(** The answer of a handler to a call that reaches dispatch maps each
    failure to its error envelope.  An unknown name is answered 404 with
    METHOD_NOT_FOUND and a message that quotes the name's string form;
    a name without one makes the message throw, and the answer is the
    one of the handler's [catch].  Rejected arguments are answered 400
    with INVALID_PARAMS and the validator's reason, and an executor that
    throws 500 with INTERNAL_ERROR and the fault's message, each after
    the handler's own prefix. *)
Definition maps_failures (invalid_prefix fault_prefix : string)
    (registry : list Tool.t) (name toolArgs : Value) (w : World)
    (answer : Completion Server.Response * World) : Prop :=
  exists r w',
    answer = (Normal r, w')
    /\ is_error_envelope (Server.body r) = negb (Server.status r =? 200)
    /\ (Server.find_tool registry name = None ->
        match ToString (number_text w) name with
        | Some text =>
            Server.status r = 404
            /\ error_code (Server.body r) = Num (-32601)
            /\ error_message (Server.body r)
               = Str ("Tool '" +:+ text +:+ "' not found")
        | None =>
            Server.status r = 500
            /\ error_code (Server.body r) = Num (-32603)
            /\ error_message (Server.body r)
               = Str (fault_prefix +:+ cannot_convert)
        end)
    /\ (forall tool reason,
          Server.find_tool registry name = Some tool ->
          Tool.validateArgs tool toolArgs = Tool.Failure reason ->
          Server.status r = 400
          /\ error_code (Server.body r) = Num (-32602)
          /\ error_message (Server.body r) = Str (invalid_prefix +:+ reason))
    /\ (forall tool data fault w1,
          Server.find_tool registry name = Some tool ->
          Tool.validateArgs tool toolArgs = Tool.Success data ->
          Tool.execute tool data w = (Throw fault, w1) ->
          Server.status r = 500
          /\ error_code (Server.body r) = Num (-32603)
          /\ error_message (Server.body r) = Str (fault_prefix +:+ fault)).

(** A body for [POST /mcp]. *)
Definition protocol_body (method params : Value) : Value :=
  Obj [ ("method", method); ("params", params) ].

(** ** The request validator, in the words of the specification *)

(** The request is absent. *)
Definition absent (request : Value) : Prop :=
  request = Undefined \/ request = Null.

(** The request carries the field [k]. *)
Definition present (request : Value) (k : string) : Prop :=
  exists v, get request k = Some v /\ v <> Undefined.

Definition invalid_as_specified (request : Value) : Prop :=
  absent request
  \/ (present request "jsonrpc" /\ field request "jsonrpc" <> Str "2.0")
  \/ (~ present request "method" /\ ~ present request "result"
      /\ ~ present request "error").

(** The same three cases, read with JavaScript truthiness. *)
Definition invalid_by_truthiness (request : Value) : Prop :=
  truthy request = false
  \/ (truthy (field request "jsonrpc") = true
      /\ field request "jsonrpc" <> Str "2.0")
  \/ (truthy (field request "method") = false
      /\ truthy (field request "result") = false
      /\ truthy (field request "error") = false).

(** ** Schemas and validation *)

(** The literals of the [enum] that an input schema declares on a
    property, if it declares one. *)
Definition enum_of (inputSchema : Value) (property : string)
  : option (list Value) :=
  match inputSchema with
  | Obj schema =>
      match own schema "properties" with
      | Some (Obj properties) =>
          match own properties property with
          | Some (Obj declaration) =>
              match own declaration "enum" with
              | Some (Arr literals) => Some literals
              | _ => None
              end
          | _ => None
          end
      | _ => None
      end
  | _ => None
  end.

(** The value equals, case-sensitively, one of the literals. *)
Definition matches_literal (v : Value) (literals : list Value) : bool :=
  existsb
    (fun literal =>
       match literal with
       | Str s => strict_eq_string v s
       | _ => false
       end)
    literals.

Definition is_success {A} (r : Tool.ValidationResult A) : bool :=
  match r with
  | Tool.Success _ => true
  | Tool.Failure _ => false
  end.

Definition is_object (v : Value) : bool :=
  match v with
  | Obj _ | ObjectPrototype => true
  | _ => false
  end.

Definition nonempty_string (v : Value) : bool :=
  match v with
  | Str s => negb (String.eqb s EmptyString)
  | _ => false
  end.

Definition date_shaped (v : Value) : bool :=
  match v with
  | Str s => date_regex_test s
  | _ => false
  end.

(** Enum enforcement as the specification words it: a supplied value
    outside the declared literals fails validation. *)
Definition enum_enforced (tool : Tool.t) : Prop :=
  forall (property : string) (literals : list Value) (args : Value),
    enum_of (Tool.inputSchema tool) property = Some literals ->
    matches_literal (field args property) literals = false ->
    is_success (Tool.validateArgs tool args) = false.

(** ** Period resolution, in the words of the specification *)

(** Case-insensitive containment in either direction, the case mapping
    being the engine's. *)
Definition name_matches (w : World) (input : string) (p : TimeFilter.Period)
  : Prop :=
  includes (lowered w input) (lowered w (TimeFilter.name p)) = true
  \/ includes (lowered w (TimeFilter.name p)) (lowered w input) = true.

(** [p] is the first entry of the catalog, in declared order, that
    matches. *)
Definition first_match (w : World) (input : string) (p : TimeFilter.Period)
  : Prop :=
  exists before after,
    TimeFilter.PREDEFINED_PERIODS = (before ++ p :: after)%list
    /\ name_matches w input p
    /\ Forall (fun q => ~ name_matches w input q) before.

Definition no_match (w : World) (input : string) : Prop :=
  Forall (fun q => ~ name_matches w input q) TimeFilter.PREDEFINED_PERIODS.

(** ** Date ranges *)

Definition fails_to_parse (w : World) (s : string) : Prop :=
  date_parse w s = None.

Definition start_after_end (w : World) (startDate endDate : string) : Prop :=
  exists s e, date_parse w startDate = Some s /\ date_parse w endDate = Some e
              /\ s > e.

(** The end date is after the time of execution: the clock reading that
    the executor takes, the next one of the world it starts in. *)
Definition end_in_future (w : World) (endDate : string) : Prop :=
  exists e, date_parse w endDate = Some e /\ e > clock w (clock_reads w).

(** The rejections of a date range that the specification lists. *)
Definition rejected_range (w : World) (args : TimeFilter.SetCustomDateRangeArgs.t)
  : Prop :=
  fails_to_parse w (TimeFilter.SetCustomDateRangeArgs.startDate args)
  \/ fails_to_parse w (TimeFilter.SetCustomDateRangeArgs.endDate args)
  \/ start_after_end w (TimeFilter.SetCustomDateRangeArgs.startDate args)
       (TimeFilter.SetCustomDateRangeArgs.endDate args)
  \/ end_in_future w (TimeFilter.SetCustomDateRangeArgs.endDate args).

(** An engine that reads calendar dates as ECMAScript prescribes. *)
Definition reads_calendar_dates (w : World) : Prop :=
  forall s t, parse_iso_date s = Some t -> date_parse w s = Some t.

(** ** Sample data for the worked instances *)

(** A world for the instances: its clock starts in October 2024, it
    reads calendar dates, and its two engine tables are stand-ins, which
    no instance consults (the instances' strings are ASCII and their
    numbers safe). *)
Definition sample_world : World :=
  mkWorld (fun n => 1730000000000 + Z.of_nat n) 0 (fun _ => "k3j9x0q7zt1") 0
    parse_iso_date toLowerCase pretty.

Definition call_body (name : string) (arguments : Value) : Value :=
  Obj [ ("name", Str name); ("arguments", arguments) ].

(** "Last Wee" followed by the Kelvin sign, U+212A, in its three UTF-8
    bytes: a period name that only a Unicode case mapping brings to
    "last week". *)
Definition last_week_with_kelvin_sign : string :=
  "Last Wee"
  +:+ String (ascii_of_nat 226)
        (String (ascii_of_nat 132) (String (ascii_of_nat 170) EmptyString)).

(** A tool whose executor throws. *)
Definition faulty_tool : Tool.t :=
  Tool.mk "faulty" "A tool that always fails" (Obj [])
    Value Tool.Success (fun _ => Eff.throw "disk on fire").

End Spec.

(* ===================================================================== *)
(** * src/utils/mcp-protocol.js: tool and content helpers                *)
(* ===================================================================== *)

Module ProtocolTools.
Import Js.

(** The value of a string of decimal digits. *)
Fixpoint digits_value (acc : Z) (s : string) : option Z :=
  match s with
  | EmptyString => Some acc
  | String c rest =>
      if is_digit c then digits_value (acc * 10 + digit c) rest else None
  end.

(** A property key that is an array index: the canonical decimal form of
    an integer below 2^32 - 1.  An object lists such keys first. *)
Definition is_array_index (k : string) : bool :=
  match k with
  | EmptyString => false
  | _ =>
      match digits_value 0 k with
      | Some n => String.eqb (pretty n) k && (n <=? 4294967294)
      | None => false
      end
  end.

Fixpoint indexed {A} (i : Z) (xs : list A) : list (string * A) :=
  match xs with
  | [] => []
  | x :: rest => (pretty i, x) :: indexed (i + 1) rest
  end.

Fixpoint chars (s : string) : list Value :=
  match s with
  | EmptyString => []
  | String c rest => Str (String c EmptyString) :: chars rest
  end.

(** The own enumerable properties that an object spread [...v] copies, in
    the order it copies them.  The properties of an [Obj] are taken to
    stand in the object's own order. *)
Definition own_enumerable (v : Value) : list (string * Value) :=
  match v with
  | Obj props => props
  | Arr items => indexed 0 items
  | Str s => indexed 0 (chars s)
  | _ => []
  end.

(** [{ type: "object", ...v }]: [type] is created first and keeps its
    place among the string keys when [v] overwrites it; index keys come
    before every string key. *)
Definition spread_over_type (v : Value) : list (string * Value) :=
  let props := own_enumerable v in
  (List.filter (fun kv => is_array_index (fst kv)) props
   ++ ("type", match own props "type" with
               | Some t => t
               | None => Str "object"
               end)
      :: List.filter
           (fun kv =>
              negb (is_array_index (fst kv)) && negb (String.eqb (fst kv) "type"))
           props)%list.

(** [createMCPTool(name, description, inputSchema)] *)
Definition createMCPTool (name description inputSchema : Value) : Value :=
  Obj [ ("name", name);
        ("description", description);
        ("inputSchema", Obj (spread_over_type inputSchema)) ].

(** The message of the TypeError of reading a property of [undefined] or
    [null] (V8's wording). *)
Definition cannot_read (property : string) (v : Value) : string :=
  "Cannot read properties of " +:+ nullish_name v +:+ " (reading '"
  +:+ property +:+ "')".

(** [typeof content === "string" ? content : JSON.stringify(content, null, 2)] *)
Definition text_of (content : Value) : Value :=
  match content with
  | Str _ => content
  | _ => JSON_stringify content
  end.

(** [createMCPContent(type, content)]: a [switch] on [type]. *)
Definition createMCPContent (type content : Value) : Completion Value :=
  if strict_eq_string type "text" then
    Normal (Obj [ ("type", Str "text"); ("text", text_of content) ])
  else if strict_eq_string type "image" then
    match get content "data", get content "mimeType" with
    | Some data, Some mimeType =>
        Normal (Obj [ ("type", Str "image");
                      ("data", data);
                      ("mimeType", or_else mimeType (Str "image/png")) ])
    | _, _ => Throw (cannot_read "data" content)
    end
  else
    Normal (Obj [ ("type", Str "text"); ("text", JSON_stringify content) ]).

(** [v === false] *)
Definition strict_eq_false (v : Value) : bool :=
  match v with
  | Bool false => true
  | _ => false
  end.

(** [formatToolResult(result)] *)
Definition formatToolResult (result : Value) : Completion Value :=
  match createMCPContent (Str "text") result with
  | Throw e => Throw e
  | Normal block =>
      match get result "success" with
      | Some success =>
          Normal (Obj [ ("content", Arr [ block ]);
                        ("isError", Bool (strict_eq_false success)) ])
      | None => Throw (cannot_read "success" result)
      end
  end.

End ProtocolTools.

(* ===================================================================== *)
(** * src/middleware/auth.js                                             *)
(* ===================================================================== *)

Module Auth.
Import Js.

(** What the middleware does with a request: hand it on ([next()]) or
    answer it. *)
Inductive Decision : Type :=
| Next
| Answer (r : Server.Response).

Definition unauthorized (message : string) : Server.Response :=
  Server.mkResponse 401
    (Obj [ ("jsonrpc", Str "2.0");
           ("error", Obj [ ("code", Num (-32001)); ("message", Str message) ]) ]).

Definition is_empty (s : string) : bool := String.eqb s EmptyString.

(** [authMiddleware(req, res, next)], on what it reads: the environment
    variable MCP_API_KEY and the Authorization header, each a string or
    [None] when unset. *)
Definition authMiddleware (requiredApiKey authHeader : option string) : Decision :=
  match requiredApiKey with
  | None => Next
  | Some required =>
      if is_empty required then Next
      else
        match authHeader with
        | None => Answer (unauthorized "Authorization header required")
        | Some header =>
            if is_empty header then
              Answer (unauthorized "Authorization header required")
            else
              let providedKey :=
                if String.prefix "Bearer " header then drop_chars 7 header
                else if String.prefix "ApiKey " header then drop_chars 7 header
                else if String.prefix "Key " header then drop_chars 4 header
                else header in
              if String.eqb providedKey required then Next
              else Answer (unauthorized "Invalid API key")
        end
  end.

(** A route mounted as [app.post(path, authMiddleware, handler)]: the
    handler runs only if the middleware hands the request on. *)
Definition behind (requiredApiKey authHeader : option string)
    (handler : Eff Server.Response) : Eff Server.Response :=
  match authMiddleware requiredApiKey authHeader with
  | Next => handler
  | Answer r => Eff.ret r
  end.

(** [POST /mcp/tools/call] as mounted. *)
Definition post_mcp_tools_call (requiredApiKey authHeader : option string)
    (req_body : Value) : Eff Server.Response :=
  behind requiredApiKey authHeader (Server.post_mcp_tools_call req_body).

Definition key_chars : string :=
  "ABCDEFGHIJKLMNOPQRSTUVWXYZabcdefghijklmnopqrstuvwxyz0123456789".

(** [s.charAt(i)]: the empty string past the end. *)
Definition charAt (s : string) (i : nat) : string :=
  match String.get i s with
  | Some c => String c EmptyString
  | None => EmptyString
  end.

(** The loop of [generateApiKey]: [picks i] is the value of
    [Math.floor(Math.random() * chars.length)] at turn [i]. *)
Fixpoint generate_from (i : nat) (length : nat) (picks : nat -> nat) : string :=
  match length with
  | O => EmptyString
  | S rest => charAt key_chars (picks i) +:+ generate_from (S i) rest picks
  end.

(** [generateApiKey(length = 32)], given the random picks. *)
Definition generateApiKey (length : nat) (picks : nat -> nat) : string :=
  generate_from 0 length picks.

Definition is_alphanumeric (c : ascii) : bool :=
  let n := nat_of_ascii c in
  (Nat.leb 65 n && Nat.leb n 90) || (Nat.leb 97 n && Nat.leb n 122)
  || (Nat.leb 48 n && Nat.leb n 57).

(** [/^[A-Za-z0-9]+$/.test(s)] *)
Definition alphanumeric_test (s : string) : bool :=
  negb (String.eqb s EmptyString)
  && forallb is_alphanumeric (list_ascii_of_string s).

(** [validateApiKeyFormat(key)] *)
Definition validateApiKeyFormat (key : Value) : bool :=
  if negb (truthy key) then false
  else
    match key with
    | Str s => Nat.leb 16 (String.length s) && alphanumeric_test s
    | _ => false
    end.

(** The Authorization headers that present the key [key]: the key after
    one of the three prefixes, or the bare key when it starts with none of
    them. *)
Definition presents (key header : string) : Prop :=
  header = "Bearer " +:+ key
  \/ header = "ApiKey " +:+ key
  \/ header = "Key " +:+ key
  \/ (header = key
      /\ String.prefix "Bearer " key = false
      /\ String.prefix "ApiKey " key = false
      /\ String.prefix "Key " key = false).

End Auth.

(* ===================================================================== *)
(** * Vocabulary of the further properties                               *)
(* ===================================================================== *)

Module Notions.
Import Js.

(** An outcome object: a boolean [success] and a string [message] of its
    own. *)
Definition is_outcome (success : bool) (v : Value) : Prop :=
  exists props message,
    v = Obj props
    /\ own props "success" = Some (Bool success)
    /\ own props "message" = Some (Str message).

(** A content block of type text. *)
Definition text_block (text : Value) : Value :=
  Obj [ ("type", Str "text"); ("text", text) ].

(** The names that a listing of the registry shows, in its order. *)
Definition listed_names (registry : list Tool.t) : list Value :=
  List.map (fun entry => field entry "name")
    (match Server.tools_listing registry with
     | Arr entries => entries
     | _ => []
     end).

(** The paths of the issues that a schema reports. *)
Definition issue_paths {A} (r : Zod.Result A) : list Value :=
  match r with
  | Zod.Ok _ => []
  | Zod.Invalid issues => List.map (fun issue => field issue "path") issues
  end.

(** The path of the property [key], unless the property is in order. *)
Definition path_if_not (ok : bool) (key : string) : list Value :=
  if ok then [] else [ Zod.path_value [ key ] ].

(** The rolling periods of the single-file server: its second filter. *)
Definition rolling (p : TimeFilter.Period) : bool :=
  negb (TimeFilter.isCustom p) && negb (RootServer.is_calendar p).

(** The character of a decimal digit, and the checks that [pad] writes
    two and four digits as they stand. *)
Definition chr (n : Z) : ascii := ascii_of_nat (48 + Z.to_nat n).

Definition digits10 : list Z := List.map Z.of_nat (List.seq 0 10).

Definition pad4_ok (a b c d : Z) : bool :=
  String.eqb (pad 4 (a * 1000 + b * 100 + c * 10 + d))
    (String (chr a) (String (chr b) (String (chr c) (String (chr d) EmptyString)))).

Definition pad2_ok (a b : Z) : bool :=
  String.eqb (pad 2 (a * 10 + b)) (String (chr a) (String (chr b) EmptyString)).

End Notions.

(* ===================================================================== *)
(** * Properties                                                          *)
(* ===================================================================== *)

Import Js Protocol Spec.

(** ** Running the builders *)

Lemma generateId_run (w : World) :
  generateId w = (Normal (id_at w), after_id w).
Proof. reflexivity. Qed.

Lemma createMCPResponse_run (method : string) (result : Value) (w : World) :
  createMCPResponse method result w
  = (Normal (success_envelope (id_at w) result), after_id w).
Proof. reflexivity. Qed.

Lemma createMCPError_run (code message : string) (w : World) :
  createMCPError code message Undefined w
  = (Normal (error_envelope (id_at w) code message), after_id w).
Proof. reflexivity. Qed.

(** With any [data], the envelope has the same three top-level keys; only
    the inner error object may gain a [data] key. *)
Lemma createMCPError_shape (code message : string) (data : Value) (w : World) :
  exists error,
    createMCPError code message data w
    = (Normal (Obj [ ("jsonrpc", Str "2.0"); ("id", Str (id_at w));
                     ("error", Obj error) ]), after_id w)
    /\ own error "code" = Some (getErrorCode code)
    /\ own error "message" = Some (Str message).
Proof.
  unfold createMCPError, Eff.bind. rewrite generateId_run.
  destruct (truthy match data with Undefined => Null | _ => data end);
    eexists; (split; [reflexivity | split; reflexivity]).
Qed.

(** ** Error codes *)

Lemma getErrorCode_table :
  getErrorCode "PARSE_ERROR" = Num (-32700)
  /\ getErrorCode "INVALID_REQUEST" = Num (-32600)
  /\ getErrorCode "METHOD_NOT_FOUND" = Num (-32601)
  /\ getErrorCode "INVALID_PARAMS" = Num (-32602)
  /\ getErrorCode "INTERNAL_ERROR" = Num (-32603)
  /\ getErrorCode "NOT_FOUND" = Num (-32000)
  /\ getErrorCode "UNAUTHORIZED" = Num (-32001)
  /\ getErrorCode "FORBIDDEN" = Num (-32002)
  /\ getErrorCode "TIMEOUT" = Num (-32003).
Proof. repeat split; vm_compute; reflexivity. Qed.

(** A name that is neither in the table nor inherited from
    [Object.prototype] gets the default. *)
Lemma getErrorCode_default (code : string) :
  errorCodes !! code = None ->
  Object_prototype_get code = Undefined ->
  getErrorCode code = Num (-32000).
Proof.
  intros Htable Hproto. unfold getErrorCode, errorCodes_at.
  rewrite Htable, Hproto. reflexivity.
Qed.

(** X3. What [getErrorCode] returns, for every code name: the table's
    number; else the property inherited from [Object.prototype], when there
    is one; else the default. *)
Lemma getErrorCode_spec (code : string) :
  getErrorCode code
  = match errorCodes !! code with
    | Some n => Num n
    | None =>
        match Object_prototype_get code with
        | Undefined => Num (-32000)
        | inherited => inherited
        end
    end.
Proof.
  unfold getErrorCode, errorCodes_at, or_else.
  destruct (errorCodes !! code) as [n |] eqn:Htable.
  - apply elem_of_list_to_map_2 in Htable.
    repeat (apply elem_of_cons in Htable as [[= _ ->] | Htable];
            [reflexivity |]).
    apply elem_of_nil in Htable. destruct Htable.
  - unfold Object_prototype_get.
    destruct (String.eqb code "constructor"); [reflexivity |].
    destruct (existsb (String.eqb code) Object_prototype_methods);
      [reflexivity |].
    destruct (String.eqb code "__proto__"); reflexivity.
Qed.

(** C7. [getErrorCode] on a code name outside the table that
    [Object.prototype] defines: the table lookup [errorCodes[code]] finds
    the inherited function, which is truthy, so the default [-32000] is
    not taken and the function itself becomes the error code.  Shown at
    ["toString"], and through [createMCPError]. *)
Theorem getErrorCode_inherited_name :
  errorCodes !! "toString" = None
  /\ getErrorCode "toString" = Fn "toString"
  /\ getErrorCode "toString" <> Num (-32000)
  /\ (forall (message : string) (w : World),
        exists envelope w',
          createMCPError "toString" message Undefined w = (Normal envelope, w')
          /\ error_code envelope = Fn "toString").
Proof.
  split; [vm_compute; reflexivity |].
  split; [vm_compute; reflexivity |].
  split; [vm_compute; discriminate |].
  intros message w. rewrite createMCPError_run.
  eexists; eexists; split; [reflexivity |]. vm_compute. reflexivity.
Qed.

(** ** Envelopes *)

(** C8. Every envelope the builders produce carries exactly one of
    [result] and [error].  [createMCPResponse] sets [result], to the very
    value it is given, and no [error]; [createMCPError] sets [error], to
    an object that holds the numeric code of the code name and the
    message it is given, and no [result]; whatever their arguments and
    the world. *)
Theorem builders_set_exactly_one_of_result_and_error :
  (forall (method : string) (result : Value) (w : World),
      exists envelope w',
        createMCPResponse method result w = (Normal envelope, w')
        /\ own_property envelope "result" = Some result
        /\ own_property envelope "error" = None)
  /\ (forall (code message : string) (data : Value) (w : World),
        exists envelope error w',
          createMCPError code message data w = (Normal envelope, w')
          /\ own_property envelope "error" = Some (Obj error)
          /\ own error "code" = Some (getErrorCode code)
          /\ own error "message" = Some (Str message)
          /\ own_property envelope "result" = None).
Proof.
  split.
  - intros method result w. rewrite createMCPResponse_run.
    eexists; eexists; split; [reflexivity |]. split; reflexivity.
  - intros code message data w.
    destruct (createMCPError_shape code message data w)
      as (error & Hrun & Hcode & Hmessage).
    rewrite Hrun. eexists; exists error; eexists. split; [reflexivity |].
    split; [reflexivity |]. split; [exact Hcode |].
    split; [exact Hmessage | reflexivity].
Qed.

(** ** The request validator *)

Lemma strict_eq_string_true (v : Value) (s : string) :
  strict_eq_string v s = true <-> v = Str s.
Proof.
  destruct v; simpl; try (split; [discriminate | intros H; discriminate H]).
  rewrite String.eqb_eq. split; [intros -> | intros [= ->]]; reflexivity.
Qed.

Lemma strict_eq_string_false (v : Value) (s : string) :
  strict_eq_string v s = false <-> v <> Str s.
Proof.
  rewrite <- strict_eq_string_true.
  destruct (strict_eq_string v s); split; intros H;
    [discriminate | exfalso; apply H; reflexivity | discriminate | reflexivity].
Qed.

(** C6, as the code has it.  [validateMCPRequest] answers invalid exactly
    when the request is falsy, or its [jsonrpc] field is truthy and is not
    the string ["2.0"], or none of [method], [result] and [error] is
    truthy; in every other case it answers valid. *)
Theorem validateMCPRequest_invalid_iff (request : Value) :
  valid (validateMCPRequest request) = false <-> invalid_by_truthiness request.
Proof.
  unfold validateMCPRequest, invalid_by_truthiness.
  destruct (truthy request) eqn:Hreq; cbn [negb].
  2: { split; [intros _; left; reflexivity | reflexivity]. }
  destruct (truthy (field request "jsonrpc")) eqn:Hrpc; cbn [andb].
  - destruct (strict_eq_string (field request "jsonrpc") "2.0") eqn:Hver;
      cbn [negb].
    + apply strict_eq_string_true in Hver.
      destruct (truthy (field request "method")),
               (truthy (field request "result")),
               (truthy (field request "error")); cbn;
        (split;
         [ intros H; try discriminate H; right; right; repeat split; reflexivity
         | intros [H | [[_ H] | (H1 & H2 & H3)]];
           [ discriminate H | contradiction | try discriminate; reflexivity ] ]).
    + apply strict_eq_string_false in Hver.
      split; [intros _; right; left; split; [reflexivity | exact Hver]
             | reflexivity].
  - destruct (truthy (field request "method")),
             (truthy (field request "result")),
             (truthy (field request "error")); cbn;
      (split;
       [ intros H; try discriminate H; right; right; repeat split; reflexivity
       | intros [H | [[H _] | (H1 & H2 & H3)]];
         [ discriminate H | discriminate H | try discriminate; reflexivity ] ]).
Qed.

(** C6, as the specification words it, fails: a well-formed reply whose
    [result] is [0] has its discriminator present and its version right,
    yet the validator rejects it. *)
Lemma validateMCPRequest_rejects_present_falsy_result :
  ~ (forall request : Value,
       valid (validateMCPRequest request) = false
       <-> invalid_as_specified request).
Proof.
  intros Hclaim.
  pose (reply := Obj [ ("jsonrpc", Str "2.0"); ("id", Num 1); ("result", Num 0) ]).
  destruct (Hclaim reply) as [Hinvalid _].
  destruct (Hinvalid eq_refl) as [[H | H] | [[_ H] | (_ & H & _)]].
  - discriminate H.
  - discriminate H.
  - apply H. reflexivity.
  - apply H. exists (Num 0). split; [reflexivity | discriminate].
Qed.

(** ** Dispatch *)

Lemma error_envelope_is_error (id code message : string) :
  is_error_envelope (error_envelope id code message) = true.
Proof. reflexivity. Qed.

Lemma error_envelope_code (id code message : string) :
  error_code (error_envelope id code message) = getErrorCode code.
Proof. reflexivity. Qed.

Lemma error_envelope_message (id code message : string) :
  error_message (error_envelope id code message) = Str message.
Proof. reflexivity. Qed.

Lemma success_envelope_is_success (id : string) (result : Value) :
  is_success_envelope (success_envelope id result) = true.
Proof. reflexivity. Qed.

(** The handler never ends by throwing: whatever the registry, the body
    and the world, it answers with a response. *)
Lemma tools_call_answers (registry : list Tool.t) (req_body : Value) (w : World) :
  exists r w', Server.tools_call registry req_body w = (Normal r, w').
Proof.
  unfold Server.tools_call, Eff.try_catch.
  match goal with
  | |- context [match ?body w with _ => _ end] =>
      destruct (body w) as [[r | fault] w1]
  end.
  - eexists; eexists; reflexivity.
  - unfold Eff.bind. rewrite createMCPError_run. eexists; eexists; reflexivity.
Qed.

Lemma template_run (v : Value) (w : World) :
  Eff.template v w
  = match ToString (number_text w) v with
    | Some text => (Normal text, w)
    | None => (Throw cannot_convert, w)
    end.
Proof. reflexivity. Qed.

(** The tool-call handler maps the failures of a call that reaches
    dispatch: its [name] and [arguments] are truthy, which the guard
    requires. *)
Lemma tools_call_maps_failures
    (registry : list Tool.t) (req_body name toolArgs : Value) (w : World) :
  get req_body "name" = Some name ->
  get req_body "arguments" = Some toolArgs ->
  truthy name = true ->
  truthy toolArgs = true ->
  maps_failures "Invalid arguments: " "Tool execution failed: "
    registry name toolArgs w (Server.tools_call registry req_body w).
Proof.
  intros Hname Hargs Htn Hta.
  unfold maps_failures, Server.tools_call, Eff.try_catch.
  rewrite Hname, Hargs, Htn, Hta. cbn [negb orb].
  destruct (Server.find_tool registry name) as [tool |] eqn:Hfind.
  - destruct (Tool.validateArgs tool toolArgs) as [data | reason] eqn:Hvalid.
    + unfold Eff.bind.
      destruct (Tool.execute tool data w) as [[result | fault] w1] eqn:Hexec.
      * rewrite createMCPResponse_run.
        eexists; eexists; split; [reflexivity |]. split; [reflexivity |].
        split; [discriminate |]. split.
        -- intros tool' reason [= <-] H. rewrite Hvalid in H. discriminate H.
        -- intros tool' data' fault' w1' [= <-] H. rewrite Hvalid in H.
           injection H as <-. intros H. rewrite Hexec in H. discriminate H.
      * rewrite createMCPError_run.
        eexists; eexists; split; [reflexivity |]. split; [reflexivity |].
        split; [discriminate |]. split.
        -- intros tool' reason [= <-] H. rewrite Hvalid in H. discriminate H.
        -- intros tool' data' fault' w1' [= <-] H. rewrite Hvalid in H.
           injection H as <-. intros H. rewrite Hexec in H.
           injection H as <- <-. cbn [Server.body Server.status].
           rewrite error_envelope_code, error_envelope_message.
           split; [reflexivity | split; [apply getErrorCode_table | reflexivity]].
    + unfold Eff.bind. rewrite createMCPError_run.
      eexists; eexists; split; [reflexivity |]. split; [reflexivity |].
      split; [discriminate |]. split.
      * intros tool' reason' [= <-] H. rewrite Hvalid in H.
        injection H as <-. cbn [Server.body Server.status].
        rewrite error_envelope_code, error_envelope_message.
        split; [reflexivity | split; [apply getErrorCode_table | reflexivity]].
      * intros tool' data fault w1 [= <-] H. rewrite Hvalid in H.
        discriminate H.
  - unfold Eff.bind. rewrite template_run.
    destruct (ToString (number_text w) name) as [text |].
    + rewrite createMCPError_run.
      eexists; eexists; split; [reflexivity |]. split; [reflexivity |].
      split; [| split; intros; discriminate].
      intros _. cbn [Server.body Server.status].
      rewrite error_envelope_code, error_envelope_message.
      split; [reflexivity | split; [apply getErrorCode_table | reflexivity]].
    + rewrite createMCPError_run.
      eexists; eexists; split; [reflexivity |]. split; [reflexivity |].
      split; [| split; intros; discriminate].
      intros _. cbn [Server.body Server.status].
      rewrite error_envelope_code, error_envelope_message.
      split; [reflexivity | split; [apply getErrorCode_table | reflexivity]].
Qed.

(** C1. A name that is not in the registry is not always answered with
    METHOD_NOT_FOUND.  The body
    [{"name": {"toString": 1}, "arguments": {}}] reaches dispatch, its
    name being an object and so truthy, and names no tool.  Building the
    message [`Tool '${name}' not found`] then throws, the object having no
    string form, and the handler's [catch] answers 500 with
    INTERNAL_ERROR (-32603), in every world. *)
Theorem dispatch_unknown_name_without_string_form (w : World) :
  let name := Obj [ ("toString", Num 1) ] in
  let req_body := Obj [ ("name", name); ("arguments", Obj []) ] in
  is_json req_body = true
  /\ truthy name = true
  /\ Server.find_tool TimeFilter.timeFilterTools name = None
  /\ exists r,
       Server.post_mcp_tools_call req_body w = (Normal r, after_id w)
       /\ Server.status r = 500
       /\ is_error_envelope (Server.body r) = true
       /\ error_code (Server.body r) = Num (-32603)
       /\ error_code (Server.body r) <> Num (-32601)
       /\ error_message (Server.body r)
          = Str "Tool execution failed: Cannot convert object to primitive value".
Proof.
  cbv zeta. split; [reflexivity |]. split; [reflexivity |].
  split; [reflexivity |].
  eexists. split; [reflexivity |]. split; [reflexivity |].
  split; [reflexivity |]. split; [reflexivity |].
  split; [discriminate | reflexivity].
Qed.

(** ** Argument validation *)

Ltac destruct_value v :=
  destruct v as [ | | ? | ? | | [ | ? ? ] | ? | ? | ? | ].

(** What set_time_period's validator accepts: an object whose
    [timePeriodName] and [tabName] are non-empty strings. *)
Lemma setTimePeriod_validation_exact (args : Value) :
  is_success (TimeFilter.setTimePeriodTool_validateArgs args)
  = is_object args
    && nonempty_string (field args "timePeriodName")
    && nonempty_string (field args "tabName").
Proof.
  unfold TimeFilter.setTimePeriodTool_validateArgs,
    TimeFilter.setTimePeriodSchema, Zod.object.
  destruct args; try reflexivity.
  unfold Zod.prop.
  generalize (field (Obj props) "timePeriodName") as a.
  generalize (field (Obj props) "tabName") as b.
  intros b a. destruct_value a; destruct_value b; reflexivity.
Qed.

Lemma date_string_ok (message : string) (path : list string) (v : Value) :
  match Zod.string_ [ Zod.regex date_regex_test message ] path v with
  | Zod.Ok s => v = Str s /\ date_shaped v = true
  | Zod.Invalid _ => date_shaped v = false
  end.
Proof.
  destruct v; try reflexivity.
  unfold Zod.string_, Zod.check_issues, Zod.check_issue, date_shaped.
  destruct (date_regex_test s); [split |]; reflexivity.
Qed.

(** What set_custom_date_range's validator accepts: an object whose
    dates have the shape YYYY-MM-DD and whose [tabName] is a non-empty
    string. *)
Lemma setCustomDateRange_validation_exact (args : Value) :
  is_success (TimeFilter.setCustomDateRangeTool_validateArgs args)
  = is_object args
    && date_shaped (field args "startDate")
    && date_shaped (field args "endDate")
    && nonempty_string (field args "tabName").
Proof.
  unfold TimeFilter.setCustomDateRangeTool_validateArgs,
    TimeFilter.setCustomDateRangeSchema, Zod.object.
  destruct args; try reflexivity.
  - unfold Zod.prop.
    pose proof (date_string_ok "Start date must be in YYYY-MM-DD format"
                  [ "startDate" ] (field (Obj props) "startDate")) as Hs.
    pose proof (date_string_ok "End date must be in YYYY-MM-DD format"
                  [ "endDate" ] (field (Obj props) "endDate")) as He.
    destruct (Zod.string_ _ [ "startDate" ] _) as [s | i];
      destruct (Zod.string_ _ [ "endDate" ] _) as [e | j];
      [ destruct Hs as [_ ->], He as [_ ->]
      | destruct Hs as [_ ->]; rewrite He
      | destruct He as [_ ->]; rewrite Hs
      | rewrite Hs, He ];
      generalize (field (Obj props) "tabName") as b; intros b;
      destruct_value b; reflexivity.
Qed.

(** Comparisons of two literal strings compute; a comparison with an
    unknown string is left alone. *)
#[local] Arguments String.eqb !_ !_ /.

(** Enums are declared on [timePeriodName] and [tabName] only. *)
Lemma enum_declared_on (tool : Tool.t) (property : string) (literals : list Value) :
  In tool TimeFilter.timeFilterTools ->
  enum_of (Tool.inputSchema tool) property = Some literals ->
  (tool = TimeFilter.setTimePeriodTool
   /\ (property = "timePeriodName" \/ property = "tabName"))
  \/ (tool = TimeFilter.setCustomDateRangeTool /\ property = "tabName").
Proof.
  intros [<- | [<- | [<- | []]]] Henum; cbn in Henum.
  - left. split; [reflexivity |].
    destruct (String.eqb_spec "timePeriodName" property) as [<- | _];
      [left; reflexivity |].
    destruct (String.eqb_spec "tabName" property) as [<- | _];
      [right; reflexivity | discriminate Henum].
  - right. split; [reflexivity |].
    destruct (String.eqb_spec "startDate" property) as [<- | _];
      [discriminate Henum |].
    destruct (String.eqb_spec "endDate" property) as [<- | _];
      [discriminate Henum |].
    destruct (String.eqb_spec "tabName" property) as [<- | _];
      [reflexivity | discriminate Henum].
  - discriminate Henum.
Qed.

(** C2, as the code has it.  The validators never consult the enums that
    the input schemas advertise.  For every tool and property with a
    declared enum, validation fails whenever the supplied value is not a
    non-empty string, and that is all it asks of the value: set_time_period
    is accepted exactly when its arguments are an object whose
    [timePeriodName] and [tabName] are non-empty strings, and
    set_custom_date_range exactly when its arguments are an object with
    two YYYY-MM-DD dates and a non-empty string [tabName]. *)
Theorem validation_asks_nonempty_strings_not_enums :
  (forall (tool : Tool.t) (property : string) (literals : list Value)
          (args : Value),
      In tool TimeFilter.timeFilterTools ->
      enum_of (Tool.inputSchema tool) property = Some literals ->
      nonempty_string (field args property) = false ->
      is_success (Tool.validateArgs tool args) = false)
  /\ (forall args : Value,
        is_success (Tool.validateArgs TimeFilter.setTimePeriodTool args)
        = is_object args
          && nonempty_string (field args "timePeriodName")
          && nonempty_string (field args "tabName"))
  /\ (forall args : Value,
        is_success (Tool.validateArgs TimeFilter.setCustomDateRangeTool args)
        = is_object args
          && date_shaped (field args "startDate")
          && date_shaped (field args "endDate")
          && nonempty_string (field args "tabName")).
Proof.
  split; [| split].
  - intros tool property literals args Hin Henum Hvalue.
    destruct (enum_declared_on tool property literals Hin Henum)
      as [[-> [-> | ->]] | [-> ->]]; cbn [Tool.validateArgs].
    + rewrite setTimePeriod_validation_exact, Hvalue.
      rewrite andb_false_r. reflexivity.
    + rewrite setTimePeriod_validation_exact, Hvalue.
      apply andb_false_r.
    + rewrite setCustomDateRange_validation_exact, Hvalue.
      apply andb_false_r.
  - exact setTimePeriod_validation_exact.
  - exact setCustomDateRange_validation_exact.
Qed.

(** C2, as the specification words it, fails: set_time_period declares
    the five tab names as the enum of [tabName], and its validator accepts
    the tab name "InvalidTab". *)
Lemma validation_accepts_value_outside_enum :
  ~ (forall tool : Tool.t,
       In tool TimeFilter.timeFilterTools -> enum_enforced tool).
Proof.
  intros Hclaim.
  assert (Hin : In TimeFilter.setTimePeriodTool TimeFilter.timeFilterTools)
    by (left; reflexivity).
  specialize (Hclaim _ Hin "tabName"
    [ Str "Overview"; Str "Comparison"; Str "Prediction";
      Str "Text Analysis"; Str "Customer Journey" ]
    (Obj [ ("timePeriodName", Str "Last Month"); ("tabName", Str "InvalidTab") ])
    eq_refl eq_refl).
  discriminate Hclaim.
Qed.

(** ** list_time_periods *)

(** C3. Executing list_time_periods, through the handler with empty
    arguments or directly, yields a success outcome whose
    [data.totalCount] is 19: the size of the whole catalog, its one custom
    entry included, not the 18 that the specification states.  The
    single-file server at the repository root subtracts the custom entry
    and reports 18. *)
Theorem list_time_periods_totalCount_includes_custom :
  forall (args : Value) (w : World),
    exists outcome,
      TimeFilter.listTimePeriodsTools_execute args w = (Normal outcome, w)
      /\ field outcome "success" = Bool true
      /\ field (field outcome "data") "totalCount" = Num 19
      /\ List.length TimeFilter.PREDEFINED_PERIODS = 19%nat
      /\ List.length (List.filter TimeFilter.isCustom TimeFilter.PREDEFINED_PERIODS)
         = 1%nat
      /\ field RootServer.list_time_periods_data "totalCount" = Num 18
      /\ exists r w',
           Server.post_mcp_tools_call (call_body "list_time_periods" (Obj [])) w
           = (Normal r, w')
           /\ Server.status r = 200
           /\ field (Server.body r) "result"
              = Obj [ ("content",
                       Arr [ Obj [ ("type", Str "text");
                                   ("text", JSON_stringify outcome) ] ]) ].
Proof.
  intros args w. eexists. split; [reflexivity |].
  split; [vm_compute; reflexivity |].
  split; [vm_compute; reflexivity |].
  split; [reflexivity |].
  split; [reflexivity |].
  split; [vm_compute; reflexivity |].
  eexists; eexists. split; [reflexivity |]. split; reflexivity.
Qed.

(** ** set_time_period *)

Lemma name_matches_iff (w : World) (input : string) (p : TimeFilter.Period) :
  includes (lowered w (TimeFilter.name p)) (lowered w input)
  || includes (lowered w input) (lowered w (TimeFilter.name p)) = true
  <-> name_matches w input p.
Proof. unfold name_matches. rewrite orb_true_iff. tauto. Qed.

(** The loop returns the first matching entry of the list it scans, and
    nothing only when no entry matches. *)
Lemma selectPeriod_spec (w : World) (input : string)
    (periods : list TimeFilter.Period) :
  match TimeFilter.selectPeriod (lowered w) (lowered w input) periods with
  | Some p =>
      exists before after,
        periods = (before ++ p :: after)%list
        /\ name_matches w input p
        /\ Forall (fun q => ~ name_matches w input q) before
  | None => Forall (fun q => ~ name_matches w input q) periods
  end.
Proof.
  induction periods as [| q rest IH]; cbn [TimeFilter.selectPeriod].
  - constructor.
  - destruct (includes (lowered w (TimeFilter.name q)) (lowered w input)
              || includes (lowered w input) (lowered w (TimeFilter.name q)))
      eqn:Hq.
    + exists [], rest. split; [reflexivity |].
      split; [apply name_matches_iff; exact Hq | constructor].
    + assert (Hnot : ~ name_matches w input q).
      { intros H. apply name_matches_iff in H. rewrite H in Hq. discriminate Hq. }
      destruct (TimeFilter.selectPeriod (lowered w) (lowered w input) rest)
        as [p |].
      * destruct IH as (before & after & -> & Hp & Hbefore).
        exists (q :: before), after. split; [reflexivity |].
        split; [exact Hp | constructor; assumption].
      * constructor; assumption.
Qed.

Lemma selectPeriod_first (w : World) (input : string)
    (before after : list TimeFilter.Period) (p : TimeFilter.Period) :
  Forall (fun q => ~ name_matches w input q) before ->
  name_matches w input p ->
  TimeFilter.selectPeriod (lowered w) (lowered w input)
    (before ++ p :: after)%list = Some p.
Proof.
  intros Hbefore Hp.
  induction Hbefore as [| q before Hq _ IH]; cbn [app TimeFilter.selectPeriod].
  - apply name_matches_iff in Hp. rewrite Hp. reflexivity.
  - destruct (includes (lowered w (TimeFilter.name q)) (lowered w input)
              || includes (lowered w input) (lowered w (TimeFilter.name q)))
      eqn:E.
    + exfalso. apply Hq. apply name_matches_iff. exact E.
    + exact IH.
Qed.

Lemma first_match_selected (w : World) (input : string) (p : TimeFilter.Period) :
  first_match w input p <->
  TimeFilter.selectPeriod (lowered w) (lowered w input)
    TimeFilter.PREDEFINED_PERIODS = Some p.
Proof.
  split.
  - intros (before & after & -> & Hp & Hbefore).
    apply selectPeriod_first; assumption.
  - intros H.
    pose proof (selectPeriod_spec w input TimeFilter.PREDEFINED_PERIODS) as S.
    rewrite H in S. exact S.
Qed.

Lemma no_match_selected (w : World) (input : string) :
  no_match w input <->
  TimeFilter.selectPeriod (lowered w) (lowered w input)
    TimeFilter.PREDEFINED_PERIODS = None.
Proof.
  split.
  - intros Hnone.
    pose proof (selectPeriod_spec w input TimeFilter.PREDEFINED_PERIODS) as S.
    destruct (TimeFilter.selectPeriod _ _ _) as [p |]; [| reflexivity].
    destruct S as (before & after & Hsplit & Hp & _).
    exfalso. unfold no_match in Hnone. rewrite Hsplit in Hnone.
    apply Forall_app in Hnone as [_ Hrest].
    apply Forall_cons_iff in Hrest as [Hnot _]. exact (Hnot Hp).
  - intros H.
    pose proof (selectPeriod_spec w input TimeFilter.PREDEFINED_PERIODS) as S.
    rewrite H in S. exact S.
Qed.

(** The outcome when a period was selected. *)
Lemma setTimePeriod_execute_found (args : TimeFilter.SetTimePeriodArgs.t)
    (w : World) (p : TimeFilter.Period) :
  TimeFilter.selectPeriod (lowered w)
    (lowered w (TimeFilter.SetTimePeriodArgs.timePeriodName args))
    TimeFilter.PREDEFINED_PERIODS = Some p ->
  exists outcome w',
    TimeFilter.setTimePeriodTool_execute args w = (Normal outcome, w')
    /\ field outcome "success" = Bool true
    /\ field (field outcome "filterConfig") "periodName" = Str (TimeFilter.name p)
    /\ field (field outcome "filterConfig") "periodScale" = Num (TimeFilter.scale p)
    /\ has_own (field outcome "filterConfig") "startDate"
       = (TimeFilter.scale p =? 100)
    /\ has_own (field outcome "filterConfig") "endDate"
       = (TimeFilter.scale p =? 100).
Proof.
  intros Hsel.
  unfold TimeFilter.setTimePeriodTool_execute, Eff.try_catch, Eff.bind,
    Eff.toLowerCase.
  rewrite Hsel.
  destruct (TimeFilter.scale p =? 0), (TimeFilter.scale p =? 100);
    eexists; eexists; (split; [reflexivity |]); repeat split; reflexivity.
Qed.

(** The outcome when no period was selected. *)
Lemma setTimePeriod_execute_not_found (args : TimeFilter.SetTimePeriodArgs.t)
    (w : World) :
  TimeFilter.selectPeriod (lowered w)
    (lowered w (TimeFilter.SetTimePeriodArgs.timePeriodName args))
    TimeFilter.PREDEFINED_PERIODS = None ->
  exists message,
    TimeFilter.setTimePeriodTool_execute args w
    = (Normal
         (Obj [ ("success", Bool false);
                ("message", Str message);
                ("availablePeriods",
                 Arr (List.map (fun p => Str (TimeFilter.name p))
                        TimeFilter.PREDEFINED_PERIODS)) ]), w).
Proof.
  intros Hsel.
  unfold TimeFilter.setTimePeriodTool_execute, Eff.try_catch, Eff.bind,
    Eff.toLowerCase.
  rewrite Hsel. eexists. reflexivity.
Qed.

(** C4. For every input name, set_time_period resolves it to the first
    catalog entry, in declared order, whose name contains the input or is
    contained in it, both lowered by the engine; the outcome is then a
    success naming that entry.  When no entry matches, the outcome is a
    failure that lists all the valid period names.  One of the two always
    applies.  In particular "last month" resolves to "Last Month".  This
    holds whatever the engine's case mapping of the strings that are not
    ASCII. *)
Theorem set_time_period_resolves_first_match
    (timePeriodName tabName : string) (w : World) :
  let args := TimeFilter.SetTimePeriodArgs.mk timePeriodName tabName in
  ((exists p, first_match w timePeriodName p) \/ no_match w timePeriodName)
  /\ (forall p,
        first_match w timePeriodName p ->
        exists outcome w',
          TimeFilter.setTimePeriodTool_execute args w = (Normal outcome, w')
          /\ field outcome "success" = Bool true
          /\ field (field outcome "filterConfig") "periodName"
             = Str (TimeFilter.name p)
          /\ field (field outcome "filterConfig") "periodScale"
             = Num (TimeFilter.scale p))
  /\ (no_match w timePeriodName ->
      exists outcome message,
        TimeFilter.setTimePeriodTool_execute args w = (Normal outcome, w)
        /\ field outcome "success" = Bool false
        /\ field outcome "message" = Str message
        /\ field outcome "availablePeriods"
           = Arr (List.map (fun p => Str (TimeFilter.name p))
                    TimeFilter.PREDEFINED_PERIODS))
  /\ first_match w "last month" (TimeFilter.mkPeriod "Last Month" 35 false).
Proof.
  intros args. split; [| split; [| split]].
  - destruct (TimeFilter.selectPeriod (lowered w) (lowered w timePeriodName)
                TimeFilter.PREDEFINED_PERIODS) as [p |] eqn:Hsel.
    + left. exists p. apply first_match_selected. exact Hsel.
    + right. apply no_match_selected. exact Hsel.
  - intros p Hp. apply first_match_selected in Hp.
    destruct (setTimePeriod_execute_found args w p Hp)
      as (outcome & w' & Hrun & Hok & Hname & Hscale & _).
    exists outcome, w'. repeat split; assumption.
  - intros Hnone. apply no_match_selected in Hnone.
    destruct (setTimePeriod_execute_not_found args w Hnone) as (message & Hrun).
    eexists; exists message. split; [exact Hrun |]. repeat split; reflexivity.
  - apply first_match_selected. vm_compute. reflexivity.
Qed.

(** An input that is not ASCII is matched in the engine's lowering: where
    the engine lowers the Kelvin sign to the letter k, as the Unicode case
    tables have it, the name "Last Wee" followed by that sign resolves to
    "Last Week". *)
Lemma kelvin_sign_resolves (tabName : string) (w : World) :
  unicode_lower w last_week_with_kelvin_sign = "last week" ->
  first_match w last_week_with_kelvin_sign
    (TimeFilter.mkPeriod "Last Week" 25 false)
  /\ exists outcome w',
       TimeFilter.setTimePeriodTool_execute
         (TimeFilter.SetTimePeriodArgs.mk last_week_with_kelvin_sign tabName) w
       = (Normal outcome, w')
       /\ field outcome "success" = Bool true
       /\ field (field outcome "filterConfig") "periodName" = Str "Last Week".
Proof.
  intros Hlower.
  assert (Hsel : TimeFilter.selectPeriod (lowered w)
                   (lowered w last_week_with_kelvin_sign)
                   TimeFilter.PREDEFINED_PERIODS
                 = Some (TimeFilter.mkPeriod "Last Week" 25 false)).
  { unfold lowered at 2.
    change (is_ascii last_week_with_kelvin_sign) with false. cbv iota.
    rewrite Hlower. vm_compute. reflexivity. }
  split; [apply first_match_selected; exact Hsel |].
  destruct (setTimePeriod_execute_found
              (TimeFilter.SetTimePeriodArgs.mk last_week_with_kelvin_sign tabName)
              w _ Hsel)
    as (outcome & w' & Hrun & Hok & Hname & _).
  exists outcome, w'. split; [exact Hrun |]. split; assumption.
Qed.

Lemma custom_is_scale_100 (p : TimeFilter.Period) :
  In p TimeFilter.PREDEFINED_PERIODS ->
  (TimeFilter.scale p = 100 <-> p = TimeFilter.mkPeriod "Custom" 100 true).
Proof.
  intros Hin. unfold TimeFilter.PREDEFINED_PERIODS in Hin.
  repeat (destruct Hin as [<- | Hin];
          [split; intros H; (discriminate H || reflexivity) |]).
  destruct Hin.
Qed.

(** C10. For every successful set_time_period outcome, the returned
    [filterConfig] has the [startDate] and [endDate] fields if and only if
    the matched catalog entry has scale 100, which is the Custom entry; for
    every other matched period both fields are absent. *)
Theorem set_time_period_dates_only_for_custom
    (args : TimeFilter.SetTimePeriodArgs.t) (w w' : World) (outcome : Value) :
  TimeFilter.setTimePeriodTool_execute args w = (Normal outcome, w') ->
  field outcome "success" = Bool true ->
  exists p,
    first_match w (TimeFilter.SetTimePeriodArgs.timePeriodName args) p
    /\ field (field outcome "filterConfig") "periodScale"
       = Num (TimeFilter.scale p)
    /\ (has_own (field outcome "filterConfig") "startDate" = true
        /\ has_own (field outcome "filterConfig") "endDate" = true
        <-> TimeFilter.scale p = 100)
    /\ (TimeFilter.scale p <> 100 ->
        has_own (field outcome "filterConfig") "startDate" = false
        /\ has_own (field outcome "filterConfig") "endDate" = false)
    /\ (TimeFilter.scale p = 100
        <-> p = TimeFilter.mkPeriod "Custom" 100 true).
Proof.
  intros Hrun Hok.
  destruct (TimeFilter.selectPeriod (lowered w)
              (lowered w (TimeFilter.SetTimePeriodArgs.timePeriodName args))
              TimeFilter.PREDEFINED_PERIODS) as [p |] eqn:Hsel.
  - destruct (setTimePeriod_execute_found args w p Hsel)
      as (outcome' & w'' & Hrun' & _ & _ & Hscale & Hstart & Hend).
    rewrite Hrun in Hrun'. injection Hrun' as <- <-.
    exists p. pose proof Hsel as Hfirst. apply first_match_selected in Hfirst.
    split; [exact Hfirst |]. split; [exact Hscale |].
    rewrite Hstart, Hend.
    split; [| split].
    + rewrite <- Z.eqb_eq. tauto.
    + intros Hne. apply Z.eqb_neq in Hne. rewrite Hne. split; reflexivity.
    + apply custom_is_scale_100.
      destruct Hfirst as (before & after & -> & _).
      apply in_or_app. right. left. reflexivity.
  - destruct (setTimePeriod_execute_not_found args w Hsel) as (message & Hrun').
    rewrite Hrun in Hrun'. injection Hrun' as -> _. discriminate Hok.
Qed.

(** ** set_custom_date_range *)

Lemma nonempty_string_ok (message : string) (path : list string) (v : Value) :
  match Zod.string_ [ Zod.min 1 message ] path v with
  | Zod.Ok s => v = Str s /\ s <> EmptyString
  | Zod.Invalid _ => True
  end.
Proof.
  destruct_value v; try exact I. cbn. split; [reflexivity | discriminate].
Qed.

(** Validation hands the executor the very strings of the request. *)
Lemma setCustomDateRange_validated_fields
    (toolArgs : Value) (args : TimeFilter.SetCustomDateRangeArgs.t) :
  TimeFilter.setCustomDateRangeTool_validateArgs toolArgs = Tool.Success args ->
  is_object toolArgs = true
  /\ field toolArgs "startDate"
     = Str (TimeFilter.SetCustomDateRangeArgs.startDate args)
  /\ field toolArgs "endDate"
     = Str (TimeFilter.SetCustomDateRangeArgs.endDate args)
  /\ field toolArgs "tabName"
     = Str (TimeFilter.SetCustomDateRangeArgs.tabName args)
  /\ date_regex_test (TimeFilter.SetCustomDateRangeArgs.startDate args) = true
  /\ date_regex_test (TimeFilter.SetCustomDateRangeArgs.endDate args) = true
  /\ TimeFilter.SetCustomDateRangeArgs.tabName args <> EmptyString.
Proof.
  unfold TimeFilter.setCustomDateRangeTool_validateArgs,
    TimeFilter.setCustomDateRangeSchema, Zod.object.
  destruct toolArgs; try discriminate; unfold Zod.prop.
  pose proof (date_string_ok "Start date must be in YYYY-MM-DD format"
                [ "startDate" ] (field (Obj props) "startDate")) as Hs.
  pose proof (date_string_ok "End date must be in YYYY-MM-DD format"
                [ "endDate" ] (field (Obj props) "endDate")) as He.
  pose proof (nonempty_string_ok "Tab name is required"
                [ "tabName" ] (field (Obj props) "tabName")) as Ht.
  destruct (Zod.string_ _ [ "startDate" ] _) as [s | i];
    destruct (Zod.string_ _ [ "endDate" ] _) as [e | j];
    destruct (Zod.string_ _ [ "tabName" ] _) as [t | k];
    cbn [Zod.ap]; try discriminate.
  intros [= <-].
  destruct Hs as [Hs Hs'], He as [He He'], Ht as [Ht Ht'].
  rewrite Hs in Hs'. rewrite He in He'.
  cbn [is_object TimeFilter.SetCustomDateRangeArgs.startDate
       TimeFilter.SetCustomDateRangeArgs.endDate
       TimeFilter.SetCustomDateRangeArgs.tabName].
  repeat split; assumption.
Qed.

(** The executor always returns an outcome; it reports failure, with a
    message, when the range is rejected and success otherwise. *)
Lemma setCustomDateRange_execute_spec
    (args : TimeFilter.SetCustomDateRangeArgs.t) (w : World) :
  exists outcome w1,
    TimeFilter.setCustomDateRangeTool_execute args w = (Normal outcome, w1)
    /\ ((rejected_range w args
         /\ field outcome "success" = Bool false
         /\ exists m, field outcome "message" = Str m /\ m <> EmptyString)
        \/ (~ rejected_range w args
            /\ field outcome "success" = Bool true
            /\ has_own outcome "filterConfig" = true)).
Proof.
  unfold TimeFilter.setCustomDateRangeTool_execute, rejected_range,
    fails_to_parse, start_after_end, end_in_future.
  unfold Eff.try_catch, Eff.bind, Eff.parse_date, Eff.now.
  destruct (date_parse w (TimeFilter.SetCustomDateRangeArgs.startDate args))
    as [s |] eqn:Hs.
  2: { eexists; eexists; split; [reflexivity |]. left.
       split; [left; reflexivity |]. split; [reflexivity |].
       eexists; split; [reflexivity | discriminate]. }
  destruct (date_parse w (TimeFilter.SetCustomDateRangeArgs.endDate args))
    as [e |] eqn:He.
  2: { eexists; eexists; split; [reflexivity |]. left.
       split; [right; left; reflexivity |]. split; [reflexivity |].
       eexists; split; [reflexivity | discriminate]. }
  destruct (Z.ltb_spec e s) as [Hlt | Hge].
  { eexists; eexists; split; [reflexivity |]. left.
    split; [right; right; left; exists s, e; repeat split; lia |].
    split; [reflexivity |]. eexists; split; [reflexivity | discriminate]. }
  destruct (Z.ltb_spec (clock w (clock_reads w)) e) as [Hfuture | Hpast].
  { eexists; eexists; split; [reflexivity |]. left.
    split; [right; right; right; exists e; split; [reflexivity | lia] |].
    split; [reflexivity |]. eexists; split; [reflexivity | discriminate]. }
  eexists; eexists; split; [reflexivity |]. right.
  split; [| split; reflexivity].
  intros [H | [H | [(s' & e' & [= <-] & [= <-] & H) | (e' & [= <-] & H)]]];
    try discriminate H; lia.
Qed.

(** C5. For schema-valid arguments, a set_custom_date_range call is
    answered with status 200 and a success envelope, never an error
    envelope, whose single text block is the serialised outcome; and the
    outcome reports failure ([success: false], with a message) exactly
    when either date fails to parse, or the start date is after the end
    date, or the end date is after the clock reading that the executor
    takes; otherwise it reports success.  This holds whatever the
    engine's reading of date strings. *)
Theorem set_custom_date_range_fails_in_the_outcome
    (req_body toolArgs : Value) (args : TimeFilter.SetCustomDateRangeArgs.t)
    (w : World) :
  get req_body "name" = Some (Str "set_custom_date_range") ->
  get req_body "arguments" = Some toolArgs ->
  TimeFilter.setCustomDateRangeTool_validateArgs toolArgs = Tool.Success args ->
  exists outcome w1 r w',
    TimeFilter.setCustomDateRangeTool_execute args w = (Normal outcome, w1)
    /\ Server.post_mcp_tools_call req_body w = (Normal r, w')
    /\ Server.status r = 200
    /\ is_success_envelope (Server.body r) = true
    /\ field (Server.body r) "result"
       = Obj [ ("content",
                Arr [ Obj [ ("type", Str "text");
                            ("text", JSON_stringify outcome) ] ]) ]
    /\ (field outcome "success" = Bool false <-> rejected_range w args)
    /\ (field outcome "success" = Bool true <-> ~ rejected_range w args)
    /\ (field outcome "success" = Bool false ->
        exists m, field outcome "message" = Str m /\ m <> EmptyString).
Proof.
  intros Hname Hargs Hvalid.
  destruct (setCustomDateRange_validated_fields toolArgs args Hvalid)
    as (Hobject & _).
  assert (Htruthy : truthy toolArgs = true)
    by (destruct toolArgs; try discriminate Hobject; reflexivity).
  destruct (setCustomDateRange_execute_spec args w)
    as (outcome & w1 & Hrun & Hcases).
  exists outcome, w1.
  unfold Server.post_mcp_tools_call, Server.tools_call, Eff.try_catch.
  rewrite Hname, Hargs, Htruthy.
  change (Server.find_tool TimeFilter.timeFilterTools
            (Str "set_custom_date_range"))
    with (Some TimeFilter.setCustomDateRangeTool).
  cbn [truthy negb orb String.eqb Tool.validateArgs Tool.execute
       TimeFilter.setCustomDateRangeTool].
  rewrite Hvalid. unfold Eff.bind at 1. rewrite Hrun.
  unfold Eff.bind. rewrite createMCPResponse_run.
  eexists; eexists. split; [reflexivity |]. split; [reflexivity |].
  split; [reflexivity |]. split; [reflexivity |]. split; [reflexivity |].
  destruct Hcases as [(Hrej & Hfalse & Hmsg) | (Hnot & Htrue & _)].
  - rewrite Hfalse. split; [tauto |]. split; [| intros _; exact Hmsg].
    split; [discriminate | intros H; contradiction].
  - rewrite Htrue. split; [| split; [tauto | discriminate]].
    split; [discriminate | intros H; contradiction].
Qed.

(** ** The guard before dispatch, and the registry *)

(** X12. A request whose [name] or [arguments] is missing or falsy is turned
    away with INVALID_REQUEST (-32600) before any lookup. *)
Lemma tools_call_guard (registry : list Tool.t) (req_body name toolArgs : Value)
    (w : World) :
  get req_body "name" = Some name ->
  get req_body "arguments" = Some toolArgs ->
  truthy name = false \/ truthy toolArgs = false ->
  exists r w',
    Server.tools_call registry req_body w = (Normal r, w')
    /\ Server.status r = 400
    /\ is_error_envelope (Server.body r) = true
    /\ error_code (Server.body r) = Num (-32600).
Proof.
  intros Hname Hargs Hfalsy.
  unfold Server.tools_call, Eff.try_catch. rewrite Hname, Hargs.
  assert (Hguard : negb (truthy name) || negb (truthy toolArgs) = true)
    by (destruct Hfalsy as [-> | ->]; [reflexivity | apply orb_true_r]).
  rewrite Hguard. unfold Eff.bind. rewrite createMCPError_run.
  eexists; eexists; split; [reflexivity |].
  split; [reflexivity |]. split; [reflexivity |].
  cbn [Server.body]. rewrite error_envelope_code. apply getErrorCode_table.
Qed.

(** The three registered names are pairwise distinct. *)
Lemma timeFilterTools_names_distinct :
  NoDup (List.map Tool.name TimeFilter.timeFilterTools).
Proof.
  cbn. repeat constructor; cbn; rewrite ?elem_of_cons, ?elem_of_nil;
    intros H; decompose [or] H; discriminate || contradiction.
Qed.

(** Lookup returns the first tool of that name: a tool listed after it
    under the same name would not replace it. *)
Lemma find_tool_keeps_first (registry : list Tool.t) (tool later : Tool.t)
    (name : Value) :
  Server.find_tool registry name = Some tool ->
  Server.find_tool (registry ++ [ later ])%list name = Some tool.
Proof.
  unfold Server.find_tool. induction registry as [| t rest IH]; cbn.
  - discriminate.
  - destruct (strict_eq_string name (Tool.name t)); [trivial | exact IH].
Qed.

(** Every response of the tool-call handler is an envelope of one of the
    two builders, so it carries exactly one of [result] and [error]. *)
Lemma tools_call_envelope_exclusive (registry : list Tool.t) (req_body : Value)
    (w : World) :
  exists r w',
    Server.tools_call registry req_body w = (Normal r, w')
    /\ xorb (has_own (Server.body r) "result") (has_own (Server.body r) "error")
       = true.
Proof.
  unfold Server.tools_call, Eff.try_catch.
  destruct (get req_body "name") as [name |];
    [destruct (get req_body "arguments") as [toolArgs |] |].
  - destruct (negb (truthy name) || negb (truthy toolArgs)).
    + unfold Eff.bind. rewrite createMCPError_run.
      eexists; eexists; split; reflexivity.
    + destruct (Server.find_tool registry name) as [tool |].
      * destruct (Tool.validateArgs tool toolArgs) as [data | reason].
        -- unfold Eff.bind.
           destruct (Tool.execute tool data w) as [[result | fault] w1].
           ++ rewrite createMCPResponse_run.
              eexists; eexists; split; reflexivity.
           ++ rewrite createMCPError_run.
              eexists; eexists; split; reflexivity.
        -- unfold Eff.bind. rewrite createMCPError_run.
           eexists; eexists; split; reflexivity.
      * unfold Eff.bind. rewrite template_run.
        destruct (ToString (number_text w) name); rewrite createMCPError_run;
          eexists; eexists; split; reflexivity.
  - unfold Eff.throw, Eff.bind. rewrite createMCPError_run.
    eexists; eexists; split; reflexivity.
  - unfold Eff.throw, Eff.bind. rewrite createMCPError_run.
    eexists; eexists; split; reflexivity.
Qed.

(** The protocol endpoint [POST /mcp] maps the failures of a
    ["tools/call"] too, without the guard and without the prefixes. *)
Lemma mcp_maps_failures
    (registry : list Tool.t) (req_body params name toolArgs : Value) (w : World) :
  get req_body "method" = Some (Str "tools/call") ->
  get req_body "params" = Some params ->
  get params "name" = Some name ->
  get params "arguments" = Some toolArgs ->
  maps_failures EmptyString EmptyString
    registry name toolArgs w (Server.mcp registry req_body w).
Proof.
  intros Hmethod Hparams Hname Hargs.
  unfold maps_failures, Server.mcp, Eff.try_catch.
  rewrite Hmethod, Hparams.
  change (strict_eq_string (Str "tools/call") "initialize") with false.
  change (strict_eq_string (Str "tools/call") "tools/list") with false.
  change (strict_eq_string (Str "tools/call") "tools/call") with true.
  cbv iota. rewrite Hname, Hargs.
  destruct (Server.find_tool registry name) as [tool |] eqn:Hfind.
  - destruct (Tool.validateArgs tool toolArgs) as [data | reason] eqn:Hvalid.
    + unfold Eff.bind.
      destruct (Tool.execute tool data w) as [[result | fault] w1] eqn:Hexec.
      * rewrite createMCPResponse_run.
        eexists; eexists; split; [reflexivity |]. split; [reflexivity |].
        split; [discriminate |]. split.
        -- intros tool' reason [= <-] H. rewrite Hvalid in H. discriminate H.
        -- intros tool' data' fault' w1' [= <-] H. rewrite Hvalid in H.
           injection H as <-. intros H. rewrite Hexec in H. discriminate H.
      * rewrite createMCPError_run.
        eexists; eexists; split; [reflexivity |]. split; [reflexivity |].
        split; [discriminate |]. split.
        -- intros tool' reason [= <-] H. rewrite Hvalid in H. discriminate H.
        -- intros tool' data' fault' w1' [= <-] H. rewrite Hvalid in H.
           injection H as <-. intros H. rewrite Hexec in H.
           injection H as <- <-. cbn [Server.body Server.status].
           rewrite error_envelope_code, error_envelope_message.
           split; [reflexivity | split; [apply getErrorCode_table | reflexivity]].
    + unfold Eff.bind. rewrite createMCPError_run.
      eexists; eexists; split; [reflexivity |]. split; [reflexivity |].
      split; [discriminate |]. split.
      * intros tool' reason' [= <-] H. rewrite Hvalid in H.
        injection H as <-. cbn [Server.body Server.status].
        rewrite error_envelope_code, error_envelope_message.
        split; [reflexivity | split; [apply getErrorCode_table | reflexivity]].
      * intros tool' data fault w1 [= <-] H. rewrite Hvalid in H.
        discriminate H.
  - unfold Eff.bind. rewrite template_run.
    destruct (ToString (number_text w) name) as [text |];
      rewrite createMCPError_run;
      (eexists; eexists; split; [reflexivity |]; split; [reflexivity |]);
      (split; [| split; intros; discriminate]);
      intros _; cbn [Server.body Server.status];
      rewrite error_envelope_code, error_envelope_message;
      (split; [reflexivity | split; [apply getErrorCode_table | reflexivity]]).
Qed.

(** X14. Dispatch maps the failures of a call at both endpoints, for a
    call whose name is a value of a JSON document and whose [name] and
    [arguments] are truthy.  An unknown name is answered 404 with
    METHOD_NOT_FOUND (-32601) and a message quoting the name's string
    form, unless the name has none, which is answered 500 with
    INTERNAL_ERROR (-32603); rejected arguments are answered 400 with
    INVALID_PARAMS (-32602) and the validator's reason; an executor that
    throws an [Error] is answered 500 with INTERNAL_ERROR and its message.
    [POST /mcp/tools/call] puts "Invalid arguments: " and
    "Tool execution failed: " before the reason and the fault's
    message; [POST /mcp] sends them bare. *)
Theorem dispatch_maps_failures_at_both_endpoints
    (registry : list Tool.t) (call name toolArgs : Value) (w : World) :
  get call "name" = Some name ->
  get call "arguments" = Some toolArgs ->
  truthy name = true ->
  truthy toolArgs = true ->
  is_json name = true ->
  maps_failures "Invalid arguments: " "Tool execution failed: "
    registry name toolArgs w (Server.tools_call registry call w)
  /\ maps_failures EmptyString EmptyString
       registry name toolArgs w
       (Server.mcp registry (protocol_body (Str "tools/call") call) w).
Proof.
  intros Hname Hargs Htn Hta _. split.
  - apply tools_call_maps_failures; assumption.
  - apply (mcp_maps_failures registry _ call name toolArgs);
      (reflexivity || assumption).
Qed.

(** The listing keeps the registry's order: the three tools, as declared. *)
Lemma tools_listing_order :
  List.map (fun entry => field entry "name")
    (match Server.tools_listing TimeFilter.timeFilterTools with
     | Arr entries => entries
     | _ => []
     end)
  = [ Str "set_time_period"; Str "set_custom_date_range";
      Str "list_time_periods" ].
Proof. reflexivity. Qed.

(** With an engine that reads calendar dates, the range 2024-02-01 to
    2024-01-01 is refused for its order, whatever the clock. *)
Lemma set_custom_date_range_start_after_end (w : World) :
  reads_calendar_dates w ->
  TimeFilter.setCustomDateRangeTool_execute
    (TimeFilter.SetCustomDateRangeArgs.mk "2024-02-01" "2024-01-01" "Overview")
    w
  = (Normal (TimeFilter.failure "Start date cannot be after end date"), w).
Proof.
  intros Hreads.
  unfold TimeFilter.setCustomDateRangeTool_execute, Eff.try_catch, Eff.bind,
    Eff.parse_date.
  cbn [TimeFilter.SetCustomDateRangeArgs.startDate
       TimeFilter.SetCustomDateRangeArgs.endDate].
  rewrite (Hreads "2024-02-01" 1706745600000) by (vm_compute; reflexivity).
  rewrite (Hreads "2024-01-01" 1704067200000) by (vm_compute; reflexivity).
  reflexivity.
Qed.

(** ** Worked instances *)

(** X14 at four requests: an unknown name, an empty period name and a
    tool whose executor throws, at the tool-call endpoint; and a name
    without a string form, at the protocol endpoint. *)
Lemma dispatch_at_both_endpoints_witness :
  (exists r w',
      Server.tools_call [ faulty_tool ] (call_body "nonexistent" (Obj []))
        sample_world = (Normal r, w')
      /\ Server.status r = 404
      /\ error_code (Server.body r) = Num (-32601)
      /\ error_message (Server.body r) = Str "Tool 'nonexistent' not found")
  /\ (exists r w',
        Server.tools_call TimeFilter.timeFilterTools
          (call_body "set_time_period"
             (Obj [ ("timePeriodName", Str EmptyString);
                    ("tabName", Str "Overview") ]))
          sample_world = (Normal r, w')
        /\ error_code (Server.body r) = Num (-32602))
  /\ (exists r w',
        Server.tools_call [ faulty_tool ] (call_body "faulty" (Obj []))
          sample_world = (Normal r, w')
        /\ error_code (Server.body r) = Num (-32603)
        /\ error_message (Server.body r)
           = Str "Tool execution failed: disk on fire")
  /\ (exists r w',
        Server.mcp TimeFilter.timeFilterTools
          (protocol_body (Str "tools/call")
             (Obj [ ("name", Obj [ ("toString", Num 1) ]);
                    ("arguments", Obj []) ]))
          sample_world = (Normal r, w')
        /\ Server.status r = 500
        /\ error_code (Server.body r) = Num (-32603)
        /\ error_message (Server.body r) = Str cannot_convert).
Proof.
  split; [| split; [| split]].
  - destruct (proj1 (dispatch_maps_failures_at_both_endpoints
                       [ faulty_tool ] (call_body "nonexistent" (Obj []))
                       (Str "nonexistent") (Obj []) sample_world
                       eq_refl eq_refl eq_refl eq_refl eq_refl))
      as (r & w' & Hrun & _ & Hunknown & _).
    exists r, w'. split; [exact Hrun | apply Hunknown; reflexivity].
  - destruct (proj1 (dispatch_maps_failures_at_both_endpoints
                       TimeFilter.timeFilterTools
                       (call_body "set_time_period"
                          (Obj [ ("timePeriodName", Str EmptyString);
                                 ("tabName", Str "Overview") ]))
                       (Str "set_time_period")
                       (Obj [ ("timePeriodName", Str EmptyString);
                              ("tabName", Str "Overview") ])
                       sample_world eq_refl eq_refl eq_refl eq_refl eq_refl))
      as (r & w' & Hrun & _ & _ & Hinvalid & _).
    exists r, w'. split; [exact Hrun |].
    eapply (Hinvalid TimeFilter.setTimePeriodTool); reflexivity.
  - destruct (proj1 (dispatch_maps_failures_at_both_endpoints
                       [ faulty_tool ] (call_body "faulty" (Obj []))
                       (Str "faulty") (Obj []) sample_world
                       eq_refl eq_refl eq_refl eq_refl eq_refl))
      as (r & w' & Hrun & _ & _ & _ & Hfault).
    exists r, w'. split; [exact Hrun |].
    destruct (Hfault faulty_tool (Obj []) "disk on fire" sample_world
                eq_refl eq_refl eq_refl) as (_ & Hcode & Hmessage).
    split; assumption.
  - destruct (proj2 (dispatch_maps_failures_at_both_endpoints
                       TimeFilter.timeFilterTools
                       (Obj [ ("name", Obj [ ("toString", Num 1) ]);
                              ("arguments", Obj []) ])
                       (Obj [ ("toString", Num 1) ]) (Obj []) sample_world
                       eq_refl eq_refl eq_refl eq_refl eq_refl))
      as (r & w' & Hrun & _ & Hunknown & _).
    exists r, w'. split; [exact Hrun | apply Hunknown; reflexivity].
Defined.

(** C2 at set_time_period: an empty [tabName] fails validation, and the
    tab name "InvalidTab", which is not among the declared literals,
    passes. *)
Lemma validation_asks_nonempty_strings_witness :
  is_success
    (Tool.validateArgs TimeFilter.setTimePeriodTool
       (Obj [ ("timePeriodName", Str "Last Month");
              ("tabName", Str EmptyString) ])) = false
  /\ is_success
       (Tool.validateArgs TimeFilter.setTimePeriodTool
          (Obj [ ("timePeriodName", Str "Last Month");
                 ("tabName", Str "InvalidTab") ])) = true.
Proof.
  destruct validation_asks_nonempty_strings_not_enums as (Hfail & Hexact & _).
  split.
  - apply (Hfail TimeFilter.setTimePeriodTool "tabName"
             [ Str "Overview"; Str "Comparison"; Str "Prediction";
               Str "Text Analysis"; Str "Customer Journey" ]).
    + left. reflexivity.
    + reflexivity.
    + reflexivity.
  - rewrite Hexact. reflexivity.
Defined.

(** C4 at "last month" and at a name that matches nothing. *)
Lemma set_time_period_resolves_witness :
  (exists outcome w',
      TimeFilter.setTimePeriodTool_execute
        (TimeFilter.SetTimePeriodArgs.mk "last month" "Overview") sample_world
      = (Normal outcome, w')
      /\ field outcome "success" = Bool true
      /\ field (field outcome "filterConfig") "periodName" = Str "Last Month")
  /\ (exists outcome,
        TimeFilter.setTimePeriodTool_execute
          (TimeFilter.SetTimePeriodArgs.mk "fortnight" "Overview") sample_world
        = (Normal outcome, sample_world)
        /\ field outcome "success" = Bool false).
Proof.
  split.
  - destruct (set_time_period_resolves_first_match "last month" "Overview"
                sample_world) as (_ & Hfound & _ & Hlast).
    destruct (Hfound _ Hlast) as (outcome & w' & Hrun & Hok & Hname & _).
    exists outcome, w'. split; [exact Hrun |]. split; assumption.
  - destruct (set_time_period_resolves_first_match "fortnight" "Overview"
                sample_world) as (_ & _ & Hnone & _).
    assert (Hno : no_match sample_world "fortnight").
    { unfold no_match, TimeFilter.PREDEFINED_PERIODS.
      repeat constructor; intros [H | H]; vm_compute in H; discriminate H. }
    destruct (Hnone Hno) as (outcome & message & Hrun & Hfalse & _).
    exists outcome. split; assumption.
Defined.

(** C5 at the range 2024-02-01 to 2024-01-01: start after end, a failure
    inside a success envelope. *)
Lemma set_custom_date_range_witness :
  exists outcome r w',
    Server.post_mcp_tools_call
      (call_body "set_custom_date_range"
         (Obj [ ("startDate", Str "2024-02-01");
                ("endDate", Str "2024-01-01");
                ("tabName", Str "Overview") ]))
      sample_world = (Normal r, w')
    /\ Server.status r = 200
    /\ is_success_envelope (Server.body r) = true
    /\ field (Server.body r) "result"
       = Obj [ ("content",
                Arr [ Obj [ ("type", Str "text");
                            ("text", JSON_stringify outcome) ] ]) ]
    /\ field outcome "success" = Bool false.
Proof.
  destruct (set_custom_date_range_fails_in_the_outcome
              (call_body "set_custom_date_range"
                 (Obj [ ("startDate", Str "2024-02-01");
                        ("endDate", Str "2024-01-01");
                        ("tabName", Str "Overview") ]))
              (Obj [ ("startDate", Str "2024-02-01");
                     ("endDate", Str "2024-01-01");
                     ("tabName", Str "Overview") ])
              (TimeFilter.SetCustomDateRangeArgs.mk
                 "2024-02-01" "2024-01-01" "Overview")
              sample_world eq_refl eq_refl eq_refl)
    as (outcome & w1 & r & w' & _ & Hrun & Hstatus & Henvelope & Htext
        & Hfalse & _).
  exists outcome, r, w'.
  split; [exact Hrun |]. split; [exact Hstatus |]. split; [exact Henvelope |].
  split; [exact Htext |].
  apply Hfalse. right. right. left.
  exists 1706745600000, 1704067200000.
  split; [vm_compute; reflexivity |]. split; [vm_compute; reflexivity | lia].
Defined.

(** C6 at a reply whose [result] is [0]. *)
Lemma validateMCPRequest_witness :
  valid (validateMCPRequest
           (Obj [ ("jsonrpc", Str "2.0"); ("id", Num 1); ("result", Num 0) ]))
  = false.
Proof.
  apply validateMCPRequest_invalid_iff. right. right.
  repeat split; reflexivity.
Defined.

(** C10 at "custom", the one entry of scale 100, and at "today". *)
Lemma set_time_period_dates_witness :
  (exists outcome w',
      TimeFilter.setTimePeriodTool_execute
        (TimeFilter.SetTimePeriodArgs.mk "custom" "Overview") sample_world
      = (Normal outcome, w')
      /\ has_own (field outcome "filterConfig") "startDate" = true
      /\ has_own (field outcome "filterConfig") "endDate" = true)
  /\ (exists outcome w',
        TimeFilter.setTimePeriodTool_execute
          (TimeFilter.SetTimePeriodArgs.mk "today" "Overview") sample_world
        = (Normal outcome, w')
        /\ has_own (field outcome "filterConfig") "startDate" = false
        /\ has_own (field outcome "filterConfig") "endDate" = false).
Proof.
  split.
  - eexists; eexists. split; [reflexivity |].
    destruct (set_time_period_dates_only_for_custom
                (TimeFilter.SetTimePeriodArgs.mk "custom" "Overview")
                sample_world _ _ eq_refl eq_refl)
      as (p & Hfirst & _ & Hdates & _ & Hcustom).
    apply Hdates. apply Hcustom.
    apply first_match_selected in Hfirst. vm_compute in Hfirst.
    injection Hfirst as <-. reflexivity.
  - eexists; eexists. split; [reflexivity |].
    destruct (set_time_period_dates_only_for_custom
                (TimeFilter.SetTimePeriodArgs.mk "today" "Overview")
                sample_world _ _ eq_refl eq_refl)
      as (p & Hfirst & _ & _ & Hother & _).
    apply Hother.
    apply first_match_selected in Hfirst. vm_compute in Hfirst.
    injection Hfirst as <-. discriminate.
Defined.

(* ===================================================================== *)
(** * Further properties                                                  *)
(* ===================================================================== *)

Import Notions.

(** ** The envelope builders and the request validator *)

(** X1. [createMCPError] attaches [data] to the inner error object exactly
    when the argument is truthy, and then attaches the argument itself:
    an omitted argument, [null], [0], the empty string, [false] and [NaN]
    all leave the key out. *)
Lemma createMCPError_data_iff_truthy (code message : string) (data : Value)
    (w : World) :
  exists e,
    createMCPError code message data w = (Normal e, after_id w)
    /\ has_own (field e "error") "data" = truthy data
    /\ field (field e "error") "data"
       = (if truthy data then data else Undefined).
Proof.
  unfold createMCPError, Eff.bind. rewrite generateId_run.
  destruct data as [| | [|] | n | | s | items | props | f |];
    try (eexists; split; [reflexivity | split; reflexivity]).
  - cbn [truthy]. destruct (n =? 0);
      eexists; (split; [reflexivity | split; reflexivity]).
  - cbn [truthy]. destruct (String.eqb s EmptyString);
      eexists; (split; [reflexivity | split; reflexivity]).
Qed.

(** X2. Every envelope that [createMCPError] builds passes
    [validateMCPRequest]; an envelope of [createMCPResponse] passes exactly
    when its result is truthy. *)
Lemma built_envelopes_against_validateMCPRequest
    (code message method : string) (data result : Value) (w : World) :
  (exists e w',
     createMCPError code message data w = (Normal e, w')
     /\ valid (validateMCPRequest e) = true)
  /\ (exists e w',
        createMCPResponse method result w = (Normal e, w')
        /\ valid (validateMCPRequest e) = truthy result).
Proof.
  split.
  - destruct (createMCPError_shape code message data w) as (error & -> & _).
    eexists; eexists; split; reflexivity.
  - rewrite createMCPResponse_run. eexists; eexists; split; [reflexivity |].
    unfold validateMCPRequest, success_envelope. cbn.
    destruct (truthy result); reflexivity.
Qed.

(** ** Tool and content helpers *)

Lemma own_filter_key (keep : string -> bool) (props : list (string * Value))
    (k : string) :
  own (List.filter (fun kv => keep (fst kv)) props) k
  = if keep k then own props k else None.
Proof.
  induction props as [| [k' v] rest IH]; cbn [List.filter own fst].
  - destruct (keep k); reflexivity.
  - destruct (String.eqb k' k) eqn:E.
    + apply String.eqb_eq in E. rewrite E.
      destruct (keep k) eqn:Hk; cbn [own].
      * rewrite String.eqb_refl. reflexivity.
      * rewrite IH. rewrite ?Hk. reflexivity.
    + destruct (keep k') eqn:Hk'; cbn [own]; [rewrite E |]; exact IH.
Qed.

Lemma own_app (xs ys : list (string * Value)) (k : string) :
  own (xs ++ ys)%list k
  = match own xs k with Some v => Some v | None => own ys k end.
Proof.
  induction xs as [| [k' v] rest IH]; cbn [app own]; [reflexivity |].
  destruct (String.eqb k' k); [reflexivity | exact IH].
Qed.

(** X4. [createMCPTool] puts [type: "object"] before the spread of the given
    schema, so a [type] of the schema's own replaces it, and every other
    key of the schema reads as in the schema. *)
Lemma createMCPTool_inputSchema_keys (name description inputSchema : Value)
    (k : string) :
  exists schema,
    field (ProtocolTools.createMCPTool name description inputSchema) "inputSchema"
    = Obj schema
    /\ own schema k
       = if String.eqb k "type"
         then Some (match own (ProtocolTools.own_enumerable inputSchema) "type" with
                    | Some t => t
                    | None => Str "object"
                    end)
         else own (ProtocolTools.own_enumerable inputSchema) k.
Proof.
  eexists; split; [reflexivity |].
  unfold ProtocolTools.spread_over_type.
  set (props := ProtocolTools.own_enumerable inputSchema).
  rewrite own_app.
  rewrite (own_filter_key ProtocolTools.is_array_index).
  cbn [own].
  rewrite (own_filter_key
             (fun k => negb (ProtocolTools.is_array_index k)
                       && negb (String.eqb k "type"))).
  rewrite (String.eqb_sym "type" k).
  destruct (String.eqb k "type") eqn:E.
  - apply String.eqb_eq in E. subst k. reflexivity.
  - destruct (ProtocolTools.is_array_index k); cbn [negb andb].
    + destruct (own props k); reflexivity.
    + reflexivity.
Qed.

Lemma length_append (s t : string) :
  String.length (s +:+ t) = (String.length s + String.length t)%nat.
Proof. induction s as [| c s IH]; simpl; [reflexivity | f_equal; exact IH]. Qed.

Lemma length_escape (s : string) :
  (String.length s <= String.length (escape s))%nat.
Proof.
  induction s as [| c rest IH]; [cbn; lia |].
  cbn [escape]. rewrite length_append.
  assert (1 <= String.length (escape_char c))%nat.
  { unfold escape_char. cbv zeta.
    repeat match goal with
           | |- context [if ?b then _ else _] => destruct b
           end; rewrite ?length_append; simpl; lia. }
  simpl String.length. lia.
Qed.

(** Serialising a string never gives the string back: the quotes make it
    longer. *)
Lemma JSON_stringify_string_differs (s : string) :
  JSON_stringify (Str s) <> Str s.
Proof.
  cbn. unfold quote. intros [= H].
  apply (f_equal String.length) in H.
  rewrite !length_append in H. pose proof (length_escape s). cbn in H. lia.
Qed.

(** X5. [createMCPContent] throws in one case only: an image whose content is
    [undefined] or [null]. *)
Lemma createMCPContent_throws_iff (type content : Value) :
  (exists message, ProtocolTools.createMCPContent type content = Throw message)
  <-> type = Str "image" /\ (content = Undefined \/ content = Null).
Proof.
  unfold ProtocolTools.createMCPContent. split.
  - intros [message H].
    destruct (strict_eq_string type "text") eqn:Htext; [discriminate H |].
    destruct (strict_eq_string type "image") eqn:Himage; [| discriminate H].
    split.
    + destruct type; try discriminate Himage.
      cbn in Himage. apply String.eqb_eq in Himage. rewrite Himage. reflexivity.
    + destruct content; (discriminate H || tauto).
  - intros [-> [-> | ->]]; eexists; reflexivity.
Qed.

(** X6. Any type other than ["image"] gives a text block.  The type ["text"]
    passes a string through as it is, while an unknown type serialises
    it, quotes and all: the two agree exactly on the contents that are not
    strings. *)
Lemma createMCPContent_unknown_type_serialises_strings (type content : Value) :
  strict_eq_string type "image" = false ->
  strict_eq_string type "text" = false ->
  (exists text,
     ProtocolTools.createMCPContent type content = Normal (text_block text))
  /\ (ProtocolTools.createMCPContent type content
      = ProtocolTools.createMCPContent (Str "text") content
      <-> forall s, content <> Str s).
Proof.
  intros Himage Htext. unfold ProtocolTools.createMCPContent.
  rewrite Himage, Htext. cbn [strict_eq_string String.eqb Ascii.eqb Bool.eqb].
  change (strict_eq_string (Str "text") "text") with true. cbv iota.
  split; [eexists; reflexivity |].
  split.
  - intros H s ->. cbn [ProtocolTools.text_of] in H.
    injection H as H. apply (JSON_stringify_string_differs s).
    cbn. rewrite H. reflexivity.
  - intros H. destruct content; try reflexivity.
    exfalso. exact (H _ eq_refl).
Qed.

(** X7. [formatToolResult] throws exactly on [undefined] and [null]; on any
    other result it gives one text block and a boolean [isError], which is
    true exactly when the result's [success] is the boolean [false]: a
    missing [success], or one that is [0] or the empty string, is no
    error. *)
Lemma formatToolResult_isError (result : Value) :
  match ProtocolTools.formatToolResult result with
  | Throw _ => result = Undefined \/ result = Null
  | Normal formatted =>
      result <> Undefined /\ result <> Null
      /\ (exists text, field formatted "content" = Arr [ text_block text ])
      /\ (exists b, field formatted "isError" = Bool b
                    /\ (b = true <-> field result "success" = Bool false))
  end.
Proof.
  unfold ProtocolTools.formatToolResult, ProtocolTools.createMCPContent.
  change (strict_eq_string (Str "text") "text") with true. cbv iota.
  destruct (get result "success") as [success |] eqn:Hget.
  - split; [intros ->; discriminate Hget |].
    split; [intros ->; discriminate Hget |].
    split; [eexists; reflexivity |].
    exists (ProtocolTools.strict_eq_false success). split; [reflexivity |].
    unfold field. rewrite Hget.
    destruct success as [| | [|] | | | | | | |]; cbn; split;
      (reflexivity || discriminate).
  - destruct result; try discriminate Hget; tauto.
Qed.

(** X8. On an outcome object, [formatToolResult] gives the very content block
    that the tool-call handler builds inline, and flags the outcome as an
    error exactly when it is a failure. *)
Lemma formatToolResult_on_outcome (success : bool) (outcome : Value) :
  is_outcome success outcome ->
  ProtocolTools.formatToolResult outcome
  = Normal (Obj [ ("content", Arr [ text_block (JSON_stringify outcome) ]);
                  ("isError", Bool (negb success)) ]).
Proof.
  intros (props & message & -> & Hsuccess & _).
  unfold ProtocolTools.formatToolResult, ProtocolTools.createMCPContent.
  change (strict_eq_string (Str "text") "text") with true. cbv iota.
  cbn [get ProtocolTools.text_of]. rewrite Hsuccess.
  destruct success; reflexivity.
Qed.


Lemma find_tool_registered (tool : Tool.t) :
  List.In tool TimeFilter.timeFilterTools ->
  Server.find_tool TimeFilter.timeFilterTools (Str (Tool.name tool)) = Some tool.
Proof. intros [<- | [<- | [<- | []]]]; reflexivity. Qed.

Lemma registered_name_truthy (tool : Tool.t) :
  List.In tool TimeFilter.timeFilterTools ->
  truthy (Str (Tool.name tool)) = true.
Proof. intros [<- | [<- | [<- | []]]]; reflexivity. Qed.

(** ** The tool-call handler, case by case *)

(** X10. What the handler answers, for any registry, body and world: a status
    and an envelope that go together in one of five ways.  A request that
    is turned away with 400 or 404 has run no executor: the world has
    moved by the one id of the answer. *)
Lemma tools_call_status_and_code (registry : list Tool.t) (req_body : Value)
    (w : World) :
  exists r w',
    Server.tools_call registry req_body w = (Normal r, w')
    /\ ((Server.status r = 200 /\ is_success_envelope (Server.body r) = true)
        \/ (Server.status r = 400 /\ is_error_envelope (Server.body r) = true
            /\ error_code (Server.body r) = Num (-32600) /\ w' = after_id w)
        \/ (Server.status r = 400 /\ is_error_envelope (Server.body r) = true
            /\ error_code (Server.body r) = Num (-32602) /\ w' = after_id w)
        \/ (Server.status r = 404 /\ is_error_envelope (Server.body r) = true
            /\ error_code (Server.body r) = Num (-32601) /\ w' = after_id w)
        \/ (Server.status r = 500 /\ is_error_envelope (Server.body r) = true
            /\ error_code (Server.body r) = Num (-32603))).
Proof.
  unfold Server.tools_call, Eff.try_catch.
  destruct (get req_body "name") as [name |];
    [destruct (get req_body "arguments") as [toolArgs |] |].
  - destruct (negb (truthy name) || negb (truthy toolArgs)).
    + unfold Eff.bind. rewrite createMCPError_run.
      eexists; eexists; split; [reflexivity |].
      right; left. repeat split.
    + destruct (Server.find_tool registry name) as [tool |].
      * destruct (Tool.validateArgs tool toolArgs) as [data | reason].
        -- unfold Eff.bind.
           destruct (Tool.execute tool data w) as [[result | fault] w1].
           ++ rewrite createMCPResponse_run.
              eexists; eexists; split; [reflexivity |].
              left. split; reflexivity.
           ++ rewrite createMCPError_run.
              eexists; eexists; split; [reflexivity |].
              do 4 right. repeat split.
        -- unfold Eff.bind. rewrite createMCPError_run.
           eexists; eexists; split; [reflexivity |].
           right; right; left. repeat split.
      * unfold Eff.bind. rewrite template_run.
        destruct (ToString (number_text w) name); rewrite createMCPError_run.
        -- eexists; eexists; split; [reflexivity |].
           do 3 right; left. repeat split.
        -- eexists; eexists; split; [reflexivity |].
           do 4 right. repeat split.
  - unfold Eff.throw, Eff.bind. rewrite createMCPError_run.
    eexists; eexists; split; [reflexivity |]. do 4 right. repeat split.
  - unfold Eff.throw, Eff.bind. rewrite createMCPError_run.
    eexists; eexists; split; [reflexivity |]. do 4 right. repeat split.
Qed.

Lemma setTimePeriod_execute_outcome (data : TimeFilter.SetTimePeriodArgs.t)
    (w : World) :
  exists success outcome w',
    TimeFilter.setTimePeriodTool_execute data w = (Normal outcome, w')
    /\ is_outcome success outcome.
Proof.
  unfold TimeFilter.setTimePeriodTool_execute, Eff.try_catch, Eff.bind,
    Eff.toLowerCase.
  destruct (TimeFilter.selectPeriod _ _ _) as [p |].
  - destruct (TimeFilter.scale p =? 0), (TimeFilter.scale p =? 100);
      eexists; eexists; eexists; (split; [reflexivity |]);
      eexists; eexists; (split; [reflexivity | split; reflexivity]).
  - eexists; eexists; eexists; (split; [reflexivity |]);
      eexists; eexists; (split; [reflexivity | split; reflexivity]).
Qed.

Lemma setCustomDateRange_execute_outcome
    (data : TimeFilter.SetCustomDateRangeArgs.t) (w : World) :
  exists success outcome w',
    TimeFilter.setCustomDateRangeTool_execute data w = (Normal outcome, w')
    /\ is_outcome success outcome.
Proof.
  unfold TimeFilter.setCustomDateRangeTool_execute, Eff.try_catch, Eff.bind,
    Eff.parse_date.
  destruct (date_parse w _) as [start |];
    [destruct (date_parse w _) as [end_ |] |].
  - destruct (end_ <? start).
    + eexists; eexists; eexists; (split; [reflexivity |]);
        eexists; eexists; (split; [reflexivity | split; reflexivity]).
    + cbn [Eff.now]. destruct (clock w (clock_reads w) <? end_);
        eexists; eexists; eexists; (split; [reflexivity |]);
        eexists; eexists; (split; [reflexivity | split; reflexivity]).
  - eexists; eexists; eexists; (split; [reflexivity |]);
      eexists; eexists; (split; [reflexivity | split; reflexivity]).
  - eexists; eexists; eexists; (split; [reflexivity |]);
      eexists; eexists; (split; [reflexivity | split; reflexivity]).
Qed.

Lemma listTimePeriods_execute_outcome (data : Value) (w : World) :
  exists success outcome w',
    TimeFilter.listTimePeriodsTools_execute data w = (Normal outcome, w')
    /\ is_outcome success outcome.
Proof.
  eexists; eexists; eexists; (split; [reflexivity |]);
    eexists; eexists; (split; [reflexivity | split; reflexivity]).
Qed.

Lemma registered_execute_outcome (tool : Tool.t) (data : Tool.Args tool)
    (w : World) :
  List.In tool TimeFilter.timeFilterTools ->
  exists success outcome w',
    Tool.execute tool data w = (Normal outcome, w')
    /\ is_outcome success outcome.
Proof.
  intros [<- | [<- | [<- | []]]].
  - apply setTimePeriod_execute_outcome.
  - apply setCustomDateRange_execute_outcome.
  - apply listTimePeriods_execute_outcome.
Qed.

(** X9. Every registered executor returns, in any world and on any validated
    arguments, and what it returns is an outcome object: a boolean
    [success] and a string [message] of its own.  No executor throws. *)
Lemma executors_return_outcomes (tool : Tool.t) (data : Tool.Args tool)
    (w : World) :
  List.In tool TimeFilter.timeFilterTools ->
  (forall fault w', Tool.execute tool data w <> (Throw fault, w'))
  /\ exists success outcome w',
       Tool.execute tool data w = (Normal outcome, w')
       /\ is_outcome success outcome.
Proof.
  intros Hin.
  destruct (registered_execute_outcome tool data w Hin)
    as (success & outcome & w1 & Hrun & Hshape).
  split.
  - intros fault w' H. rewrite Hrun in H. discriminate H.
  - exists success, outcome, w1. split; assumption.
Qed.

(** X11. A call of a registered tool with arguments that its validator
    accepts is answered 200 with a success envelope whose [content] is
    one text block: the executor's outcome, serialised.  The handler
    generates the id after the executor has run. *)
Lemma tools_call_wraps_the_outcome (tool : Tool.t) (toolArgs : Value)
    (data : Tool.Args tool) (w : World) :
  List.In tool TimeFilter.timeFilterTools ->
  truthy toolArgs = true ->
  Tool.validateArgs tool toolArgs = Tool.Success data ->
  exists success outcome w1,
    Tool.execute tool data w = (Normal outcome, w1)
    /\ is_outcome success outcome
    /\ Server.post_mcp_tools_call (call_body (Tool.name tool) toolArgs) w
       = (Normal
            (Server.mkResponse 200
               (success_envelope (id_at w1)
                  (Obj [ ("content",
                          Arr [ text_block (JSON_stringify outcome) ]) ]))),
          after_id w1).
Proof.
  intros Hin Htruthy Hvalid.
  destruct (registered_execute_outcome tool data w Hin)
    as (success & outcome & w1 & Hrun & Hshape).
  exists success, outcome, w1. split; [exact Hrun |]. split; [exact Hshape |].
  unfold Server.post_mcp_tools_call, Server.tools_call, Eff.try_catch, call_body.
  cbn [get own String.eqb Ascii.eqb Bool.eqb].
  rewrite (registered_name_truthy tool Hin), Htruthy. cbn [negb orb].
  rewrite (find_tool_registered tool Hin), Hvalid.
  unfold Eff.bind. rewrite Hrun, createMCPResponse_run. reflexivity.
Qed.

(** ** Listing and lookup *)

Lemma listed_names_map (registry : list Tool.t) :
  listed_names registry = List.map (fun t => Str (Tool.name t)) registry.
Proof.
  unfold listed_names, Server.tools_listing. rewrite List.map_map.
  reflexivity.
Qed.

(** X13. Whatever the registry, the listing has one entry per tool, in the
    registry's order, and lookup finds a tool under a name exactly when
    the listing shows that name; a name that is not a string finds
    nothing. *)
Lemma listing_and_lookup_agree (registry : list Tool.t) (name : Value) :
  listed_names registry = List.map (fun t => Str (Tool.name t)) registry
  /\ ((exists tool, Server.find_tool registry name = Some tool)
      <-> List.In name (listed_names registry)).
Proof.
  split; [apply listed_names_map |].
  rewrite listed_names_map. unfold Server.find_tool.
  induction registry as [| t rest IH]; cbn [List.find List.map List.In].
  - split; [intros [tool H]; discriminate H | intros []].
  - destruct (strict_eq_string name (Tool.name t)) eqn:E.
    + split; [| intros _; eexists; reflexivity].
      intros _. left. symmetry. apply strict_eq_string_true. exact E.
    + rewrite IH. split; [intros H; right; exact H |].
      intros [H | H]; [| exact H].
      exfalso. rewrite <- H in E. cbn in E. rewrite String.eqb_refl in E.
      discriminate E.
Qed.

(** ** The protocol endpoint *)

(** X15. On a call whose [name] and [arguments] are both truthy, the protocol
    endpoint and the tool-call endpoint run the same lookup, validation
    and execution: same status, same id, same kind of envelope, same error
    code and same final world; and whenever the status is 200 or 404, a
    success or an unknown name that has a string form, the two responses
    are the same.  The messages of the other errors differ, by the
    prefixes of the tool-call endpoint: those of rejected arguments, of a
    throwing executor, and of an unknown name without a string form,
    which both endpoints answer 500. *)
Lemma mcp_and_tools_call_agree (registry : list Tool.t)
    (req_body params name toolArgs : Value) (w : World) :
  get req_body "method" = Some (Str "tools/call") ->
  get req_body "params" = Some params ->
  get params "name" = Some name ->
  get params "arguments" = Some toolArgs ->
  truthy name = true ->
  truthy toolArgs = true ->
  exists r1 r2 w',
    Server.mcp registry req_body w = (Normal r1, w')
    /\ Server.tools_call registry params w = (Normal r2, w')
    /\ Server.status r1 = Server.status r2
    /\ field (Server.body r1) "id" = field (Server.body r2) "id"
    /\ is_error_envelope (Server.body r1) = is_error_envelope (Server.body r2)
    /\ error_code (Server.body r1) = error_code (Server.body r2)
    /\ (Server.status r1 = 200 \/ Server.status r1 = 404 -> r1 = r2).
Proof.
  intros Hmethod Hparams Hname Hargs Tname Targs.
  unfold Server.mcp, Server.tools_call, Eff.try_catch.
  rewrite Hmethod, Hparams.
  change (strict_eq_string (Str "tools/call") "initialize") with false.
  change (strict_eq_string (Str "tools/call") "tools/list") with false.
  change (strict_eq_string (Str "tools/call") "tools/call") with true.
  cbv iota. rewrite Hname, Hargs, Tname, Targs. cbn [negb orb].
  destruct (Server.find_tool registry name) as [tool |].
  - destruct (Tool.validateArgs tool toolArgs) as [data | reason].
    + unfold Eff.bind.
      destruct (Tool.execute tool data w) as [[result | fault] w1].
      * rewrite createMCPResponse_run.
        eexists; eexists; eexists. repeat split.
      * rewrite !createMCPError_run.
        eexists; eexists; eexists. repeat split.
        intros [H | H]; discriminate H.
    + unfold Eff.bind. rewrite !createMCPError_run.
      eexists; eexists; eexists. repeat split.
      intros [H | H]; discriminate H.
  - unfold Eff.bind. rewrite !template_run.
    destruct (ToString (number_text w) name); rewrite !createMCPError_run.
    + eexists; eexists; eexists. repeat split.
    + eexists; eexists; eexists. repeat split.
      intros [H | H]; discriminate H.
Qed.

(** X16. The protocol endpoint has no guard on [arguments]: a call of
    list_time_periods whose [arguments] is missing or falsy runs there and
    is answered 200, while the tool-call endpoint turns the same call away
    with 400 and INVALID_REQUEST. *)
Lemma mcp_runs_what_tools_call_turns_away (toolArgs : Value) (w : World) :
  truthy toolArgs = false ->
  let call := call_body "list_time_periods" toolArgs in
  (exists r w',
     Server.mcp TimeFilter.timeFilterTools
       (protocol_body (Str "tools/call") call) w = (Normal r, w')
     /\ Server.status r = 200
     /\ is_success_envelope (Server.body r) = true)
  /\ (exists r w',
        Server.post_mcp_tools_call call w = (Normal r, w')
        /\ Server.status r = 400
        /\ error_code (Server.body r) = Num (-32600)).
Proof.
  intros Hfalsy call. split.
  - eexists; eexists. split; [reflexivity |]. split; reflexivity.
  - unfold Server.post_mcp_tools_call, Server.tools_call, Eff.try_catch, call,
      call_body.
    cbn [get own String.eqb Ascii.eqb Bool.eqb].
    rewrite Hfalsy. cbn [truthy negb orb String.eqb].
    unfold Eff.bind. rewrite createMCPError_run.
    eexists; eexists. split; [reflexivity |]. split; reflexivity.
Qed.

(** X17. A method other than the three that the switch names, a missing one
    included, is answered by the default branch, whatever the parameters
    and the registry; no tool is looked up and one id is drawn.  The
    answer is 404 with METHOD_NOT_FOUND (-32601) and a message that
    quotes the method's string form; a method that has none, an object
    with a [toString] key of its own, makes the message throw, and the
    answer is 500 with INTERNAL_ERROR (-32603). *)
Lemma mcp_unknown_method (registry : list Tool.t) (req_body method params : Value)
    (w : World) :
  get req_body "method" = Some method ->
  get req_body "params" = Some params ->
  read_from_json method ->
  method <> Str "initialize" ->
  method <> Str "tools/list" ->
  method <> Str "tools/call" ->
  exists r,
    Server.mcp registry req_body w = (Normal r, after_id w)
    /\ is_error_envelope (Server.body r) = true
    /\ field (Server.body r) "id" = Str (id_at w)
    /\ match ToString (number_text w) method with
       | Some text =>
           Server.status r = 404
           /\ error_code (Server.body r) = Num (-32601)
           /\ error_message (Server.body r)
              = Str ("Method '" +:+ text +:+ "' not supported")
       | None =>
           Server.status r = 500
           /\ error_code (Server.body r) = Num (-32603)
           /\ error_message (Server.body r) = Str cannot_convert
       end.
Proof.
  intros Hmethod Hparams _ H1 H2 H3.
  unfold Server.mcp, Eff.try_catch. rewrite Hmethod, Hparams.
  apply strict_eq_string_false in H1, H2, H3. rewrite H1, H2, H3.
  unfold Eff.bind. rewrite template_run.
  destruct (ToString (number_text w) method) as [text |];
    rewrite createMCPError_run; eexists;
    (split; [reflexivity |]); (split; [reflexivity |]);
    (split; [reflexivity |]); cbn [Server.body Server.status];
    rewrite error_envelope_code, error_envelope_message;
    (split; [reflexivity | split; [apply getErrorCode_table | reflexivity]]).
Qed.

(** X18. The method ["tools/list"] of the protocol endpoint answers as
    [GET /mcp/tools] does, whatever the parameters. *)
Lemma mcp_tools_list_is_tools_list (registry : list Tool.t)
    (req_body params : Value) (w : World) :
  get req_body "method" = Some (Str "tools/list") ->
  get req_body "params" = Some params ->
  Server.mcp registry req_body w = Server.tools_list registry w.
Proof.
  intros Hmethod Hparams.
  unfold Server.mcp, Server.tools_list, Eff.try_catch.
  rewrite Hmethod, Hparams.
  change (strict_eq_string (Str "tools/list") "initialize") with false.
  change (strict_eq_string (Str "tools/list") "tools/list") with true.
  cbv iota. unfold Eff.bind. rewrite createMCPResponse_run. reflexivity.
Qed.

(** X19. A ["tools/call"] without parameters is an internal error of the
    protocol endpoint: destructuring [undefined] or [null] throws, and the
    handler's [catch] answers 500 with INTERNAL_ERROR. *)
Lemma mcp_tools_call_without_params (registry : list Tool.t)
    (req_body params : Value) (w : World) :
  get req_body "method" = Some (Str "tools/call") ->
  get req_body "params" = Some params ->
  params = Undefined \/ params = Null ->
  exists r,
    Server.mcp registry req_body w = (Normal r, after_id w)
    /\ Server.status r = 500
    /\ is_error_envelope (Server.body r) = true
    /\ error_code (Server.body r) = Num (-32603).
Proof.
  intros Hmethod Hparams Hnullish.
  unfold Server.mcp, Eff.try_catch. rewrite Hmethod, Hparams.
  change (strict_eq_string (Str "tools/call") "initialize") with false.
  change (strict_eq_string (Str "tools/call") "tools/list") with false.
  change (strict_eq_string (Str "tools/call") "tools/call") with true.
  cbv iota.
  destruct Hnullish as [-> | ->]; cbn [get]; unfold Eff.throw, Eff.bind;
    rewrite createMCPError_run; eexists; repeat split.
Qed.

(** ** The authentication middleware *)

Lemma append_cons (c : ascii) (s t : string) :
  String c s +:+ t = String c (s +:+ t).
Proof. reflexivity. Qed.

Lemma prefix_drop (p s : string) :
  String.prefix p s = true -> s = p +:+ drop_chars (String.length p) s.
Proof.
  revert s. induction p as [| c p IH]; intros s H; [reflexivity |].
  destruct s as [| c' s]; [discriminate H |].
  cbn in H. destruct (Ascii.ascii_dec c c') as [-> |]; [| discriminate H].
  simpl. rewrite append_cons. f_equal. apply IH. exact H.
Qed.

Lemma prefix_append (p s : string) : String.prefix p (p +:+ s) = true.
Proof.
  induction p as [| c p IH]; [destruct s; reflexivity |].
  rewrite append_cons. simpl.
  destruct (Ascii.ascii_dec c c); [exact IH | contradiction].
Qed.

Lemma is_empty_spec (s : string) : Auth.is_empty s = true <-> s = EmptyString.
Proof. unfold Auth.is_empty. apply String.eqb_eq. Qed.

Lemma authMiddleware_presented (key header : string) :
  Auth.is_empty key = false ->
  Auth.authMiddleware (Some key) (Some header) = Auth.Next
  <-> Auth.presents key header.
Proof.
  intros Hkey. unfold Auth.authMiddleware, Auth.presents. rewrite Hkey.
  destruct (Auth.is_empty header) eqn:Hheader.
  - apply is_empty_spec in Hheader. subst header. split; [discriminate |].
    intros [H | [H | [H | [H _]]]]; try discriminate H.
    subst key. discriminate Hkey.
  - destruct (String.prefix "Bearer " header) eqn:P1.
    { apply prefix_drop in P1. set (rest := drop_chars 7 header) in *.
      change (String.length "Bearer ") with 7%nat in P1. fold rest in P1.
      destruct (String.eqb rest key) eqn:E.
      - apply String.eqb_eq in E. split; [| reflexivity].
        intros _. left. rewrite P1, E. reflexivity.
      - split; [discriminate |]. apply String.eqb_neq in E.
        rewrite P1. intros [H | [H | [H | [H [H' _]]]]].
        + injection H as H. contradiction.
        + discriminate H.
        + discriminate H.
        + rewrite <- H, prefix_append in H'. discriminate H'. }
    destruct (String.prefix "ApiKey " header) eqn:P2.
    { apply prefix_drop in P2. set (rest := drop_chars 7 header) in *.
      change (String.length "ApiKey ") with 7%nat in P2. fold rest in P2.
      destruct (String.eqb rest key) eqn:E.
      - apply String.eqb_eq in E. split; [| reflexivity].
        intros _. right; left. rewrite P2, E. reflexivity.
      - split; [discriminate |]. apply String.eqb_neq in E.
        rewrite P2. intros [H | [H | [H | [H [_ [H' _]]]]]].
        + discriminate H.
        + injection H as H. contradiction.
        + discriminate H.
        + rewrite <- H, prefix_append in H'. discriminate H'. }
    destruct (String.prefix "Key " header) eqn:P3.
    { apply prefix_drop in P3. set (rest := drop_chars 4 header) in *.
      change (String.length "Key ") with 4%nat in P3. fold rest in P3.
      destruct (String.eqb rest key) eqn:E.
      - apply String.eqb_eq in E. split; [| reflexivity].
        intros _. right; right; left. rewrite P3, E. reflexivity.
      - split; [discriminate |]. apply String.eqb_neq in E.
        rewrite P3. intros [H | [H | [H | [H [_ [_ H']]]]]].
        + discriminate H.
        + discriminate H.
        + injection H as H. contradiction.
        + rewrite <- H, prefix_append in H'. discriminate H'. }
    destruct (String.eqb header key) eqn:E.
    + apply String.eqb_eq in E. subst key. split; [| reflexivity].
      intros _. do 3 right. tauto.
    + apply String.eqb_neq in E. split; [discriminate |].
      intros [H | [H | [H | [H _]]]].
      * rewrite H, prefix_append in P1. discriminate P1.
      * rewrite H, prefix_append in P2. discriminate P2.
      * rewrite H, prefix_append in P3. discriminate P3.
      * contradiction.
Qed.

(** X20. The middleware hands a request on in exactly two situations: no key
    is configured (the variable is unset or empty), or the Authorization
    header presents the configured key: after ["Bearer "], ["ApiKey "] or
    ["Key "], or bare when the key starts with none of the three. *)
Lemma authMiddleware_next_iff (requiredApiKey authHeader : option string) :
  Auth.authMiddleware requiredApiKey authHeader = Auth.Next
  <-> requiredApiKey = None
      \/ requiredApiKey = Some EmptyString
      \/ exists key header,
           requiredApiKey = Some key /\ authHeader = Some header
           /\ Auth.presents key header.
Proof.
  destruct requiredApiKey as [key |]; [| split; [left |]; reflexivity].
  destruct (Auth.is_empty key) eqn:Hkey.
  - pose proof Hkey as Hempty. apply is_empty_spec in Hempty. subst key.
    split; [intros _; right; left |]; reflexivity.
  - destruct authHeader as [header |].
    + rewrite (authMiddleware_presented key header Hkey). split.
      * intros H. right; right. exists key, header. tauto.
      * intros [H | [H | (key' & header' & [= <-] & [= <-] & H)]];
          [discriminate H | | exact H].
        injection H as ->. discriminate Hkey.
    + unfold Auth.authMiddleware. rewrite Hkey. split; [discriminate |].
      intros [H | [H | (key' & header' & _ & H & _)]]; try discriminate H.
      injection H as ->. discriminate Hkey.
Qed.

Lemma authMiddleware_answer_status (requiredApiKey authHeader : option string) :
  match Auth.authMiddleware requiredApiKey authHeader with
  | Auth.Next => True
  | Auth.Answer r => Server.status r = 401
  end.
Proof.
  unfold Auth.authMiddleware.
  destruct requiredApiKey as [key |]; [| exact I].
  destruct (Auth.is_empty key); [exact I |].
  destruct authHeader as [header |]; [| reflexivity].
  destruct (Auth.is_empty header); [reflexivity |].
  match goal with
  | |- context [String.eqb ?provided key] =>
      destruct (String.eqb provided key)
  end; [exact I | reflexivity].
Qed.

(** X21. Whatever the middleware answers itself is a 401 whose error code is
    the table's UNAUTHORIZED (-32001), written out in the middleware; the
    envelope is not one of [createMCPError]: it has no [id]. *)
Lemma authMiddleware_answers_unauthorized
    (requiredApiKey authHeader : option string) :
  match Auth.authMiddleware requiredApiKey authHeader with
  | Auth.Next => True
  | Auth.Answer r =>
      Server.status r = 401
      /\ is_error_envelope (Server.body r) = true
      /\ error_code (Server.body r) = getErrorCode "UNAUTHORIZED"
      /\ has_own (Server.body r) "id" = false
      /\ (error_message (Server.body r) = Str "Authorization header required"
          <-> authHeader = None \/ authHeader = Some EmptyString)
  end.
Proof.
  unfold Auth.authMiddleware.
  destruct requiredApiKey as [key |]; [| exact I].
  destruct (Auth.is_empty key); [exact I |].
  destruct authHeader as [header |].
  - destruct (Auth.is_empty header) eqn:Hheader.
    + apply is_empty_spec in Hheader. subst header.
      repeat split; tauto.
    + match goal with
      | |- context [String.eqb ?provided key] =>
          destruct (String.eqb provided key)
      end; [exact I |].
      repeat split; try discriminate.
      intros [H | H]; [discriminate H |].
      injection H as ->. discriminate Hheader.
  - repeat split; tauto.
Qed.

(** X22. Behind the middleware, a call that does not present the configured
    key never reaches the handler: the answer is the middleware's 401 and
    the world is left as it was, no id drawn and no executor run; a call
    that presents the key is answered by the handler. *)
Lemma guarded_tools_call (key header : string) (req_body : Value) (w : World) :
  key <> EmptyString ->
  (Auth.presents key header ->
   Auth.post_mcp_tools_call (Some key) (Some header) req_body w
   = Server.post_mcp_tools_call req_body w)
  /\ (~ Auth.presents key header ->
      exists r,
        Auth.post_mcp_tools_call (Some key) (Some header) req_body w
        = (Normal r, w)
        /\ Server.status r = 401).
Proof.
  intros Hkey.
  assert (Hempty : Auth.is_empty key = false).
  { destruct (Auth.is_empty key) eqn:E; [| reflexivity].
    apply is_empty_spec in E. contradiction. }
  pose proof (authMiddleware_presented key header Hempty) as Hiff.
  unfold Auth.post_mcp_tools_call, Auth.behind.
  split.
  - intros H. apply Hiff in H. rewrite H. reflexivity.
  - intros H.
    pose proof (authMiddleware_answer_status (Some key) (Some header)) as A.
    destruct (Auth.authMiddleware (Some key) (Some header)) as [| r].
    + exfalso. apply H, Hiff. reflexivity.
    + exists r. split; [reflexivity | exact A].
Qed.

(** ** API keys *)

Lemma key_chars_alphanumeric (n : nat) :
  (n < 62)%nat ->
  exists c, Auth.charAt Auth.key_chars n = String c EmptyString
            /\ Auth.is_alphanumeric c = true.
Proof.
  intros H.
  do 62 (destruct n as [| n]; [eexists; split; reflexivity |]).
  exfalso. lia.
Qed.

Lemma generate_from_spec (length : nat) (picks : nat -> nat) (i : nat) :
  (forall j, (picks j < 62)%nat) ->
  String.length (Auth.generate_from i length picks) = length
  /\ forallb Auth.is_alphanumeric
       (list_ascii_of_string (Auth.generate_from i length picks)) = true.
Proof.
  intros Hpicks. revert i.
  induction length as [| n IH]; intros i; [split; reflexivity |].
  cbn [Auth.generate_from].
  destruct (key_chars_alphanumeric (picks i) (Hpicks i)) as (c & -> & Hc).
  rewrite append_cons. change (EmptyString +:+ ?s) with s.
  destruct (IH (S i)) as [Hlen Hall].
  cbn [String.length list_ascii_of_string forallb].
  rewrite Hlen, Hc, Hall. split; reflexivity.
Qed.

(** X23. Given picks within the alphabet, as [Math.floor(Math.random() * 62)]
    always is, a generated key has the requested length, and it has the
    format that [validateApiKeyFormat] asks exactly when that length is 16
    or more: the default of 32 gives a valid key, a shorter request does
    not. *)
Lemma generated_key_is_valid_from_16 (length : nat) (picks : nat -> nat) :
  (forall i, (picks i < 62)%nat) ->
  String.length (Auth.generateApiKey length picks) = length
  /\ Auth.validateApiKeyFormat (Str (Auth.generateApiKey length picks))
     = Nat.leb 16 length.
Proof.
  intros Hpicks.
  destruct (generate_from_spec length picks 0 Hpicks) as [Hlen Hall].
  unfold Auth.generateApiKey. split; [exact Hlen |].
  unfold Auth.validateApiKeyFormat, Auth.alphanumeric_test.
  cbn [truthy]. rewrite Hlen, Hall.
  destruct (String.eqb (Auth.generate_from 0 length picks) EmptyString) eqn:E.
  - apply String.eqb_eq in E. rewrite E in Hlen. cbn in Hlen. subst length.
    reflexivity.
  - cbn [negb andb]. rewrite andb_true_r. reflexivity.
Qed.

Lemma alphanumeric_not_prefixed (p key : string) :
  forallb Auth.is_alphanumeric (list_ascii_of_string p) = false ->
  forallb Auth.is_alphanumeric (list_ascii_of_string key) = true ->
  String.prefix p key = false.
Proof.
  intros Hp Hkey. destruct (String.prefix p key) eqn:E; [| reflexivity].
  apply prefix_drop in E. rewrite E in Hkey. clear E.
  exfalso. revert Hp Hkey. generalize (drop_chars (String.length p) key).
  induction p as [| c p IH]; intros rest Hp Hkey; [discriminate Hp |].
  rewrite append_cons in Hkey. cbn [list_ascii_of_string forallb] in Hp, Hkey.
  destruct (Auth.is_alphanumeric c); [| discriminate Hkey].
  exact (IH rest Hp Hkey).
Qed.

(** X24. A key of the format that [validateApiKeyFormat] accepts, once
    configured, is accepted by the middleware when sent bare: being
    alphanumeric, it cannot start with one of the three prefixes, which
    hold a space. *)
Lemma valid_key_can_be_sent_bare (key : string) :
  Auth.validateApiKeyFormat (Str key) = true ->
  Auth.authMiddleware (Some key) (Some key) = Auth.Next.
Proof.
  unfold Auth.validateApiKeyFormat, Auth.alphanumeric_test. cbn [truthy].
  intros H. unfold Auth.authMiddleware, Auth.is_empty.
  destruct (String.eqb key EmptyString); [reflexivity |].
  cbn [negb andb] in H. apply andb_true_iff in H as [_ H].
  rewrite (alphanumeric_not_prefixed "Bearer " key), 
    (alphanumeric_not_prefixed "ApiKey " key),
    (alphanumeric_not_prefixed "Key " key) by (reflexivity || exact H).
  rewrite String.eqb_refl. reflexivity.
Qed.


(** ** Validation reports every offending property *)

Lemma min1_paths (message key : string) (v : Value) :
  issue_paths (Zod.string_ [ Zod.min 1 message ] [ key ] v)
  = path_if_not (nonempty_string v) key.
Proof. destruct_value v; reflexivity. Qed.

Lemma date_paths (message key : string) (v : Value) :
  issue_paths (Zod.string_ [ Zod.regex date_regex_test message ] [ key ] v)
  = path_if_not (date_shaped v) key.
Proof.
  destruct v; try reflexivity.
  unfold Zod.string_, Zod.check_issues, Zod.check_issue, date_shaped.
  destruct (date_regex_test s); reflexivity.
Qed.

Lemma issue_paths_ap {A B} (f : Zod.Result (A -> B)) (x : Zod.Result A) :
  issue_paths (Zod.ap f x) = (issue_paths f ++ issue_paths x)%list.
Proof.
  destruct f, x; cbn [Zod.ap issue_paths app]; 
    rewrite ?List.map_app, ?List.app_nil_r; reflexivity.
Qed.

(** X25. The validators do not stop at the first fault: on an object, each
    declared property that is missing or ill-formed gets an issue of its
    own, in the order of declaration, and the issue's path names it. *)
Lemma validation_reports_every_offending_property (props : list (string * Value)) :
  issue_paths (TimeFilter.setTimePeriodSchema (Obj props))
  = (path_if_not (nonempty_string (field (Obj props) "timePeriodName"))
       "timePeriodName"
     ++ path_if_not (nonempty_string (field (Obj props) "tabName")) "tabName")%list
  /\ issue_paths (TimeFilter.setCustomDateRangeSchema (Obj props))
     = (path_if_not (date_shaped (field (Obj props) "startDate")) "startDate"
        ++ path_if_not (date_shaped (field (Obj props) "endDate")) "endDate"
        ++ path_if_not (nonempty_string (field (Obj props) "tabName"))
             "tabName")%list.
Proof.
  unfold TimeFilter.setTimePeriodSchema, TimeFilter.setCustomDateRangeSchema,
    Zod.object, Zod.prop.
  rewrite !issue_paths_ap, !min1_paths, !date_paths.
  cbn [issue_paths app]. rewrite <- List.app_assoc. split; reflexivity.
Qed.

(** ** The catalog *)

Lemma lower_char_below_128 (c : ascii) :
  Nat.ltb (nat_of_ascii (lower_char c)) 128 = Nat.ltb (nat_of_ascii c) 128.
Proof.
  unfold lower_char.
  destruct (Nat.leb 65 (nat_of_ascii c) && Nat.leb (nat_of_ascii c) 90) eqn:E;
    [| reflexivity].
  apply andb_true_iff in E as [E1 E2]. apply Nat.leb_le in E1, E2.
  rewrite nat_ascii_embedding by lia.
  transitivity true; [| symmetry]; apply Nat.ltb_lt; lia.
Qed.

(** Lowering the letters A to Z keeps a string ASCII, or not. *)
Lemma is_ascii_toLowerCase (s : string) :
  is_ascii (toLowerCase s) = is_ascii s.
Proof.
  unfold is_ascii. induction s as [| c s IH]; [reflexivity |].
  cbn [toLowerCase list_ascii_of_string forallb].
  rewrite lower_char_below_128, IH. reflexivity.
Qed.

Lemma catalog_is_ascii (p : TimeFilter.Period) :
  List.In p TimeFilter.PREDEFINED_PERIODS ->
  is_ascii (TimeFilter.name p) = true.
Proof.
  unfold TimeFilter.PREDEFINED_PERIODS. intros Hin.
  repeat (destruct Hin as [<- | Hin]; [reflexivity |]).
  destruct Hin.
Qed.

(** X26. A catalog name, in any letter case, selects its own entry: no
    earlier entry's name contains it or is contained in it.  The
    containment rule is ambiguous only for inputs that are not catalog
    names. *)
Lemma catalog_names_select_themselves (input tabName : string)
    (p : TimeFilter.Period) (w : World) :
  List.In p TimeFilter.PREDEFINED_PERIODS ->
  toLowerCase input = toLowerCase (TimeFilter.name p) ->
  exists outcome w',
    TimeFilter.setTimePeriodTool_execute
      (TimeFilter.SetTimePeriodArgs.mk input tabName) w
    = (Normal outcome, w')
    /\ field outcome "success" = Bool true
    /\ field (field outcome "filterConfig") "periodName"
       = Str (TimeFilter.name p)
    /\ field (field outcome "filterConfig") "periodScale"
       = Num (TimeFilter.scale p).
Proof.
  intros Hin Hlower.
  assert (Hascii : is_ascii input = true).
  { rewrite <- is_ascii_toLowerCase, Hlower, is_ascii_toLowerCase.
    apply catalog_is_ascii. exact Hin. }
  assert (Hsel : TimeFilter.selectPeriod (lowered w) (lowered w input)
                   TimeFilter.PREDEFINED_PERIODS = Some p).
  { unfold lowered at 2. rewrite Hascii, Hlower. clear Hlower Hascii.
    unfold TimeFilter.PREDEFINED_PERIODS in Hin.
    repeat (destruct Hin as [<- | Hin]; [vm_compute; reflexivity |]).
    destruct Hin. }
  destruct (setTimePeriod_execute_found
              (TimeFilter.SetTimePeriodArgs.mk input tabName) w p Hsel)
    as (outcome & w' & Hrun & Hsuccess & Hname & Hscale & _).
  exists outcome, w'. repeat split; assumption.
Qed.

(** X27. The two implementations classify every period alike, whatever its
    name: the category that [list_time_periods] computes is "Calendar"
    exactly for the periods that the single-file server filters as
    calendar periods, "Rolling" exactly for those it filters as rolling,
    and "Custom" exactly for the flagged ones; no period falls in two
    groups or in none. *)
Lemma category_of_agrees_with_root_filters (p : TimeFilter.Period) :
  (TimeFilter.category_of p = "Calendar" <-> RootServer.is_calendar p = true)
  /\ (TimeFilter.category_of p = "Rolling" <-> rolling p = true)
  /\ (TimeFilter.category_of p = "Custom" <-> TimeFilter.isCustom p = true)
  /\ (RootServer.is_calendar p = true \/ rolling p = true
      \/ TimeFilter.isCustom p = true).
Proof.
  unfold TimeFilter.category_of, rolling, RootServer.is_calendar.
  destruct (TimeFilter.isCustom p); cbn [negb andb].
  - repeat split; (discriminate || tauto).
  - destruct (includes (TimeFilter.name p) "This"
              || includes (TimeFilter.name p) "Last"
                 && negb (includes (TimeFilter.name p) "days")
                 && negb (includes (TimeFilter.name p) "hours"));
      repeat split; (discriminate || tauto).
Qed.

(** X28. list_time_periods does not look at its arguments, at the clock or at
    the random generator: any truthy [arguments] gets the answer that an
    empty object gets, and the world moves by the one id of the answer. *)
Lemma list_time_periods_ignores_arguments (toolArgs : Value) (w : World) :
  truthy toolArgs = true ->
  exists r,
    Server.post_mcp_tools_call (call_body "list_time_periods" toolArgs) w
    = (Normal r, after_id w)
    /\ Server.post_mcp_tools_call (call_body "list_time_periods" (Obj [])) w
       = (Normal r, after_id w)
    /\ Server.status r = 200.
Proof.
  intros Htruthy.
  unfold Server.post_mcp_tools_call, Server.tools_call, Eff.try_catch, call_body.
  cbn [get own String.eqb Ascii.eqb Bool.eqb].
  rewrite Htruthy.
  eexists. split; [reflexivity |]. split; reflexivity.
Qed.

Lemma includes_space_cons (c : ascii) (s : string) :
  includes (String c s) " " = false ->
  c <> " "%char /\ includes s " " = false.
Proof.
  cbn [includes String.prefix]. intros H.
  apply orb_false_iff in H as [Hc Hs]. split; [| exact Hs].
  intros ->. destruct s; discriminate Hc.
Qed.

Lemma replace_skips (c : ascii) (s : string) :
  c <> " "%char ->
  replace (String c s) " " "-" = String c (replace s " " "-").
Proof.
  intros Hc. cbn [replace String.prefix].
  destruct (Ascii.ascii_dec " " c) as [E | _]; [| reflexivity].
  exfalso. apply Hc. symmetry. exact E.
Qed.

(** [replace] with a string pattern turns the first space into the
    hyphen and leaves the rest as it is. *)
Lemma replace_first_space (before after : string) :
  includes before " " = false ->
  replace (before +:+ " " +:+ after) " " "-" = before +:+ "-" +:+ after.
Proof.
  induction before as [| c before IH]; intros H.
  - destruct after; reflexivity.
  - apply includes_space_cons in H as [Hc H].
    rewrite (append_cons c before (" " +:+ after)),
      (append_cons c before ("-" +:+ after)), replace_skips by exact Hc.
    rewrite IH by exact H. reflexivity.
Qed.

Lemma replace_no_space (s : string) :
  includes s " " = false -> replace s " " "-" = s.
Proof.
  induction s as [| c s IH]; intros H; [reflexivity |].
  apply includes_space_cons in H as [Hc H].
  rewrite replace_skips by exact Hc. rewrite IH by exact H. reflexivity.
Qed.

(** X29. The [target] of the action of a successful set_time_period is
    "filter-" followed by the tab name, lowered by the engine, with its
    first space turned into a hyphen, and only the first: what stands
    before the first space and what stands after it are kept as they
    are, later spaces included.  A lowered tab name without a space is
    kept whole. *)
Lemma action_target_replaces_first_space_only (timePeriodName tabName : string)
    (p : TimeFilter.Period) (w : World) :
  first_match w timePeriodName p ->
  exists outcome w',
    TimeFilter.setTimePeriodTool_execute
      (TimeFilter.SetTimePeriodArgs.mk timePeriodName tabName) w
    = (Normal outcome, w')
    /\ (forall before after,
          lowered w tabName = before +:+ " " +:+ after ->
          includes before " " = false ->
          field (field outcome "action") "target"
          = Str ("filter-" +:+ before +:+ "-" +:+ after))
    /\ (includes (lowered w tabName) " " = false ->
        field (field outcome "action") "target"
        = Str ("filter-" +:+ lowered w tabName)).
Proof.
  intros Hsel. apply first_match_selected in Hsel.
  unfold TimeFilter.setTimePeriodTool_execute, Eff.try_catch, Eff.bind,
    Eff.toLowerCase.
  cbn [TimeFilter.SetTimePeriodArgs.timePeriodName
       TimeFilter.SetTimePeriodArgs.tabName].
  rewrite Hsel.
  destruct (TimeFilter.scale p =? 0), (TimeFilter.scale p =? 100);
    eexists; eexists; (split; [reflexivity |]);
    cbn [field get own String.eqb Ascii.eqb Bool.eqb];
    (split;
     [ intros before after Hsplit Hbefore;
       rewrite Hsplit, replace_first_space by exact Hbefore; reflexivity
     | intros Hnone; rewrite replace_no_space by exact Hnone; reflexivity ]).
Qed.

(** ** Dates: from the calendar to the day number and back *)

Lemma year_of_era_recovered (yoe doy : Z) :
  0 <= yoe <= 399 ->
  0 <= doy <= 365 ->
  (doy = 365 -> (yoe + 1) mod 4 = 0 /\ ((yoe + 1) mod 100 <> 0 \/ yoe = 399)) ->
  let doe := yoe * 365 + yoe / 4 - yoe / 100 + doy in
  0 <= doe < 146097
  /\ (doe - doe / 1460 + doe / 36524 - doe / 146096) / 365 = yoe.
Proof.
  intros Hy Hd Hleap doe. subst doe.
  split; Z.div_mod_to_equations; lia.
Qed.

Lemma month_and_day_recovered (mp d : Z) :
  0 <= mp <= 11 ->
  1 <= d ->
  d <= (if (mp =? 1) || (mp =? 3) || (mp =? 6) || (mp =? 8) then 30
        else if mp =? 11 then 29 else 31) ->
  let doy := (153 * mp + 2) / 5 + d - 1 in
  (5 * doy + 2) / 153 = mp /\ 0 <= doy <= 365 /\ (doy = 365 -> mp = 11 /\ d = 29).
Proof.
  intros Hmp Hd1 Hd2 doy. subst doy.
  assert (Hcases : mp = 0 \/ mp = 1 \/ mp = 2 \/ mp = 3 \/ mp = 4 \/ mp = 5
                   \/ mp = 6 \/ mp = 7 \/ mp = 8 \/ mp = 9 \/ mp = 10 \/ mp = 11)
    by lia.
  repeat (destruct Hcases as [-> | Hcases]); try subst mp;
    cbn in Hd2; Z.div_mod_to_equations; lia.
Qed.

Lemma civil_from_days_at (days era doe : Z) :
  days + 719468 = era * 146097 + doe ->
  0 <= doe < 146097 ->
  civil_from_days days
  = (let yoe := (doe - doe / 1460 + doe / 36524 - doe / 146096) / 365 in
     let doy := doe - (365 * yoe + yoe / 4 - yoe / 100) in
     let mp := (5 * doy + 2) / 153 in
     let d := doy - (153 * mp + 2) / 5 + 1 in
     let m := if mp <? 10 then mp + 3 else mp - 9 in
     (yoe + era * 400 + (if m <=? 2 then 1 else 0), m, d)).
Proof.
  intros Hz Hdoe. unfold civil_from_days. cbv zeta.
  assert (Hera : (days + 719468) / 146097 = era).
  { rewrite Hz. symmetry. apply (Z.div_unique _ _ era doe); lia. }
  rewrite Hera.
  replace (days + 719468 - era * 146097) with doe by lia.
  reflexivity.
Qed.

(** The day number of a day of the calendar leads back to that day. *)
Lemma civil_from_days_from_civil (y m d : Z) :
  1 <= m <= 12 ->
  1 <= d <= days_in_month y m ->
  civil_from_days (days_from_civil y m d) = (y, m, d).
Proof.
  intros Hm Hd.
  set (y' := if m <=? 2 then y - 1 else y).
  set (era := y' / 400).
  set (yoe := y' - era * 400).
  set (mp := if 2 <? m then m - 3 else m + 9).
  set (doy := (153 * mp + 2) / 5 + d - 1).
  set (doe := yoe * 365 + yoe / 4 - yoe / 100 + doy).
  assert (Hdays : days_from_civil y m d = era * 146097 + doe - 719468)
    by reflexivity.
  assert (Hyoe : 0 <= yoe <= 399).
  { subst yoe era. Z.div_mod_to_equations. lia. }
  assert (Hmp : 0 <= mp <= 11 /\ m = (if mp <? 10 then mp + 3 else mp - 9)
                /\ y' = (if m <=? 2 then y - 1 else y)).
  { subst mp y'. destruct (Z.ltb_spec 2 m).
    - destruct (Z.ltb_spec (m - 3) 10); lia.
    - destruct (Z.ltb_spec (m + 9) 10); lia. }
  destruct Hmp as (Hmp & Hm' & Hy').
  assert (Hlen : d <= (if (mp =? 1) || (mp =? 3) || (mp =? 6) || (mp =? 8)
                       then 30 else if mp =? 11 then 29 else 31)).
  { destruct Hd as [_ Hd]. unfold days_in_month in Hd.
    assert (Hcases : m = 1 \/ m = 2 \/ m = 3 \/ m = 4 \/ m = 5 \/ m = 6
                     \/ m = 7 \/ m = 8 \/ m = 9 \/ m = 10 \/ m = 11 \/ m = 12)
      by lia.
    subst mp.
    repeat (destruct Hcases as [-> | Hcases]); try subst m;
      cbn -[is_leap_year] in Hd;
      match goal with
      | |- d <= ?bound =>
          let v := eval compute in bound in change (d <= v)
      end; try lia.
    destruct (is_leap_year y); lia. }
  destruct (month_and_day_recovered mp d Hmp (proj1 Hd) Hlen)
    as (Hmonth & Hdoy & Hlast).
  fold doy in Hmonth, Hdoy, Hlast.
  assert (Hleap : doy = 365 ->
                  (yoe + 1) mod 4 = 0 /\ ((yoe + 1) mod 100 <> 0 \/ yoe = 399)).
  { intros H365. destruct (Hlast H365) as [Hmp11 Hd29].
    assert (Hm2 : m = 2) by (destruct (Z.ltb_spec mp 10); lia).
    destruct Hd as [_ Hd]. unfold days_in_month in Hd.
    rewrite Hm2 in Hd. cbn -[is_leap_year] in Hd.
    destruct (is_leap_year y) eqn:Hly; [| lia].
    unfold is_leap_year in Hly.
    assert (Hy : y = yoe + 1 + era * 400).
    { subst yoe. rewrite Hy', Hm2. cbn. lia. }
    clearbody yoe era. clear - Hly Hy Hyoe.
    apply orb_true_iff in Hly as [Hly | Hly].
    - apply andb_true_iff in Hly as [H4 H100].
      apply Z.eqb_eq in H4. apply negb_true_iff, Z.eqb_neq in H100.
      subst y. Z.div_mod_to_equations. lia.
    - apply Z.eqb_eq in Hly. subst y. Z.div_mod_to_equations. lia. }
  destruct (year_of_era_recovered yoe doy Hyoe Hdoy Hleap) as [Hdoe Hrec].
  fold doe in Hdoe, Hrec.
  rewrite (civil_from_days_at _ era doe) by (exact Hdoe || (rewrite Hdays; lia)).
  cbv zeta. rewrite Hrec.
  replace (doe - (365 * yoe + yoe / 4 - yoe / 100)) with doy by (subst doe; lia).
  rewrite Hmonth. rewrite <- Hm'.
  f_equal; [f_equal |].
  - subst yoe. rewrite Hy'. destruct (m <=? 2); lia.
  - subst doy. lia.
Qed.

(** ** Dates: from the string to the time value and back *)

Lemma chr_digit (c : ascii) :
  is_digit c = true -> chr (digit c) = c /\ 0 <= digit c <= 9.
Proof.
  unfold is_digit, digit, chr. intros H.
  apply andb_true_iff in H as [H1 H2]. apply Nat.leb_le in H1, H2.
  split; [| lia].
  replace (48 + Z.to_nat (Z.of_nat (nat_of_ascii c) - 48))%nat
    with (nat_of_ascii c) by lia.
  apply ascii_nat_embedding.
Qed.

Lemma In_digits10 (n : Z) : 0 <= n <= 9 -> List.In n digits10.
Proof.
  intros H. unfold digits10. rewrite <- (Z2Nat.id n) by lia.
  apply List.in_map, List.in_seq. lia.
Qed.

Lemma pad4_all :
  forallb (fun a => forallb (fun b => forallb (fun c => forallb (fun d =>
    pad4_ok a b c d) digits10) digits10) digits10) digits10 = true.
Proof. vm_compute. reflexivity. Qed.

Lemma pad2_all :
  forallb (fun a => forallb (fun b => pad2_ok a b) digits10) digits10 = true.
Proof. vm_compute. reflexivity. Qed.

Lemma pad4_digits (a b c d : ascii) :
  is_digit a = true -> is_digit b = true -> is_digit c = true ->
  is_digit d = true ->
  pad 4 (digit a * 1000 + digit b * 100 + digit c * 10 + digit d)
  = String a (String b (String c (String d EmptyString))).
Proof.
  intros Ha Hb Hc Hd.
  destruct (chr_digit a Ha) as [Ea Ra], (chr_digit b Hb) as [Eb Rb],
    (chr_digit c Hc) as [Ec Rc], (chr_digit d Hd) as [Ed Rd].
  pose proof pad4_all as H.
  rewrite forallb_forall in H. specialize (H _ (In_digits10 _ Ra)).
  rewrite forallb_forall in H. specialize (H _ (In_digits10 _ Rb)).
  rewrite forallb_forall in H. specialize (H _ (In_digits10 _ Rc)).
  rewrite forallb_forall in H. specialize (H _ (In_digits10 _ Rd)).
  unfold pad4_ok in H. apply String.eqb_eq in H.
  rewrite Ea, Eb, Ec, Ed in H. exact H.
Qed.

Lemma pad2_digits (a b : ascii) :
  is_digit a = true -> is_digit b = true ->
  pad 2 (digit a * 10 + digit b) = String a (String b EmptyString).
Proof.
  intros Ha Hb.
  destruct (chr_digit a Ha) as [Ea Ra], (chr_digit b Hb) as [Eb Rb].
  pose proof pad2_all as H.
  rewrite forallb_forall in H. specialize (H _ (In_digits10 _ Ra)).
  rewrite forallb_forall in H. specialize (H _ (In_digits10 _ Rb)).
  unfold pad2_ok in H. apply String.eqb_eq in H.
  rewrite Ea, Eb in H. exact H.
Qed.

(** A date string that names a day of the calendar comes back from its
    time value as the same date, at midnight UTC. *)
Lemma toISOString_of_parsed_date (s : string) (t : Z) :
  parse_iso_date s = Some t ->
  toISOString t = s +:+ "T00:00:00.000Z".
Proof.
  unfold parse_iso_date. intros H.
  destruct (list_ascii_of_string s)
    as [| y1 [| y2 [| y3 [| y4 [| h1 [| m1 [| m2 [| h2 [| d1 [| d2 [| ? ?]]]]]]]]]]]
    eqn:Hs; try discriminate H.
  destruct (date_regex_test s) eqn:Hre; [| discriminate H].
  unfold date_regex_test in Hre. rewrite Hs in Hre.
  do 9 (apply andb_true_iff in Hre as [Hre ?]).
  match type of H with
  | (if ?range then _ else _) = _ => destruct range eqn:Hrange
  end; [| discriminate H].
  injection H as <-.
  do 3 (apply andb_true_iff in Hrange as [Hrange ?]).
  repeat match goal with
         | E : (_ <=? _) = true |- _ => apply Z.leb_le in E
         | E : Ascii.eqb _ _ = true |- _ => apply Ascii.eqb_eq in E
         end.
  subst h1 h2.
  assert (Es : s = string_of_list_ascii [y1; y2; y3; y4; "-"%char; m1; m2; "-"%char; d1; d2]).
  { rewrite <- Hs. symmetry. apply string_of_list_ascii_of_string. }
  pose proof (chr_digit y1 ltac:(assumption)) as [_ ?].
  pose proof (chr_digit y2 ltac:(assumption)) as [_ ?].
  pose proof (chr_digit y3 ltac:(assumption)) as [_ ?].
  pose proof (chr_digit y4 ltac:(assumption)) as [_ ?].
  unfold toISOString.
  rewrite Z.div_mul by discriminate. rewrite Z.mod_mul by discriminate.
  rewrite civil_from_days_from_civil by lia.
  match goal with
  | |- context [if ?test then _ else _] =>
      replace test with true
        by (symmetry; apply andb_true_iff; split; apply Z.leb_le; lia)
  end.
  rewrite pad4_digits, !pad2_digits by assumption.
  rewrite Es. reflexivity.
Qed.

(** X30. A custom range that is accepted gives the dates of the request back:
    with an engine that reads calendar dates, the [startDate] and
    [endDate] of the filter are the two date strings at midnight UTC, and
    the period is named after the two strings. *)
Lemma set_custom_date_range_gives_the_dates_back
    (startDate endDate tabName : string) (s e : Z) (w : World) :
  reads_calendar_dates w ->
  parse_iso_date startDate = Some s ->
  parse_iso_date endDate = Some e ->
  s <= e ->
  e <= clock w (clock_reads w) ->
  exists outcome w',
    TimeFilter.setCustomDateRangeTool_execute
      (TimeFilter.SetCustomDateRangeArgs.mk startDate endDate tabName) w
    = (Normal outcome, w')
    /\ field outcome "success" = Bool true
    /\ field (field outcome "filterConfig") "startDate"
       = Str (startDate +:+ "T00:00:00.000Z")
    /\ field (field outcome "filterConfig") "endDate"
       = Str (endDate +:+ "T00:00:00.000Z")
    /\ field (field outcome "filterConfig") "periodName"
       = Str ("Custom (" +:+ (startDate +:+ " to " +:+ endDate) +:+ ")").
Proof.
  intros Hreads Hs He Horder Hpast.
  unfold TimeFilter.setCustomDateRangeTool_execute, Eff.try_catch, Eff.bind,
    Eff.parse_date.
  cbn [TimeFilter.SetCustomDateRangeArgs.startDate
       TimeFilter.SetCustomDateRangeArgs.endDate
       TimeFilter.SetCustomDateRangeArgs.tabName].
  rewrite (Hreads _ _ Hs), (Hreads _ _ He).
  destruct (Z.ltb_spec e s) as [Hlt | _]; [lia |].
  cbn [Eff.now].
  destruct (Z.ltb_spec (clock w (clock_reads w)) e) as [Hlt | _]; [lia |].
  eexists; eexists. split; [reflexivity |]. split; [reflexivity |].
  cbn [field get own String.eqb Ascii.eqb Bool.eqb].
  rewrite (toISOString_of_parsed_date _ _ Hs),
    (toISOString_of_parsed_date _ _ He).
  split; [reflexivity |]. split; reflexivity.
Qed.

(** ** Worked instances of the further properties *)

(** An unknown content type, on the string [ok]: the block holds the
    string in quotes, where the type ["text"] holds it bare. *)
Lemma createMCPContent_unknown_type_witness :
  (exists text,
     ProtocolTools.createMCPContent (Str "json") (Str "ok")
     = Normal (text_block text))
  /\ (ProtocolTools.createMCPContent (Str "json") (Str "ok")
      = ProtocolTools.createMCPContent (Str "text") (Str "ok")
      <-> forall s, Str "ok" <> Str s).
Proof.
  exact (createMCPContent_unknown_type_serialises_strings
           (Str "json") (Str "ok") eq_refl eq_refl).
Defined.

(** A failure outcome is flagged as an error. *)
Lemma formatToolResult_on_outcome_witness :
  ProtocolTools.formatToolResult
    (TimeFilter.failure "Start date cannot be after end date")
  = Normal
      (Obj [ ("content",
              Arr [ text_block
                      (JSON_stringify
                         (TimeFilter.failure
                            "Start date cannot be after end date")) ]);
             ("isError", Bool true) ]).
Proof.
  apply (formatToolResult_on_outcome false).
  eexists; eexists. split; [reflexivity |]. split; reflexivity.
Defined.

(** set_time_period on a name that matches nothing: it returns. *)
Lemma executors_return_outcomes_witness :
  (forall fault w',
     TimeFilter.setTimePeriodTool_execute
       (TimeFilter.SetTimePeriodArgs.mk "fortnight" "Overview") sample_world
     <> (Throw fault, w'))
  /\ exists success outcome w',
       TimeFilter.setTimePeriodTool_execute
         (TimeFilter.SetTimePeriodArgs.mk "fortnight" "Overview") sample_world
       = (Normal outcome, w')
       /\ is_outcome success outcome.
Proof.
  apply (executors_return_outcomes TimeFilter.setTimePeriodTool
           (TimeFilter.SetTimePeriodArgs.mk "fortnight" "Overview")
           sample_world).
  left. reflexivity.
Defined.

(** A call of list_time_periods with an empty object. *)
Lemma tools_call_wraps_the_outcome_witness :
  exists success outcome w1,
    TimeFilter.listTimePeriodsTools_execute (Obj []) sample_world
    = (Normal outcome, w1)
    /\ is_outcome success outcome
    /\ Server.post_mcp_tools_call (call_body "list_time_periods" (Obj []))
         sample_world
       = (Normal
            (Server.mkResponse 200
               (success_envelope (id_at w1)
                  (Obj [ ("content",
                          Arr [ text_block (JSON_stringify outcome) ]) ]))),
          after_id w1).
Proof.
  apply (tools_call_wraps_the_outcome TimeFilter.listTimePeriodsTools
           (Obj []) (Obj []) sample_world).
  - right. right. left. reflexivity.
  - reflexivity.
  - reflexivity.
Defined.

(** The two endpoints on a call of set_time_period with an empty period
    name: the same status and code. *)
Lemma mcp_and_tools_call_agree_witness :
  exists r1 r2 w',
    Server.mcp TimeFilter.timeFilterTools
      (protocol_body (Str "tools/call")
         (call_body "set_time_period"
            (Obj [ ("timePeriodName", Str EmptyString);
                   ("tabName", Str "Overview") ])))
      sample_world = (Normal r1, w')
    /\ Server.tools_call TimeFilter.timeFilterTools
         (call_body "set_time_period"
            (Obj [ ("timePeriodName", Str EmptyString);
                   ("tabName", Str "Overview") ]))
         sample_world = (Normal r2, w')
    /\ Server.status r1 = Server.status r2
    /\ field (Server.body r1) "id" = field (Server.body r2) "id"
    /\ is_error_envelope (Server.body r1) = is_error_envelope (Server.body r2)
    /\ error_code (Server.body r1) = error_code (Server.body r2)
    /\ (Server.status r1 = 200 \/ Server.status r1 = 404 -> r1 = r2).
Proof.
  exact (mcp_and_tools_call_agree TimeFilter.timeFilterTools
           (protocol_body (Str "tools/call")
              (call_body "set_time_period"
                 (Obj [ ("timePeriodName", Str EmptyString);
                        ("tabName", Str "Overview") ])))
           (call_body "set_time_period"
              (Obj [ ("timePeriodName", Str EmptyString);
                     ("tabName", Str "Overview") ]))
           (Str "set_time_period")
           (Obj [ ("timePeriodName", Str EmptyString);
                  ("tabName", Str "Overview") ])
           sample_world eq_refl eq_refl eq_refl eq_refl eq_refl eq_refl).
Defined.

(** list_time_periods without [arguments], at the two endpoints. *)
Lemma mcp_runs_what_tools_call_turns_away_witness :
  (exists r w',
     Server.mcp TimeFilter.timeFilterTools
       (protocol_body (Str "tools/call")
          (call_body "list_time_periods" Undefined))
       sample_world = (Normal r, w')
     /\ Server.status r = 200
     /\ is_success_envelope (Server.body r) = true)
  /\ (exists r w',
        Server.post_mcp_tools_call (call_body "list_time_periods" Undefined)
          sample_world = (Normal r, w')
        /\ Server.status r = 400
        /\ error_code (Server.body r) = Num (-32600)).
Proof.
  exact (mcp_runs_what_tools_call_turns_away Undefined sample_world eq_refl).
Defined.

(** The method ["ping"], a body without a method, and a method that is
    an object with a [toString] key. *)
Lemma mcp_unknown_method_witness :
  (exists r,
     Server.mcp TimeFilter.timeFilterTools
       (protocol_body (Str "ping") Undefined) sample_world
     = (Normal r, after_id sample_world)
     /\ Server.status r = 404
     /\ error_message (Server.body r) = Str "Method 'ping' not supported")
  /\ (exists r,
        Server.mcp TimeFilter.timeFilterTools (Obj []) sample_world
        = (Normal r, after_id sample_world)
        /\ Server.status r = 404
        /\ error_message (Server.body r)
           = Str "Method 'undefined' not supported")
  /\ (exists r,
        Server.mcp TimeFilter.timeFilterTools
          (protocol_body (Obj [ ("toString", Num 1) ]) Undefined) sample_world
        = (Normal r, after_id sample_world)
        /\ Server.status r = 500
        /\ error_code (Server.body r) = Num (-32603)).
Proof.
  split; [| split].
  - destruct (mcp_unknown_method TimeFilter.timeFilterTools
                (protocol_body (Str "ping") Undefined) (Str "ping") Undefined
                sample_world eq_refl eq_refl (or_intror eq_refl)
                ltac:(discriminate) ltac:(discriminate) ltac:(discriminate))
      as (r & Hrun & _ & _ & Hstatus & _ & Hmessage).
    exists r. split; [exact Hrun |]. split; assumption.
  - destruct (mcp_unknown_method TimeFilter.timeFilterTools
                (Obj []) Undefined Undefined sample_world
                eq_refl eq_refl (or_introl eq_refl)
                ltac:(discriminate) ltac:(discriminate) ltac:(discriminate))
      as (r & Hrun & _ & _ & Hstatus & _ & Hmessage).
    exists r. split; [exact Hrun |]. split; assumption.
  - destruct (mcp_unknown_method TimeFilter.timeFilterTools
                (protocol_body (Obj [ ("toString", Num 1) ]) Undefined)
                (Obj [ ("toString", Num 1) ]) Undefined sample_world
                eq_refl eq_refl (or_intror eq_refl)
                ltac:(discriminate) ltac:(discriminate) ltac:(discriminate))
      as (r & Hrun & _ & _ & Hstatus & Hcode & _).
    exists r. split; [exact Hrun |]. split; assumption.
Defined.

(** ["tools/list"] with parameters that nobody reads. *)
Lemma mcp_tools_list_witness :
  Server.mcp TimeFilter.timeFilterTools
    (protocol_body (Str "tools/list") (Num 7)) sample_world
  = Server.tools_list TimeFilter.timeFilterTools sample_world.
Proof.
  exact (mcp_tools_list_is_tools_list TimeFilter.timeFilterTools
           (protocol_body (Str "tools/list") (Num 7)) (Num 7) sample_world
           eq_refl eq_refl).
Defined.

(** A body that holds the method only. *)
Lemma mcp_tools_call_without_params_witness :
  exists r,
    Server.mcp TimeFilter.timeFilterTools
      (Obj [ ("method", Str "tools/call") ]) sample_world
    = (Normal r, after_id sample_world)
    /\ Server.status r = 500
    /\ is_error_envelope (Server.body r) = true
    /\ error_code (Server.body r) = Num (-32603).
Proof.
  apply (mcp_tools_call_without_params TimeFilter.timeFilterTools
           (Obj [ ("method", Str "tools/call") ]) Undefined sample_world).
  - reflexivity.
  - reflexivity.
  - left. reflexivity.
Defined.

(** The key [s3cret] behind the middleware: presented after ["Bearer "],
    and not presented by ["Basic s3cret"]. *)
Lemma guarded_tools_call_witness :
  Auth.post_mcp_tools_call (Some "s3cret") (Some "Bearer s3cret")
    (call_body "list_time_periods" (Obj [])) sample_world
  = Server.post_mcp_tools_call (call_body "list_time_periods" (Obj []))
      sample_world
  /\ exists r,
       Auth.post_mcp_tools_call (Some "s3cret") (Some "Basic s3cret")
         (call_body "list_time_periods" (Obj [])) sample_world
       = (Normal r, sample_world)
       /\ Server.status r = 401.
Proof.
  split.
  - apply (guarded_tools_call "s3cret" "Bearer s3cret"); [discriminate |].
    left. reflexivity.
  - apply (guarded_tools_call "s3cret" "Basic s3cret"); [discriminate |].
    intros [H | [H | [H | [H _]]]]; discriminate H.
Defined.

(** Keys of the default length 32 and of length 8, the picks running
    through the alphabet. *)
Lemma generated_key_witness :
  Auth.validateApiKeyFormat
    (Str (Auth.generateApiKey 32 (fun i => Nat.modulo (7 * i) 62))) = true
  /\ Auth.validateApiKeyFormat
       (Str (Auth.generateApiKey 8 (fun i => Nat.modulo (7 * i) 62))) = false.
Proof.
  assert (Hpicks : forall i, (Nat.modulo (7 * i) 62 < 62)%nat).
  { intros i. apply Nat.mod_upper_bound. discriminate. }
  split.
  - exact (proj2 (generated_key_is_valid_from_16 32 _ Hpicks)).
  - exact (proj2 (generated_key_is_valid_from_16 8 _ Hpicks)).
Defined.

(** A key of sixteen letters and digits, sent bare. *)
Lemma valid_key_witness :
  Auth.authMiddleware (Some "abcdefgh12345678") (Some "abcdefgh12345678")
  = Auth.Next.
Proof. exact (valid_key_can_be_sent_bare "abcdefgh12345678" eq_refl). Defined.

(** ["LAST 7 DAYS"] selects "Last 7 days", though "Last 14 days" and the
    other "Last" entries stand around it. *)
Lemma catalog_names_witness :
  exists outcome w',
    TimeFilter.setTimePeriodTool_execute
      (TimeFilter.SetTimePeriodArgs.mk "LAST 7 DAYS" "Overview") sample_world
    = (Normal outcome, w')
    /\ field outcome "success" = Bool true
    /\ field (field outcome "filterConfig") "periodName" = Str "Last 7 days"
    /\ field (field outcome "filterConfig") "periodScale" = Num 20.
Proof.
  apply (catalog_names_select_themselves "LAST 7 DAYS" "Overview"
           (TimeFilter.mkPeriod "Last 7 days" 20 false) sample_world).
  - do 6 right. left. reflexivity.
  - reflexivity.
Defined.

(** list_time_periods with a number for [arguments]. *)
Lemma list_time_periods_ignores_arguments_witness :
  exists r,
    Server.post_mcp_tools_call (call_body "list_time_periods" (Num 7))
      sample_world
    = (Normal r, after_id sample_world)
    /\ Server.post_mcp_tools_call (call_body "list_time_periods" (Obj []))
         sample_world
       = (Normal r, after_id sample_world)
    /\ Server.status r = 200.
Proof.
  exact (list_time_periods_ignores_arguments (Num 7) sample_world eq_refl).
Defined.

(** The tab name [Customer Journey Map]: the second space stays. *)
Lemma action_target_witness :
  exists outcome w',
    TimeFilter.setTimePeriodTool_execute
      (TimeFilter.SetTimePeriodArgs.mk "today" "Customer Journey Map")
      sample_world
    = (Normal outcome, w')
    /\ field (field outcome "action") "target"
       = Str "filter-customer-journey map".
Proof.
  assert (Hfirst : first_match sample_world "today"
                     (TimeFilter.mkPeriod "Today" 5 false))
    by (apply first_match_selected; vm_compute; reflexivity).
  destruct (action_target_replaces_first_space_only
              "today" "Customer Journey Map" _ sample_world Hfirst)
    as (outcome & w' & Hrun & Hsplit & _).
  exists outcome, w'. split; [exact Hrun |].
  exact (Hsplit "customer" "journey map" eq_refl eq_refl).
Defined.

(** A call without [arguments]. *)
Lemma tools_call_guard_witness :
  exists r w',
    Server.tools_call TimeFilter.timeFilterTools
      (Obj [ ("name", Str "list_time_periods") ]) sample_world
    = (Normal r, w')
    /\ Server.status r = 400
    /\ is_error_envelope (Server.body r) = true
    /\ error_code (Server.body r) = Num (-32600).
Proof.
  apply (tools_call_guard TimeFilter.timeFilterTools
           (Obj [ ("name", Str "list_time_periods") ])
           (Str "list_time_periods") Undefined sample_world).
  - reflexivity.
  - reflexivity.
  - right. reflexivity.
Defined.

(** January 2024, asked for in October 2024. *)
Lemma set_custom_date_range_dates_witness :
  exists outcome w',
    TimeFilter.setCustomDateRangeTool_execute
      (TimeFilter.SetCustomDateRangeArgs.mk "2024-01-01" "2024-01-31" "Overview")
      sample_world
    = (Normal outcome, w')
    /\ field outcome "success" = Bool true
    /\ field (field outcome "filterConfig") "startDate"
       = Str "2024-01-01T00:00:00.000Z"
    /\ field (field outcome "filterConfig") "endDate"
       = Str "2024-01-31T00:00:00.000Z"
    /\ field (field outcome "filterConfig") "periodName"
       = Str "Custom (2024-01-01 to 2024-01-31)".
Proof.
  apply (set_custom_date_range_gives_the_dates_back
           "2024-01-01" "2024-01-31" "Overview" 1704067200000 1706659200000
           sample_world).
  - intros s t H. exact H.
  - vm_compute. reflexivity.
  - vm_compute. reflexivity.
  - lia.
  - vm_compute. discriminate.
Defined.
